(** * cliStocksTracker: valuation, cost basis and chart preparation

    A shallow embedding of [cliStocksTracker.py].  Python floats are IEEE
    binary64 numbers, which is what Rocq's primitive [float] is, so every
    arithmetic operation and comparison of the program is the corresponding
    primitive operation: rounding, infinities, signed zeros and NaN behave
    as they do in the interpreter.  Exceptions are an explicit result type;
    the objects the program mutates (the portfolio, and the stocks that the
    graphs share with it) are passed and returned explicitly. *)

From Stdlib Require Import Floats ZArith Lia Ascii String.
From stdpp Require Import base option list strings.

(** ** Exceptions and results *)

(** Which loop of [average_buyin] called [exit()]. *)
Inductive lot_side : Type := BuySide | SellSide.

(** The exceptions the embedded code can raise.  [SystemExit] is what
    [exit()] raises; its argument records which message was printed. *)
Inductive exn : Type :=
| IndexError
| KeyError
| ValueError
| ZeroDivisionError
| SystemExit (side : lot_side).

Inductive result (A : Type) : Type :=
| Ok (a : A)
| Raise (e : exn).

Arguments Ok {A} a.
Arguments Raise {A} e.

Definition bind {A B : Type} (r : result A) (k : A -> result B) : result B :=
  match r with
  | Ok a => k a
  | Raise e => Raise e
  end.

(** The value of a result, or [default] when it is an exception. *)
Definition result_get {A : Type} (default : A) (r : result A) : A :=
  match r with
  | Ok a => a
  | Raise _ => default
  end.

Declare Scope py_scope.
Delimit Scope py_scope with py.
Notation "'do' x <- c ; k" := (bind c (fun x => k))
  (at level 10, x name, c at level 100, k at level 200) : py_scope.
Notation "'do' ' p <- c ; k" := (bind c (fun x => match x with p => k end))
  (at level 10, p pattern, c at level 100, k at level 200) : py_scope.
Open Scope py_scope.

(** ** Python built-ins on floats and lists *)

(** [x / y]: true division raises on a zero divisor (of either sign). *)
Definition py_truediv (x y : float) : result float :=
  if (y =? 0)%float then Raise ZeroDivisionError else Ok (x / y)%float.

(** [l[i]] for a non-negative index. *)
Definition py_getitem {A : Type} (l : list A) (i : nat) : result A :=
  match l !! i with
  | Some x => Ok x
  | None => Raise IndexError
  end.

(** [l[-1]]. *)
Definition py_last {A : Type} (l : list A) : result A :=
  match last l with
  | Some x => Ok x
  | None => Raise IndexError
  end.

(** [min(l)]: the first item, replaced by each later item that compares
    strictly below the current candidate; [ValueError] on an empty list. *)
Definition py_min (l : list float) : result float :=
  match l with
  | [] => Raise ValueError
  | x :: t => Ok (fold_left (fun m y => if (y <? m)%float then y else m) t x)
  end.

(** [max(l)]: as [min], with items that compare strictly above. *)
Definition py_max (l : list float) : result float :=
  match l with
  | [] => Raise ValueError
  | x :: t => Ok (fold_left (fun m y => if (m <? y)%float then y else m) t x)
  end.

(** [len(l)] converted to a float, as [/] does with an integer operand. *)
Definition py_len_float {A : Type} (l : list A) : float :=
  PrimFloat.of_uint63 (Uint63.of_Z (Z.of_nat (length l))).

(** Insertion-ordered dictionaries with string keys: assigning to a key that
    is present replaces the value where it stands, a new key goes last. *)
Definition dict (V : Type) : Type := list (string * V).

Fixpoint dict_get {V : Type} (k : string) (d : dict V) : option V :=
  match d with
  | [] => None
  | (k', v) :: d' => if String.eqb k k' then Some v else dict_get k d'
  end.

Fixpoint dict_set {V : Type} (k : string) (v : V) (d : dict V) : dict V :=
  match d with
  | [] => [(k, v)]
  | (k', v') :: d' =>
      if String.eqb k k' then (k, v) :: d' else (k', v') :: dict_set k v d'
  end.

Definition dict_keys {V : Type} (d : dict V) : list string := map fst d.
Definition dict_values {V : Type} (d : dict V) : list V := map snd d.

(** ** Cost basis: [Portfolio.average_buyin] *)

(** One [count@price] entry after [split] and the two [float(...)]
    conversions: [lot_qty] is [float(buy[0])], [lot_price] is
    [float(buy[1])]. *)
Record lot : Type := mkLot { lot_qty : float; lot_price : float }.

(** One of the two [for] loops: [c] and [p] are the running count and the
    running cost; a count [<= 0] prints the message of [side] and exits. *)
Fixpoint sum_lots (side : lot_side) (lots : list lot) (c p : float)
  : result (float * float) :=
  match lots with
  | [] => Ok (c, p)
  | l :: rest =>
      let next_c := lot_qty l in
      if (next_c <=? 0)%float then Raise (SystemExit side)
      else sum_lots side rest (c + next_c)%float (p + lot_price l * next_c)%float
  end.

Definition average_buyin (buys sells : list lot) : result (float * float) :=
  do '(buy_c, buy_p) <- sum_lots BuySide buys 0%float 0%float;
  do '(sell_c, sell_p) <- sum_lots SellSide sells 0%float 0%float;
  let count := (buy_c - sell_c)%float in
  if (count =? 0)%float then Ok (0%float, 0%float)
  else
    do bought_at <- py_truediv (buy_p - sell_p)%float count;
    Ok (count, bought_at).


(** ** Stocks *)

Record Stock : Type := mkStock {
  symbol : string;
  value : float;
  data : list float;
  graph : bool;
  color : option string
}.

(** [Stock.__init__]. *)
Definition new_Stock (sym : string) : Stock := mkStock sym 0%float [] false None.

(** Assignments to the attributes of a stock. *)
Definition set_data (stock : Stock) (d : list float) : Stock :=
  mkStock (symbol stock) (value stock) d (graph stock) (color stock).

Definition set_value (stock : Stock) (v : float) : Stock :=
  mkStock (symbol stock) v (data stock) (graph stock) (color stock).

Definition set_graph (stock : Stock) (g : bool) : Stock :=
  mkStock (symbol stock) (value stock) (data stock) g (color stock).

Definition get_curr (stock : Stock) : result float := py_last (data stock).

Definition get_open (stock : Stock) : result float := py_getitem (data stock) 0.

Definition get_data (stock : Stock) : list float := data stock.

Definition calc_value (stock : Stock) (stocks_count : float) : result float :=
  do curr <- py_last (data stock);
  Ok (curr * stocks_count)%float.

(** ** NaN repair: the inner loop of [Graph.gen_graph]

    [for q in range(len(stock.data))]: the range is fixed when the loop
    starts, [n] is the number of iterations left and [q] the current index;
    the list is updated in place, so later iterations read earlier
    substitutions. *)
Fixpoint repair_loop (n q : nat) (d : list float) : result (list float) :=
  match n with
  | O => Ok d
  | S n' =>
      do x <- py_getitem d q;
      if PrimFloat.is_nan x then
        let index := if (1 <=? q)%nat then (q - 1)%nat else (q + 1)%nat in
        do v <- py_getitem d index;
        repair_loop n' (S q) (<[q := v]> d)
      else repair_loop n' (S q) d
  end.

Definition nan_repair (d : list float) : result (list float) :=
  repair_loop (length d) 0 d.

(** ** What the program imports from outside this file

    [webcolors] (the CSS3 name table and [hex_to_rgb]), the palette
    [autocolors.color_list], [utils.round_value] and the built-ins
    [round(x, n)] and [sum] (whose rounding of a sum of floats depends on
    the interpreter's version) are not part of [cliStocksTracker.py]; the
    embedding takes them as given. *)
Definition rgb : Type := (Z * Z * Z)%type.

Class Externals : Type := {
  CSS3_NAMES_TO_HEX : dict string;
  hex_to_rgb : string -> result rgb;
  autocolors_color_list : list string;
  round_value : float -> string -> Z -> float;
  py_round : float -> Z -> float;
  py_sum : list float -> float
}.

(** ** The portfolio *)

(** One line drawn by [plot.plot]: the x positions are [start] plus as many
    minutes as the sample's index, kept here as the minute offsets. *)
Record plot_line : Type := mkLine {
  line_xs : list nat;
  line_ys : list float;
  line_lc : rgb;
  line_label : string
}.

(** A [Graph].  Its [stocks] are the very objects of the portfolio's
    dictionary, so the embedding keeps their keys and reads and writes the
    objects in the portfolio's dictionary. [g_y_min], [g_y_max] and
    [g_lines] are what [gen_graph] computes. *)
Record Graph : Type := mkGraph {
  g_stocks : list string;
  g_width : Z;
  g_height : Z;
  g_colors : list (option string);
  g_y_min : float;
  g_y_max : float;
  g_lines : list plot_line
}.

(** [Graph.__init__], without the wall-clock window of the x axis. *)
Definition new_Graph (stks : list string) (width height : Z)
    (colors : list (option string)) : Graph :=
  mkGraph stks width height colors 0%float 0%float [].

(** [graphs], [current_value] and [opening_value] are attributes that
    [gen_graphs] and [print_table] create; nothing reads them earlier. *)
Record Portfolio : Type := mkPortfolio {
  stocks : dict Stock;
  stocks_metadata : dict (float * float);
  initial_value : float;
  color_list : list (option string);
  graphs : list Graph;
  current_value : float;
  opening_value : float
}.

(** [Portfolio.__init__]. *)
Definition new_Portfolio : Portfolio :=
  mkPortfolio [] [] 0%float [] [] 0%float 0%float.

Definition set_stocks (self : Portfolio) (st : dict Stock) : Portfolio :=
  mkPortfolio st (stocks_metadata self) (initial_value self) (color_list self)
    (graphs self) (current_value self) (opening_value self).

Definition set_graphs (self : Portfolio) (gs : list Graph) : Portfolio :=
  mkPortfolio (stocks self) (stocks_metadata self) (initial_value self)
    (color_list self) gs (current_value self) (opening_value self).

Definition set_totals (self : Portfolio) (cur opn : float) : Portfolio :=
  mkPortfolio (stocks self) (stocks_metadata self) (initial_value self)
    (color_list self) (graphs self) cur opn.

Definition add_stock (self : Portfolio) (stock : Stock) (count value : float)
    (color : option string) : Portfolio :=
  mkPortfolio
    (dict_set (symbol stock) stock (stocks self))
    (dict_set (symbol stock) (count, value) (stocks_metadata self))
    (initial_value self + count * value)%float
    (color_list self ++ [color])
    (graphs self) (current_value self) (opening_value self).

(** ** [Portfolio.populate] *)

(** One section of [portfolio.ini]: each key is absent ([None], or no lot)
    or present; [cfg_buy] and [cfg_sell] hold the lots of the [buy] and
    [sell] keys, one or several. *)
Record StockConfig : Type := mkStockConfig {
  cfg_graph : option string;
  cfg_buy : list lot;
  cfg_sell : list lot;
  cfg_color : option string
}.

(** [market_data]: the [Open] columns of the downloaded frame, in the
    frame's order, each with its ticker and its prices. *)
Definition MarketData : Type := list (string * list float).

Definition dict_lookup {V : Type} (k : string) (d : dict V) : result V :=
  match dict_get k d with
  | Some v => Ok v
  | None => Raise KeyError
  end.

Definition is_css3_name `{Externals} (c : string) : bool :=
  match dict_get c CSS3_NAMES_TO_HEX with
  | Some _ => true
  | None => false
  end.

(** The body of [for td in market_data[["Open"]]].  The warning about a
    colour that is not recognised goes to the standard error and is not
    kept. *)
Definition populate_stock `{Externals} (stocks_config : dict StockConfig)
    (self : Portfolio) (td : string * list float) : result Portfolio :=
  let '(stock, d) := td in
  let new_stock := new_Stock stock in
  let new_stock := set_data new_stock d in
  do v <- py_last d;
  let new_stock := set_value new_stock v in
  do cfg <- dict_lookup stock stocks_config;
  let new_stock :=
    match cfg_graph cfg with
    | Some s => if String.eqb s "True" then set_graph new_stock true else new_stock
    | None => new_stock
    end in
  let buyin := cfg_buy cfg in
  let sellout := cfg_sell cfg in
  do '(count, bought_at) <- average_buyin buyin sellout;
  let color := cfg_color cfg in
  let colorWarningFlag :=
    match color with
    | None => false
    | Some c => negb (String.prefix "#" c || is_css3_name c)
    end in
  let color := if colorWarningFlag then None else color in
  Ok (add_stock self new_stock count bought_at color).

Fixpoint populate_loop `{Externals} (stocks_config : dict StockConfig)
    (self : Portfolio) (columns : MarketData) : result Portfolio :=
  match columns with
  | [] => Ok self
  | td :: rest =>
      do self' <- populate_stock stocks_config self td;
      populate_loop stocks_config self' rest
  end.

Definition populate `{Externals} (market_data : MarketData)
    (stocks_config : dict StockConfig) (self : Portfolio) : result Portfolio :=
  populate_loop stocks_config self market_data.

(** ** Graphs *)

(** [Graph.find_y_range], reading each stock of the graph in [store]. *)
Fixpoint find_y_range_loop (store : dict Stock) (stks : list string)
    (y_min y_max : float) : result (float * float) :=
  match stks with
  | [] => Ok (y_min, y_max)
  | sym :: rest =>
      do stock <- dict_lookup sym store;
      do lo <- py_min (data stock);
      let y_min := if (lo <? y_min)%float then lo else y_min in
      do hi <- py_max (data stock);
      let y_max := if (y_max <? hi)%float then hi else y_max in
      find_y_range_loop store rest y_min y_max
  end.

Definition find_y_range (store : dict Stock) (g : Graph) : result (float * float) :=
  find_y_range_loop store (g_stocks g) 10000000000000%float 0%float.

(** The colour of line [i]: the [if]/[elif]/[else] of [gen_graph]. *)
Definition line_color `{Externals} (auto_colors : list string)
    (colors : list (option string)) (i : nat) : result rgb :=
  do c <- py_getitem colors i;
  match c with
  | None =>
      do h <- py_getitem auto_colors (i mod 67);
      hex_to_rgb h
  | Some name =>
      if String.prefix "#" name then hex_to_rgb name
      else
        do h <- dict_lookup name CSS3_NAMES_TO_HEX;
        hex_to_rgb h
  end.

(** [for i, stock in enumerate(self.stocks)], from index [i] on: the
    stock's data is repaired in place (in [store]) and then plotted. *)
Fixpoint gen_graph_loop `{Externals} (auto_colors : list string)
    (colors : list (option string)) (store : dict Stock) (i : nat)
    (stks : list string) (lines : list plot_line)
  : result (dict Stock * list plot_line) :=
  match stks with
  | [] => Ok (store, lines)
  | sym :: rest =>
      do lc <- line_color auto_colors colors i;
      do stock <- dict_lookup sym store;
      do d <- nan_repair (data stock);
      let store := dict_set sym (set_data stock d) store in
      let line := mkLine (seq 0 (length d)) d lc (symbol stock) in
      gen_graph_loop auto_colors colors store (S i) rest (lines ++ [line])
  end.

(** [Graph.gen_graph]: the range of the y axis, then one line per stock.
    What [plotille] does with the range and the lines, the drawing, is
    outside the program. *)
Definition gen_graph `{Externals} (auto_colors : list string)
    (store : dict Stock) (g : Graph) : result (dict Stock * Graph) :=
  do '(lo, hi) <- find_y_range store g;
  do '(store', lines) <-
    gen_graph_loop auto_colors (g_colors g) store 0 (g_stocks g) [];
  Ok (store', mkGraph (g_stocks g) (g_width g) (g_height g) (g_colors g)
                 lo hi lines).

(** The independent branch of [gen_graphs]:
    [for i, stock in enumerate(self.get_stocks().values())]. *)
Fixpoint independent_graphs_loop (color_list : list (option string))
    (width height : Z) (i : nat) (values : list Stock) : result (list Graph) :=
  match values with
  | [] => Ok []
  | stock :: rest =>
      if graph stock then
        do c <- py_getitem color_list i;
        do gs <- independent_graphs_loop color_list width height (S i) rest;
        Ok (new_Graph [symbol stock] width height [c] :: gs)
      else independent_graphs_loop color_list width height (S i) rest
  end.

(** [for graph in graphs: graph.gen_graph(autocolors.color_list)]. *)
Fixpoint gen_all `{Externals} (store : dict Stock) (gs : list Graph)
  : result (dict Stock * list Graph) :=
  match gs with
  | [] => Ok (store, [])
  | g :: rest =>
      do '(store', g') <- gen_graph autocolors_color_list store g;
      do '(store'', rest') <- gen_all store' rest;
      Ok (store'', g' :: rest')
  end.

(** [Portfolio.gen_graphs]; its time zone argument only places the x axis
    and is left out with it. *)
Definition gen_graphs `{Externals} (independent_graphs : bool)
    (graph_width graph_height : Z) (self : Portfolio) : result Portfolio :=
  do gs <-
    (if negb independent_graphs then
       let graphing_list := filter (fun s => graph s = true) (dict_values (stocks self)) in
       if (0 <? length graphing_list)%nat then
         Ok [new_Graph (map symbol graphing_list) graph_width graph_height
               (take (length graphing_list) (color_list self))]
       else Ok []
     else
       independent_graphs_loop (color_list self) graph_width graph_height 0
         (dict_values (stocks self)));
  do '(store, gs') <- gen_all (stocks self) gs;
  Ok (set_graphs (set_stocks self store) gs').

(** ** [Portfolio.print_table] *)

(** One line of the table.  The program stores each cell as text (a [$] or
    a sign in front of [str] of the number); the embedding keeps the number
    each cell shows, and the boolean that chooses the line's colour. *)
Record table_line : Type := mkTableLine {
  cell_ticker : string;
  cell_last : float;
  cell_change : float;
  cell_change_pct : float;
  cell_low : float;
  cell_high : float;
  cell_avg : float;
  cell_owned : float;
  cell_mkt_value : float;
  cell_avg_share : float;
  cell_total_cost : float;
  cell_green : bool
}.

(** The argument of [round_value] in the [change %] cell. *)
Definition change_percent (stock : Stock) : result float :=
  do curr <- get_curr stock;
  do opn <- get_open stock;
  do curr' <- get_curr stock;
  do q <- py_truediv (curr - opn)%float curr';
  Ok (q * 100)%float.

(** The part of the loop body that builds [line] for one stock. *)
Definition table_line_of `{Externals} (mode : string)
    (metadata : dict (float * float)) (stock : Stock) : result table_line :=
  do curr <- get_curr stock;
  do opn <- get_open stock;
  let change_d := round_value (curr - opn)%float mode 2 in
  do pct <- change_percent stock;
  let change_p := round_value pct mode 2 in
  do last <- get_curr stock;
  do lo <- py_min (get_data stock);
  do hi <- py_max (get_data stock);
  do avg <- py_truediv (py_sum (get_data stock)) (py_len_float (get_data stock));
  do meta <- dict_lookup (symbol stock) metadata;
  do curr_value <- calc_value stock (fst meta);
  let cost := (fst meta * snd meta)%float in
  Ok (mkTableLine (symbol stock)
        (round_value last mode 2) change_d change_p
        (round_value lo mode 2) (round_value hi mode 2) (round_value avg mode 2)
        (py_round (fst meta) 3)
        (round_value curr_value mode 2)
        (py_round (snd meta) 2)
        (round_value cost mode 2)
        (0 <=? change_d)%float).

(** [for stock in self.stocks.values()]: the lines built so far and the two
    running totals. *)
Fixpoint print_table_loop `{Externals} (mode : string)
    (metadata : dict (float * float)) (values : list Stock)
    (table : list table_line) (cur opn : float)
  : result (list table_line * float * float) :=
  match values with
  | [] => Ok (table, cur, opn)
  | stock :: rest =>
      do line <- table_line_of mode metadata stock;
      do meta <- dict_lookup (symbol stock) metadata;
      do v <- calc_value stock (fst meta);
      do o <- get_open stock;
      do meta' <- dict_lookup (symbol stock) metadata;
      print_table_loop mode metadata rest (table ++ [line])
        (cur + v)%float (opn + o * fst meta')%float
  end.

(** What [print_gains] shows: the colour, the rounded gain and the rounded
    gain in percent of the current value. *)
Record gains_line : Type := mkGains {
  positive_gain : bool;
  shown_gain : float;
  shown_gain_pct : float
}.

Definition print_gains `{Externals} (self : Portfolio) (gain : float)
    (mode : string) : result gains_line :=
  do q <- py_truediv gain (current_value self);
  Ok (mkGains (0 <=? gain)%float
        (PrimFloat.abs (round_value gain mode 2))
        (PrimFloat.abs (round_value (q * 100)%float mode 2))).

(** Everything [print_table] prints. *)
Record report : Type := mkReport {
  rep_table : list table_line;
  rep_total_cost : float;
  rep_total_value : float;
  value_gained_day : float;
  value_gained_all : float;
  rep_today : gains_line;
  rep_overall : gains_line
}.

Definition print_table `{Externals} (mode : string) (self : Portfolio)
  : result (Portfolio * report) :=
  do '(table, cur, opn) <-
    print_table_loop mode (stocks_metadata self) (dict_values (stocks self))
      [] 0%float 0%float;
  let self := set_totals self cur opn in
  let value_gained_day := (current_value self - opening_value self)%float in
  do today <- print_gains self value_gained_day mode;
  let value_gained_all := (current_value self - initial_value self)%float in
  do overall <- print_gains self value_gained_all mode;
  Ok (self, mkReport table (py_round (initial_value self) 2)
              (py_round (current_value self) 2)
              value_gained_day value_gained_all today overall).

(** ** [main], from the fetched data on

    [print_graphs] prints the drawings and changes nothing. *)

Definition main `{Externals} (market_data : MarketData)
    (stocks_config : dict StockConfig) (independent_graphs : bool)
    (graph_width graph_height : Z) (rounding_mode : string)
  : result (Portfolio * report) :=
  do portfolio <- populate market_data stocks_config new_Portfolio;
  do portfolio <- gen_graphs independent_graphs graph_width graph_height portfolio;
  print_table rounding_mode portfolio.

(** ** [verify_config_keys] *)

(** A configuration file as the parser presents it: [config.keys()] lists
    [DEFAULT] and then the sections, and [config[section]] maps the keys of
    a section to their texts. *)
Definition Config : Type := dict (dict string).

(** The three messages that [verify_config_keys] can print. *)
Inductive config_message : Type :=
| MissingSection
| MissingKeys (section : string)
| NoStocks.

Definition config_keys : dict (list string) :=
  [("DEFAULT", []);
   ("Frame", ["width"; "height"]);
   ("General", ["independent_graphs"; "timezone"; "rounding_mode"])].

(** [for section in config_keys], from [sections] on. *)
Fixpoint verify_sections (config : Config) (sections : dict (list string))
  : result (option config_message) :=
  match sections with
  | [] => Ok None
  | (section, keys) :: rest =>
      do found <- dict_lookup section config;
      if bool_decide (keys <> dict_keys found) then Ok (Some (MissingKeys section))
      else verify_sections config rest
  end.

(** [verify_config_keys] prints at most one message and returns [None]
    in every case; the embedding returns the message.  The sections of
    [portfolio.ini] are kept without [DEFAULT], which the parser lists
    first. *)
Definition verify_config_keys (config : Config)
    (stocks_config : dict StockConfig) : result (option config_message) :=
  if bool_decide (dict_keys config_keys <> dict_keys config)
  then Ok (Some MissingSection)
  else
    do message <- verify_sections config config_keys;
    match message with
    | Some m => Ok (Some m)
    | None =>
        if bool_decide ("DEFAULT" :: dict_keys stocks_config = ["DEFAULT"])
        then Ok (Some NoStocks)
        else Ok None
    end.

(** ** [main], from the command line on *)

(** The exceptions of this part: those above, and [AttributeError] for an
    attribute that the parsed arguments do not have. *)
Inductive py_error : Type :=
| Builtin (e : exn)
| AttributeError (attribute : string).

Inductive outcome (A : Type) : Type :=
| Returned (a : A)
| Failed (e : py_error).

Arguments Returned {A} a.
Arguments Failed {A} e.

Definition lift {A : Type} (r : result A) : outcome A :=
  match r with
  | Ok a => Returned a
  | Raise e => Failed (Builtin e)
  end.

Definition outcome_bind {A B : Type} (r : outcome A) (k : A -> outcome B)
  : outcome B :=
  match r with
  | Returned a => k a
  | Failed e => Failed e
  end.

Notation "'run' x <- c ; k" := (outcome_bind c (fun x => k))
  (at level 10, x name, c at level 100, k at level 200) : py_scope.
Notation "'run' ' p <- c ; k" :=
  (outcome_bind c (fun x => match x with p => k end))
  (at level 10, p pattern, c at level 100, k at level 200) : py_scope.

(** What [parse_args] returns, as far as [main] reads it after the data
    were fetched: [--width] and [--height] are integers or absent,
    [--independent-graphs] is a flag, [--timezone] has a default and so is
    always a text, [--rounding-mode] is a text or absent. *)
Record Args : Type := mkArgs {
  arg_width : option Z;
  arg_height : option Z;
  arg_independent_graphs : bool;
  arg_timezone : string;
  arg_rounding_mode : option string
}.

(** Truth values of an optional integer and of a text. *)
Definition truthy_int (x : option Z) : bool :=
  match x with
  | Some n => negb (n =? 0)%Z
  | None => false
  end.

Definition truthy_str (s : string) : bool := negb (String.eqb s EmptyString).

(** [config[section][key]]. *)
Definition config_item (config : Config) (section key : string) : result string :=
  do found <- dict_lookup section config;
  dict_lookup key found.

Section CommandLine.

(** The built-in [int] on a text: [None] stands for its [ValueError]. *)
Variable py_int : string -> option Z.

Definition int_of (s : string) : outcome Z :=
  match py_int s with
  | Some n => Returned n
  | None => Failed (Builtin ValueError)
  end.

(** The four arguments of the call of [gen_graphs] in [main], evaluated
    from left to right.  The parsed arguments have the attributes [width]
    and [height]; [graph_width] and [graph_height] are not among them. *)
Definition graph_arguments (args : Args) (config : Config)
  : outcome (bool * Z * Z * string) :=
  run flag <- lift (config_item config "General" "independent_graphs");
  let independent_graphs := String.eqb flag "True" || arg_independent_graphs args in
  run width <-
    (if truthy_int (arg_width args) then Failed (AttributeError "graph_width")
     else run s <- lift (config_item config "Frame" "width"); int_of s);
  run height <-
    (if truthy_int (arg_height args) then Failed (AttributeError "graph_height")
     else run s <- lift (config_item config "Frame" "height"); int_of s);
  run timezone <-
    (if truthy_str (arg_timezone args) then Returned (arg_timezone args)
     else lift (config_item config "General" "timezone"));
  Returned (independent_graphs, width, height, timezone).

(** [args.rounding_mode or config["General"]["rounding_mode"]]. *)
Definition rounding_argument (args : Args) (config : Config) : outcome string :=
  match arg_rounding_mode args with
  | Some s =>
      if truthy_str s then Returned s
      else lift (config_item config "General" "rounding_mode")
  | None => lift (config_item config "General" "rounding_mode")
  end.

(** [main] once the two files are read and the data are fetched.  What
    [verify_config_keys] prints does not stop the run. *)
Definition main_cli `{Externals} (market_data : MarketData) (args : Args)
    (config : Config) (stocks_config : dict StockConfig)
  : outcome (Portfolio * report) :=
  run message <- lift (verify_config_keys config stocks_config);
  run portfolio <- lift (populate market_data stocks_config new_Portfolio);
  run ' (independent_graphs, width, height, timezone) <-
    graph_arguments args config;
  run portfolio <- lift (gen_graphs independent_graphs width height portfolio);
  run mode <- rounding_argument args config;
  lift (print_table mode portfolio).

End CommandLine.

(** ** A concrete environment, to run the program on examples *)

Definition hex_digit (c : Ascii.ascii) : option Z :=
  let n := Z.of_nat (Ascii.nat_of_ascii c) in
  if ((48 <=? n) && (n <=? 57))%Z then Some (n - 48)%Z
  else if ((97 <=? n) && (n <=? 102))%Z then Some (n - 87)%Z
  else if ((65 <=? n) && (n <=? 70))%Z then Some (n - 55)%Z
  else None.

(** [#rrggbb] read as three bytes; anything else is a [ValueError]. *)
Definition demo_hex_to_rgb (s : string) : result rgb :=
  match String.list_ascii_of_string s with
  | [h; r1; r0; g1; g0; b1; b0] =>
      match hex_digit r1, hex_digit r0, hex_digit g1, hex_digit g0,
            hex_digit b1, hex_digit b0 with
      | Some a, Some b, Some c, Some d, Some e, Some f =>
          if Ascii.eqb h "#"%char then Ok (16 * a + b, 16 * c + d, 16 * e + f)%Z
          else Raise ValueError
      | _, _, _, _, _, _ => Raise ValueError
      end
  | _ => Raise ValueError
  end.

Definition hex_char (n : nat) : string :=
  String (nth n (String.list_ascii_of_string "0123456789abcdef") "0"%char) EmptyString.

(** A palette of 67 distinct colours, [#0000NN] for [NN] from [00] to [42]. *)
Definition demo_palette : list string :=
  map (fun n => "#0000" +:+ hex_char (n / 16) +:+ hex_char (n mod 16)) (seq 0 67).

#[local] Instance demo_externals : Externals := {|
  CSS3_NAMES_TO_HEX := [("red", "#ff0000"); ("lime", "#00ff00"); ("blue", "#0000ff")];
  hex_to_rgb := demo_hex_to_rgb;
  autocolors_color_list := demo_palette;
  round_value := fun x _ _ => x;
  py_round := fun x _ => x;
  py_sum := fun l => fold_left (fun acc y => (acc + y)%float) l 0%float
|}.

Definition demo_config : dict StockConfig :=
  [("AAA", mkStockConfig (Some "True") [mkLot 10 100] [] None);
   ("BBB", mkStockConfig (Some "True") [mkLot 5 50] [] None)].

Definition demo_market : MarketData :=
  [("AAA", [100; 105; 110]%float); ("BBB", [50; 48; 52]%float)].


(** A [config.ini] with every section and key, a command line without
    options, and [int] on texts made of decimal digits. *)
Definition demo_ini : Config :=
  [("DEFAULT", []);
   ("Frame", [("width", "80"); ("height", "20")]);
   ("General", [("independent_graphs", "False");
                ("timezone", "America/New_York");
                ("rounding_mode", "math")])].

Definition demo_args : Args := mkArgs None None false "America/New_York" None.

Fixpoint digits_value (cs : list Ascii.ascii) (acc : Z) : option Z :=
  match cs with
  | [] => Some acc
  | c :: rest =>
      let n := Z.of_nat (Ascii.nat_of_ascii c) in
      if ((48 <=? n) && (n <=? 57))%Z then digits_value rest (10 * acc + (n - 48))%Z
      else None
  end.

Definition demo_int (s : string) : option Z :=
  match String.list_ascii_of_string s with
  | [] => None
  | cs => digits_value cs 0
  end.

(** Fetched data with gaps: [AAA] is to be graphed, [BBB] is not. *)
Definition gap_config : dict StockConfig :=
  [("AAA", mkStockConfig (Some "True") [mkLot 10 100] [] None);
   ("BBB", mkStockConfig None [mkLot 5 50] [] None)].

Definition gap_market : MarketData :=
  [("AAA", [5; nan; 7]%float); ("BBB", [50; nan; 52]%float)].

(** The first holding is not graphed, the second is; no colour is asked. *)
Definition second_only_config : dict StockConfig :=
  [("AAA", mkStockConfig None [mkLot 10 100] [] None);
   ("BBB", mkStockConfig (Some "True") [mkLot 5 50] [] None)].

(** ** Definitions used to state the properties *)

(** Sums of floats are taken left to right from [0], as the program's
    accumulators do. *)
Definition float_sum (l : list float) : float :=
  fold_left (fun acc y => (acc + y)%float) l 0%float.

(** Sum of the quantities of a list of lots, and sum of quantity times
    price. *)
Definition total_qty (lots : list lot) : float :=
  float_sum (map lot_qty lots).

Definition total_cost (lots : list lot) : float :=
  float_sum (map (fun l => (lot_qty l * lot_price l)%float) lots).

(** The repair policy in the words of the specification: a sample that is
    not finite, at index [i], takes the value at [i-1] if that index exists
    and its value is finite, and otherwise the value at [i+1]; one pass,
    left to right. *)
Fixpoint stated_repair_loop (n q : nat) (d : list float) : result (list float) :=
  match n with
  | O => Ok d
  | S n' =>
      do x <- py_getitem d q;
      if negb (PrimFloat.is_finite x) then
        let left_ok :=
          match q with
          | O => false
          | S p => match d !! p with
                   | Some v => PrimFloat.is_finite v
                   | None => false
                   end
          end in
        let index := if left_ok then (q - 1)%nat else (q + 1)%nat in
        do v <- py_getitem d index;
        stated_repair_loop n' (S q) (<[q := v]> d)
      else stated_repair_loop n' (S q) d
  end.

Definition stated_repair (d : list float) : result (list float) :=
  stated_repair_loop (length d) 0 d.

(** Forward fill: each NaN takes the value that now stands to its left. *)
Fixpoint fill_forward (prev : float) (l : list float) : list float :=
  match l with
  | [] => []
  | x :: t =>
      let y := if PrimFloat.is_nan x then prev else x in
      y :: fill_forward y t
  end.

(** The keys of a dictionary of stocks are distinct and each stock is
    stored under its own symbol. *)
Definition stocks_wf (store : dict Stock) : Prop :=
  NoDup (dict_keys store) /\ Forall (fun kv => symbol (snd kv) = fst kv) store.

(** The samples of all the stocks of a graph. *)
Definition graph_samples (store : dict Stock) (stks : list string) : list float :=
  concat (map (fun sym => match dict_get sym store with
                          | Some s => data s
                          | None => []
                          end) stks).

(** [lo] is the minimum of [l]: it compares equal to a member of [l] and
    below or equal to every member.  Likewise for the maximum. *)
Definition is_minimum (lo : float) (l : list float) : Prop :=
  (exists x, x ∈ l /\ (lo =? x)%float = true) /\
  forall x, x ∈ l -> (lo <=? x)%float = true.

Definition is_maximum (hi : float) (l : list float) : Prop :=
  (exists x, x ∈ l /\ (hi =? x)%float = true) /\
  forall x, x ∈ l -> (x <=? hi)%float = true.

(** Per-holding quantities read by the totals. *)
Definition quantity_of (self : Portfolio) (stock : Stock) : float :=
  match dict_get (symbol stock) (stocks_metadata self) with
  | Some meta => fst meta
  | None => 0%float
  end.

Definition average_cost_of (self : Portfolio) (stock : Stock) : float :=
  match dict_get (symbol stock) (stocks_metadata self) with
  | Some meta => snd meta
  | None => 0%float
  end.

Definition last_sample (stock : Stock) : float := List.last (data stock) 0%float.
Definition first_sample (stock : Stock) : float := List.hd 0%float (data stock).

Definition holdings (self : Portfolio) : list Stock := dict_values (stocks self).

(** What [print_table] needs of a holding to print its line: samples (as
    many as a list can hold), a last price that is not zero, since the
    change in percent divides by it, and its quantity and average cost. *)
Definition printable (self : Portfolio) (stock : Stock) : Prop :=
  data stock <> [] /\
  (Z.of_nat (length (data stock)) < 2 ^ 63)%Z /\
  (last_sample stock =? 0)%float = false /\
  dict_get (symbol stock) (stocks_metadata self) <> None.

(** [store'] is [store] in which the data of the stocks named in [stks]
    have been repaired in place and nothing else has changed. *)
Definition repaired_in (stks : list string) (store store' : dict Stock) : Prop :=
  dict_keys store' = dict_keys store /\
  forall sym s, dict_get sym store = Some s ->
    exists s', dict_get sym store' = Some s' /\
      symbol s' = symbol s /\ graph s' = graph s /\ value s' = value s /\
      (sym ∈ stks -> nan_repair (data s) = Ok (data s')) /\
      (sym ∉ stks -> data s' = data s).

(** The symbols of the stocks that are to be graphed, in the dictionary's
    order. *)
Definition flagged_symbols (store : dict Stock) : list string :=
  map symbol (filter (fun s => graph s = true) (dict_values store)).

(** A generated graph drew, for each of its stocks, one line labelled with
    the stock's symbol, coloured as [line_color] says for the line's index
    in this graph, over the samples the stock has in [store]. *)
Definition graph_drawn `{Externals} (auto_colors : list string)
    (store : dict Stock) (g : Graph) : Prop :=
  length (g_lines g) = length (g_stocks g) /\
  forall k sym, g_stocks g !! k = Some sym ->
    exists line s, g_lines g !! k = Some line /\
      line_color auto_colors (g_colors g) k = Ok (line_lc line) /\
      line_label line = sym /\
      dict_get sym store = Some s /\
      line_ys line = data s.

(** ** Order and sign of floats, read on their specification *)

(** Sign class, then exponent, then mantissa: comparing two floats that
    are not NaN is comparing these triples lexicographically. *)
Definition sf_key (f : spec_float) : option (Z * Z * Z) :=
  match f with
  | S754_nan => None
  | S754_zero _ => Some (0, 0, 0)%Z
  | S754_infinity s => Some (if s then (-2)%Z else 2%Z, 0%Z, 0%Z)
  | S754_finite s m e =>
      Some (if s then ((-1)%Z, (- e)%Z, Z.neg m) else (1%Z, e, Z.pos m))
  end.

Definition fkey (x : float) : option (Z * Z * Z) := sf_key (Prim2SF x).

Definition lex_compare (a b : Z * Z * Z) : comparison :=
  match a, b with
  | (a1, a2, a3), (b1, b2, b3) =>
      match (a1 ?= b1)%Z with
      | Eq => match (a2 ?= b2)%Z with
              | Eq => (a3 ?= b3)%Z
              | c => c
              end
      | c => c
      end
  end.

(** Strictly positive: finite or infinite. *)
Definition sf_positive (f : spec_float) : Prop :=
  match f with
  | S754_finite false _ _ | S754_infinity false => True
  | _ => False
  end.

(** Positive or zero. *)
Definition sf_nonneg (f : spec_float) : Prop :=
  match f with
  | S754_finite false _ _ | S754_infinity false | S754_zero _ => True
  | _ => False
  end.

(** What [populate] reads in a section of [portfolio.ini]: whether the
    stock is to be graphed, and the colour it keeps. *)
Definition wants_graph (cfg : StockConfig) : bool :=
  match cfg_graph cfg with
  | Some s => String.eqb s "True"
  | None => false
  end.

Definition checked_color `{Externals} (c : option string) : option string :=
  match c with
  | Some s => if String.prefix "#" s || is_css3_name s then Some s else None
  | None => None
  end.

(** The holding that a fetched column [(sym, d)] becomes: its stock, its
    quantity and average cost, and its entry in the list of colours. *)
Definition column_entry `{Externals} (stocks_config : dict StockConfig)
    (td : string * list float)
    (entry : Stock * (float * float) * option string) : Prop :=
  exists cfg v,
    dict_get (fst td) stocks_config = Some cfg /\
    last (snd td) = Some v /\
    average_buyin (cfg_buy cfg) (cfg_sell cfg) = Ok (snd (fst entry)) /\
    fst (fst entry) = mkStock (fst td) v (snd td) (wants_graph cfg) None /\
    snd entry = checked_color (cfg_color cfg).


(** The repairs that the graphs make on the shared stocks, one stock after
    the other, without the drawing. *)
Fixpoint repair_all (store : dict Stock) (stks : list string)
  : result (dict Stock) :=
  match stks with
  | [] => Ok store
  | sym :: rest =>
      do stock <- dict_lookup sym store;
      do d <- nan_repair (data stock);
      repair_all (dict_set sym (set_data stock d) store) rest
  end.

(** What the line of a holding shows in the table: the ticker, the rounded
    last price, change, quantity, market value, average cost and total
    cost, and green when the rounded change is not negative. *)
Definition line_of_holding `{Externals} (mode : string) (self : Portfolio)
    (st : Stock) (line : table_line) : Prop :=
  cell_ticker line = symbol st /\
  cell_last line = round_value (last_sample st) mode 2 /\
  cell_change line = round_value (last_sample st - first_sample st)%float mode 2 /\
  cell_owned line = py_round (quantity_of self st) 3 /\
  cell_mkt_value line =
    round_value (last_sample st * quantity_of self st)%float mode 2 /\
  cell_avg_share line = py_round (average_cost_of self st) 2 /\
  cell_total_cost line =
    round_value (quantity_of self st * average_cost_of self st)%float mode 2 /\
  cell_green line = (0 <=? cell_change line)%float.

(** What [print_table] needs of a holding besides a last price that is not
    zero. *)
Definition has_line_inputs (self : Portfolio) (stock : Stock) : Prop :=
  data stock <> [] /\
  (Z.of_nat (length (data stock)) < 2 ^ 63)%Z /\
  dict_get (symbol stock) (stocks_metadata self) <> None.

(** A [config.ini] with the three sections and their keys, in order, and
    nothing else. *)
Definition config_shape (config : Config) : Prop :=
  exists d f g,
    config = [("DEFAULT", d); ("Frame", f); ("General", g)] /\
    dict_keys d = [] /\
    dict_keys f = ["width"; "height"] /\
    dict_keys g = ["independent_graphs"; "timezone"; "rounding_mode"].






(** A zero of either sign. *)
Definition sf_zero (f : spec_float) : Prop :=
  match f with
  | S754_zero _ => True
  | _ => False
  end.

(** ** Look-ups in the portfolio *)

(** [Portfolio.get_stocks] and [Portfolio.get_stock]: [self.stocks] and
    [self.stocks[symbol]]. *)
Definition get_stocks (self : Portfolio) : dict Stock := stocks self.

Definition get_stock (self : Portfolio) (sym : string) : result Stock :=
  dict_lookup sym (stocks self).

(** * Properties *)

(** ** Floats: comparisons *)

Module Float64.

Lemma SFcompare_key (x y : spec_float) :
  SFcompare x y =
    match sf_key x, sf_key y with
    | Some a, Some b => Some (lex_compare a b)
    | _, _ => None
    end.
Proof.
  destruct x as [sx|sx| |sx mx ex], y as [sy|sy| |sy my ey]; simpl;
    try reflexivity;
    try (destruct sx; reflexivity); try (destruct sy; reflexivity);
    try (destruct sx, sy; reflexivity).
  change (PosDef.Pos.compare_cont Eq mx my) with (mx ?= my)%positive.
  destruct sx, sy; simpl; try reflexivity.
  rewrite Z.compare_opp, (Z.compare_antisym ex ey).
  destruct (ex ?= ey)%Z; reflexivity.
Qed.


Lemma lex_compare_spec (a b : Z * Z * Z) :
  match lex_compare a b with
  | Lt => (a.1.1 < b.1.1 \/ (a.1.1 = b.1.1 /\ (a.1.2 < b.1.2 \/ (a.1.2 = b.1.2 /\ a.2 < b.2))))%Z
  | Eq => a = b
  | Gt => (b.1.1 < a.1.1 \/ (a.1.1 = b.1.1 /\ (b.1.2 < a.1.2 \/ (a.1.2 = b.1.2 /\ b.2 < a.2))))%Z
  end.
Proof.
  destruct a as [[a1 a2] a3], b as [[b1 b2] b3]; simpl.
  destruct (Z.compare_spec a1 b1); [|lia..].
  destruct (Z.compare_spec a2 b2); [|lia..].
  destruct (Z.compare_spec a3 b3); [congruence|lia..].
Qed.

Lemma leb_key (x y : float) :
  (x <=? y)%float = true <->
  exists a b, fkey x = Some a /\ fkey y = Some b /\ lex_compare a b <> Gt.
Proof.
  rewrite FloatAxioms.leb_spec. unfold SFleb, fkey. rewrite SFcompare_key.
  destruct (sf_key (Prim2SF x)) as [a|], (sf_key (Prim2SF y)) as [b|];
    try (split; [discriminate | intros (?&?&?&?&?); discriminate]).
  split.
  - intros H. exists a, b. repeat split. destruct (lex_compare a b); congruence.
  - intros (a'&b'&Ha&Hb&H). injection Ha as ->. injection Hb as ->.
    destruct (lex_compare a' b'); congruence.
Qed.

Lemma ltb_key (x y : float) :
  (x <? y)%float = true <->
  exists a b, fkey x = Some a /\ fkey y = Some b /\ lex_compare a b = Lt.
Proof.
  rewrite FloatAxioms.ltb_spec. unfold SFltb, fkey. rewrite SFcompare_key.
  destruct (sf_key (Prim2SF x)) as [a|], (sf_key (Prim2SF y)) as [b|];
    try (split; [discriminate | intros (?&?&?&?&?); discriminate]).
  split.
  - intros H. exists a, b. repeat split. destruct (lex_compare a b); congruence.
  - intros (a'&b'&Ha&Hb&H). injection Ha as ->. injection Hb as ->.
    rewrite H. reflexivity.
Qed.

Lemma eqb_key (x y : float) :
  (x =? y)%float = true <->
  exists a, fkey x = Some a /\ fkey y = Some a.
Proof.
  rewrite FloatAxioms.eqb_spec. unfold SFeqb, fkey. rewrite SFcompare_key.
  destruct (sf_key (Prim2SF x)) as [a|], (sf_key (Prim2SF y)) as [b|];
    try (split; [discriminate | intros (?&?&?); discriminate]).
  pose proof (lex_compare_spec a b) as Hs.
  split.
  - intros H. exists a. split; [reflexivity|]. destruct (lex_compare a b); congruence.
  - intros (c&Ha&Hb). injection Ha as ->. injection Hb as ->.
    destruct (lex_compare c c); [reflexivity|lia..].
Qed.

Ltac same_keys :=
  repeat match goal with
  | H1 : fkey ?x = Some ?a, H2 : fkey ?x = Some ?b |- _ =>
      rewrite H1 in H2; injection H2 as <-
  end.

(** The comparisons of floats are those of a total preorder on the floats
    that are not NaN. *)
Lemma leb_trans (x y z : float) :
  (x <=? y)%float = true -> (y <=? z)%float = true -> (x <=? z)%float = true.
Proof.
  rewrite !leb_key. intros (a&b&Ha&Hb&Hab) (b'&c&Hb'&Hc&Hbc).
  same_keys.
  exists a, c. repeat split; try assumption.
  pose proof (lex_compare_spec a b). pose proof (lex_compare_spec b c).
  pose proof (lex_compare_spec a c).
  destruct (lex_compare a b), (lex_compare b c), (lex_compare a c);
    try congruence; subst; lia.
Qed.

Lemma leb_refl (x y : float) : (x <=? y)%float = true -> (x <=? x)%float = true.
Proof.
  rewrite !leb_key. intros (a&b&Ha&_). exists a, a. repeat split; try assumption.
  pose proof (lex_compare_spec a a). destruct (lex_compare a a); [congruence|lia..].
Qed.

Lemma leb_refl_r (x y : float) : (x <=? y)%float = true -> (y <=? y)%float = true.
Proof.
  rewrite !leb_key. intros (a&b&_&Hb&_). exists b, b. repeat split; try assumption.
  pose proof (lex_compare_spec b b). destruct (lex_compare b b); [congruence|lia..].
Qed.

Lemma ltb_leb (x y : float) : (x <? y)%float = true -> (x <=? y)%float = true.
Proof.
  rewrite ltb_key, leb_key. intros (a&b&Ha&Hb&H). exists a, b. rewrite H. done.
Qed.

Lemma ltb_false_leb (x y : float) :
  (x <=? x)%float = true -> (y <=? y)%float = true ->
  (x <? y)%float = false -> (y <=? x)%float = true.
Proof.
  intros Hx Hy Hlt. apply leb_key.
  apply leb_key in Hx as (a&_&Ha&_). apply leb_key in Hy as (b&_&Hb&_).
  exists b, a. repeat split; try assumption.
  intros Hgt.
  assert ((x <? y)%float = true) as Habs; [|congruence].
  apply ltb_key. exists a, b. repeat split; try assumption.
  pose proof (lex_compare_spec a b). pose proof (lex_compare_spec b a).
  rewrite Hgt in *. destruct (lex_compare a b); try reflexivity; subst; lia.
Qed.

Lemma ltb_leb_false (x y : float) : (x <? y)%float = true -> (y <=? x)%float = false.
Proof.
  intros H. destruct (y <=? x)%float eqn:E; [|reflexivity].
  apply ltb_key in H as (a&b&Ha&Hb&Hab). apply leb_key in E as (b'&a'&Hb'&Ha'&Hba).
  same_keys.
  pose proof (lex_compare_spec a b). pose proof (lex_compare_spec b a).
  rewrite Hab in *. destruct (lex_compare b a); try congruence; subst; lia.
Qed.

Lemma ltb_eqb_false (x y : float) : (x <? y)%float = true -> (y =? x)%float = false.
Proof.
  intros H. destruct (y =? x)%float eqn:E; [|reflexivity].
  apply ltb_key in H as (a&b&Ha&Hb&Hab). apply eqb_key in E as (c&Hy&Hx).
  rewrite Ha in Hx. injection Hx as ->. rewrite Hb in Hy. injection Hy as ->.
  pose proof (lex_compare_spec c c) as Hs. rewrite Hab in Hs. lia.
Qed.

Lemma leb_antisym_eqb (x y : float) :
  (x <=? y)%float = true -> (y <=? x)%float = true -> (x =? y)%float = true.
Proof.
  rewrite !leb_key, eqb_key. intros (a&b&Ha&Hb&Hab) (b'&a'&Hb'&Ha'&Hba).
  same_keys.
  pose proof (lex_compare_spec a b). pose proof (lex_compare_spec b a).
  destruct (lex_compare a b), (lex_compare b a); try congruence; subst;
    try lia; exists b; split; assumption.
Qed.

Create HintDb float_order discriminated.
#[export] Hint Resolve ltb_leb ltb_false_leb leb_refl leb_refl_r : float_order.

(** ** Floats: arithmetic facts *)

Lemma Prim2SF_zero : Prim2SF 0%float = S754_zero false.
Proof. reflexivity. Qed.

Lemma sub_zero_r (x : float) : (x - 0)%float = x.
Proof.
  apply Prim2SF_inj. rewrite sub_spec, Prim2SF_zero.
  destruct (Prim2SF x) as [[]|[]| |]; reflexivity.
Qed.

Lemma mul_comm (x y : float) : (x * y)%float = (y * x)%float.
Proof.
  apply Prim2SF_inj. rewrite !mul_spec.
  destruct (Prim2SF x) as [sx|sx| |sx mx ex], (Prim2SF y) as [sy|sy| |sy my ey];
    simpl; try reflexivity; try (destruct sx, sy; reflexivity).
  unfold SF64mul. simpl. rewrite (Pos.mul_comm mx my), (Z.add_comm ex ey), (xorb_comm sx sy). reflexivity.
Qed.

Lemma ltb_zero_positive (x : float) :
  (0 <? x)%float = true <-> sf_positive (Prim2SF x).
Proof.
  rewrite FloatAxioms.ltb_spec, Prim2SF_zero. unfold SFltb.
  destruct (Prim2SF x) as [s|[]| |[] m e]; simpl; intuition congruence.
Qed.

Lemma leb_zero_nonneg (x : float) :
  (0 <=? x)%float = true <-> sf_nonneg (Prim2SF x).
Proof.
  rewrite FloatAxioms.leb_spec, Prim2SF_zero. unfold SFleb.
  destruct (Prim2SF x) as [s|[]| |[] m e]; simpl; intuition congruence.
Qed.

Lemma digits2_pos_bounds (m : positive) :
  (2 ^ (Z.pos (digits2_pos m) - 1) <= Z.pos m < 2 ^ Z.pos (digits2_pos m))%Z.
Proof.
  induction m as [m IH|m IH|]; simpl digits2_pos.
  - rewrite Pos2Z.inj_succ.
    replace (Z.succ (Z.pos (digits2_pos m)) - 1)%Z with (Z.succ (Z.pos (digits2_pos m) - 1))%Z by lia.
    rewrite !Z.pow_succ_r by lia. lia.
  - rewrite Pos2Z.inj_succ.
    replace (Z.succ (Z.pos (digits2_pos m)) - 1)%Z with (Z.succ (Z.pos (digits2_pos m) - 1))%Z by lia.
    rewrite !Z.pow_succ_r by lia. lia.
  - simpl. lia.
Qed.

Lemma shr_1_m (mrs : shr_record) :
  (0 <= shr_m mrs)%Z -> shr_m (shr_1 mrs) = (shr_m mrs / 2)%Z.
Proof.
  destruct mrs as [m r s]. simpl. intros Hm.
  destruct m as [|[p|p|]|p]; simpl shr_m; try lia; try reflexivity.
  - apply Z.div_unique with 1%Z; lia.
  - apply Z.div_unique with 0%Z; lia.
Qed.

Lemma iter_shr_1_m (n : positive) (mrs : shr_record) :
  (0 <= shr_m mrs)%Z ->
  shr_m (SpecFloat.iter_pos shr_1 n mrs) = (shr_m mrs / 2 ^ Z.pos n)%Z.
Proof.
  revert mrs. induction n as [n IH|n IH|]; intros mrs Hm; simpl SpecFloat.iter_pos.
  - pose proof (shr_1_m mrs Hm) as H1.
    assert (0 <= shr_m (shr_1 mrs))%Z as P1
      by (rewrite H1; apply Z.div_pos; lia).
    pose proof (IH _ P1) as H2.
    assert (0 <= shr_m (SpecFloat.iter_pos shr_1 n (shr_1 mrs)))%Z as P2
      by (rewrite H2; apply Z.div_pos; lia).
    rewrite (IH _ P2), H2, H1, !Z.div_div by lia. f_equal.
    replace (Z.pos n~1) with (Z.pos n + Z.pos n + 1)%Z by lia.
    rewrite !Z.pow_add_r, Z.pow_1_r by lia. lia.
  - pose proof (IH _ Hm) as H2.
    assert (0 <= shr_m (SpecFloat.iter_pos shr_1 n mrs))%Z as P2
      by (rewrite H2; apply Z.div_pos; lia).
    rewrite (IH _ P2), H2, !Z.div_div by lia. f_equal.
    replace (Z.pos n~0) with (Z.pos n + Z.pos n)%Z by lia.
    rewrite Z.pow_add_r by lia. lia.
  - rewrite shr_1_m by lia. reflexivity.
Qed.

Lemma shr_fexp_positive (m : positive) (e : Z) (l : location) :
  (FloatOps.emin <= e)%Z ->
  exists mrs' e', shr_fexp prec emax (Z.pos m) e l = (mrs', e') /\
    (0 < shr_m mrs')%Z /\ (FloatOps.emin <= e')%Z.
Proof.
  intros He. unfold shr_fexp, shr.
  assert (shr_m (shr_record_of_loc (Z.pos m) l) = Z.pos m) as Hm
    by (destruct l as [|[]]; reflexivity).
  pose proof (digits2_pos_bounds m) as Hd.
  simpl Zdigits2.
  destruct (fexp prec emax (Z.pos (digits2_pos m) + e) - e)%Z as [|n|n] eqn:En.
  - eexists _, _. split; [reflexivity|]. rewrite Hm. lia.
  - eexists _, _. split; [reflexivity|].
    rewrite iter_shr_1_m by (rewrite Hm; lia).
    rewrite Hm. split; [|lia].
    unfold fexp, SpecFloat.emin, prec, emax in *.
    assert (Z.pos n <= Z.pos (digits2_pos m) - 1)%Z as Hn by lia.
    assert (2 ^ Z.pos n <= 2 ^ (Z.pos (digits2_pos m) - 1))%Z
      by (apply Z.pow_le_mono_r; lia).
    apply Z.div_str_pos. lia.
  - eexists _, _. split; [reflexivity|]. rewrite Hm. lia.
Qed.

Lemma round_nearest_even_positive (m : Z) (l : location) :
  (0 < m)%Z -> (0 < round_nearest_even m l)%Z.
Proof.
  intros Hm. destruct l as [|[]]; simpl; try lia.
  destruct (Z.even m); lia.
Qed.

Lemma binary_round_aux_sign (sx : bool) (m : positive) (e : Z) (l : location) :
  (FloatOps.emin <= e)%Z ->
  (exists m' e', binary_round_aux prec emax sx (Z.pos m) e l = S754_finite sx m' e')
  \/ binary_round_aux prec emax sx (Z.pos m) e l = S754_infinity sx.
Proof.
  intros He. unfold binary_round_aux.
  destruct (shr_fexp_positive m e l He) as (mrs'&e'&->&Hpos&He').
  pose proof (round_nearest_even_positive _ (loc_of_shr_record mrs') Hpos) as Hr.
  destruct (round_nearest_even (shr_m mrs') (loc_of_shr_record mrs'))
    as [|m1|m1] eqn:Em1; try lia.
  destruct (shr_fexp_positive m1 e' loc_Exact He') as (mrs''&e''&->&Hpos'&He'').
  destruct (shr_m mrs'') as [|m2|m2]; try lia.
  destruct (e'' <=? emax - prec)%Z; [left; eauto | right; reflexivity].
Qed.

Lemma binary_round_sign (sx : bool) (m : positive) (e : Z) :
  (FloatOps.emin <= e)%Z ->
  (exists m' e', binary_round prec emax sx m e = S754_finite sx m' e')
  \/ binary_round prec emax sx m e = S754_infinity sx.
Proof.
  intros He. unfold binary_round, shl_align.
  destruct (fexp prec emax (Z.pos (digits2_pos m) + e) - e)%Z eqn:En;
    apply binary_round_aux_sign; try assumption.
  unfold fexp, SpecFloat.emin, prec, emax in *. lia.
Qed.

Lemma valid_finite_emin (s : bool) (m : positive) (e : Z) :
  valid_binary (S754_finite s m e) = true -> (FloatOps.emin <= e)%Z.
Proof.
  simpl. unfold bounded, canonical_mantissa. intros H.
  apply andb_prop in H as [H _]. apply Z.eqb_eq in H.
  unfold fexp, SpecFloat.emin, prec, emax in *. lia.
Qed.

Lemma SFadd_positive (x y : spec_float) :
  valid_binary x = true -> valid_binary y = true ->
  sf_nonneg x -> sf_positive y -> sf_positive (SF64add x y).
Proof.
  intros Vx Vy Hx Hy. unfold SF64add.
  destruct x as [sx|[]| |[] mx ex], y as [sy|[]| |[] my ey];
    simpl in Hx, Hy; try contradiction; try exact I.
  apply valid_finite_emin in Vx, Vy.
  unfold SFadd, binary_normalize. simpl cond_Zopp.
  change (Z.pos ?a + Z.pos ?b)%Z with (Z.pos (a + b)).
  destruct (binary_round_sign false
    (fst (shl_align mx ex (Z.min ex ey)) + fst (shl_align my ey (Z.min ex ey)))
    (Z.min ex ey)) as [(m'&e'&->)| ->]; [lia|exact I..].
Qed.

Lemma add_positive (x y : float) :
  (0 <=? x)%float = true -> (0 <? y)%float = true -> (0 <? x + y)%float = true.
Proof.
  rewrite leb_zero_nonneg, !ltb_zero_positive, add_spec.
  apply SFadd_positive; apply Prim2SF_valid.
Qed.

End Float64.

Import Float64.

(** ** Results *)

Lemma bind_Ok {A B : Type} (r : result A) (k : A -> result B) (b : B) :
  bind r k = Ok b <-> exists a, r = Ok a /\ k a = Ok b.
Proof.
  destruct r as [a|e]; simpl; split.
  - intros H. exists a. auto.
  - intros (a'&[= <-]&H). exact H.
  - discriminate.
  - intros (a'&H&_). discriminate.
Qed.

(** ** Cost basis *)

Lemma sum_lots_accepts (side : lot_side) (lots : list lot) (c p : float) :
  Forall (fun l => (lot_qty l <=? 0)%float = false) lots ->
  sum_lots side lots c p =
    Ok (fold_left (fun acc y => (acc + y)%float) (map lot_qty lots) c,
        fold_left (fun acc y => (acc + y)%float)
          (map (fun l => (lot_qty l * lot_price l)%float) lots) p).
Proof.
  intros Hall. revert c p.
  induction Hall as [|l rest Hl _ IH]; intros c p; simpl.
  - reflexivity.
  - rewrite Hl, IH, (mul_comm (lot_price l)). reflexivity.
Qed.

Lemma sum_lots_rejects (side : lot_side) (lots : list lot) (c p : float) :
  Exists (fun l => (lot_qty l <=? 0)%float = true) lots ->
  sum_lots side lots c p = Raise (SystemExit side).
Proof.
  intros Hex. revert c p.
  induction Hex as [l rest Hl|l rest _ IH]; intros c p; simpl.
  - rewrite Hl. reflexivity.
  - destruct (lot_qty l <=? 0)%float; [reflexivity|apply IH].
Qed.

Lemma sum_lots_total (side : lot_side) (lots : list lot) (c p : float) :
  (exists r, sum_lots side lots c p = Ok r) \/
  sum_lots side lots c p = Raise (SystemExit side).
Proof.
  revert c p. induction lots as [|l rest IH]; intros c p; simpl.
  - left. eauto.
  - destruct (lot_qty l <=? 0)%float; [right; reflexivity|apply IH].
Qed.

Lemma fold_add_positive (l : list float) (acc : float) :
  Forall (fun x => (0 <? x)%float = true) l ->
  (0 <? acc)%float = true ->
  (0 <? fold_left (fun a y => (a + y)%float) l acc)%float = true.
Proof.
  intros Hall. revert acc.
  induction Hall as [|x rest Hx _ IH]; intros acc Hacc; simpl.
  - exact Hacc.
  - apply IH, add_positive; [apply ltb_leb, Hacc|exact Hx].
Qed.

Lemma float_sum_positive (l : list float) :
  l <> [] ->
  Forall (fun x => (0 <? x)%float = true) l ->
  (0 <? float_sum l)%float = true.
Proof.
  intros Hne Hall. destruct Hall as [|x rest Hx Hrest]; [congruence|].
  unfold float_sum. simpl. apply fold_add_positive; [exact Hrest|].
  apply add_positive; [reflexivity|exact Hx].
Qed.

(** C1: for lots whose quantities are all positive, [average_buyin]
    returns the net quantity (sum of the buy quantities minus sum of the
    sell quantities) and, unless that is zero, in which case it returns
    [(0, 0)], the average cost (buy cost minus sell cost, divided by the net
    quantity); with buys only, these are the sum of the quantities and the
    quantity-weighted mean of the prices. *)
Theorem average_buyin_weighted_average (buys sells : list lot) :
  Forall (fun l => (0 <? lot_qty l)%float = true) (buys ++ sells) ->
  let net := (total_qty buys - total_qty sells)%float in
  average_buyin buys sells =
    Ok (if (net =? 0)%float then (0%float, 0%float)
        else (net, ((total_cost buys - total_cost sells) / net)%float))
  /\ (buys <> [] -> sells = [] ->
      average_buyin buys sells =
        Ok (total_qty buys, (total_cost buys / total_qty buys)%float)).
Proof.
  intros Hpos net.
  assert (Forall (fun l => (lot_qty l <=? 0)%float = false) (buys ++ sells)) as Hok.
  { eapply Forall_impl; [exact Hpos|]. intros l Hl. apply ltb_leb_false, Hl. }
  apply Forall_app in Hok as [Hb Hs]. apply Forall_app in Hpos as [Pb Ps].
  assert (average_buyin buys sells =
    Ok (if (net =? 0)%float then (0%float, 0%float)
        else (net, ((total_cost buys - total_cost sells) / net)%float))) as Hmain.
  { unfold average_buyin.
    rewrite (sum_lots_accepts BuySide buys _ _ Hb). simpl.
    rewrite (sum_lots_accepts SellSide sells _ _ Hs). simpl.
    fold (float_sum (map lot_qty buys)) (float_sum (map lot_qty sells)).
    fold (total_qty buys) (total_qty sells). fold net.
    destruct (net =? 0)%float eqn:Enet; [reflexivity|].
    unfold py_truediv. rewrite Enet. reflexivity. }
  split; [exact Hmain|].
  intros Hne ->. rewrite Hmain. unfold net, total_qty, total_cost, float_sum at 2 4.
  simpl. rewrite !sub_zero_r.
  assert ((0 <? float_sum (map lot_qty buys))%float = true) as Hsum.
  { apply float_sum_positive.
    - destruct buys; [congruence|discriminate].
    - apply Forall_map. exact Pb. }
  rewrite (ltb_eqb_false _ _ Hsum). reflexivity.
Qed.

Lemma average_buyin_weighted_average_witness :
  average_buyin [mkLot 10 100; mkLot 30 110] [mkLot 20 120] =
    Ok (20%float, 95%float)
  /\ average_buyin [mkLot 10 100; mkLot 30 110] [] =
    Ok (40%float, 107.5%float).
Proof.
  pose proof (average_buyin_weighted_average
                [mkLot 10 100; mkLot 30 110] [mkLot 20 120]) as H1.
  pose proof (average_buyin_weighted_average
                [mkLot 10 100; mkLot 30 110] []) as H2.
  split.
  - apply H1. repeat constructor.
  - apply H2; [repeat constructor|discriminate|reflexivity].
Defined.

Lemma average_buyin_exits (buys sells : list lot) :
  Exists (fun l => (lot_qty l <=? 0)%float = true) (buys ++ sells) ->
  exists side, average_buyin buys sells = Raise (SystemExit side).
Proof.
  intros Hex. unfold average_buyin.
  destruct (sum_lots_total BuySide buys 0%float 0%float) as [[[bc bp] Hb]|Hb].
  - rewrite Hb. simpl. exists SellSide.
    apply Exists_app in Hex as [Hex|Hex].
    + rewrite (sum_lots_rejects BuySide buys _ _ Hex) in Hb. discriminate.
    + rewrite (sum_lots_rejects SellSide sells _ _ Hex). reflexivity.
  - rewrite Hb. exists BuySide. reflexivity.
Qed.

Lemma populate_loop_Raise `{Externals} (stocks_config : dict StockConfig)
    (columns : MarketData) (self : Portfolio) (sym : string) (d : list float)
    (e : exn) :
  (sym, d) ∈ columns ->
  (forall self', populate_stock stocks_config self' (sym, d) = Raise e) ->
  exists e', populate_loop stocks_config self columns = Raise e'.
Proof.
  intros Hin Hfail. revert self.
  induction columns as [|td rest IH]; intros self.
  - inversion Hin.
  - simpl. destruct (populate_stock stocks_config self td) as [self'|e1] eqn:E.
    + simpl. apply elem_of_cons in Hin as [<-|Hin].
      * rewrite Hfail in E. discriminate.
      * apply IH, Hin.
    + simpl. eauto.
Qed.

(** C7: when some buy or sell lot has a quantity [<= 0], [average_buyin]
    prints its message and calls [exit()]: it returns no pair of numbers,
    and a run whose fetched data include that holding ends with an
    exception, without a portfolio or a table. *)
Theorem average_buyin_rejects_nonpositive_lot (buys sells : list lot) :
  Exists (fun l => (lot_qty l <=? 0)%float = true) (buys ++ sells) ->
  (exists side, average_buyin buys sells = Raise (SystemExit side))
  /\ (forall (E : Externals) (market_data : MarketData)
        (stocks_config : dict StockConfig) (sym : string) (cfg : StockConfig)
        (independent_graphs : bool) (w h : Z) (mode : string),
        sym ∈ map fst market_data ->
        dict_get sym stocks_config = Some cfg ->
        cfg_buy cfg = buys -> cfg_sell cfg = sells ->
        exists e,
          main market_data stocks_config independent_graphs w h mode = Raise e).
Proof.
  intros Hex. destruct (average_buyin_exits buys sells Hex) as [side Hside].
  split; [eauto|].
  intros E md cfgs sym cfg ig w h mode Hin Hcfg <- <-.
  apply list_elem_of_fmap in Hin as ([sym' d]&->&Hin). simpl in Hcfg.
  unfold main, populate.
  destruct d as [|x d'].
  - destruct (populate_loop_Raise cfgs md new_Portfolio sym' [] IndexError Hin)
      as [e He]; [reflexivity|].
    rewrite He. eauto.
  - destruct (populate_loop_Raise cfgs md new_Portfolio sym' (x :: d')
                (SystemExit side) Hin) as [e He].
    + intros self'. unfold populate_stock, py_last, dict_lookup.
      destruct (last (x :: d')) as [v|] eqn:El.
      * simpl. rewrite Hcfg. simpl. rewrite Hside. reflexivity.
      * apply last_None in El. discriminate.
    + rewrite He. eauto.
Qed.

Lemma average_buyin_rejects_nonpositive_lot_witness :
  (exists side,
     average_buyin [mkLot 10 100; mkLot (-5) 40] [mkLot 3 50] =
       Raise (SystemExit side))
  /\ exists e,
       main [("AAA", [100; 105]%float)]
         [("AAA", mkStockConfig None [mkLot 10 100; mkLot (-5) 40] [mkLot 3 50] None)]
         false 80 20 "math" = Raise e.
Proof.
  destruct (average_buyin_rejects_nonpositive_lot
              [mkLot 10 100; mkLot (-5) 40] [mkLot 3 50]) as [H1 H2].
  - apply Exists_cons_tl, Exists_cons_hd. reflexivity.
  - split; [exact H1|].
    apply (H2 demo_externals _ _ "AAA"
             (mkStockConfig None [mkLot 10 100; mkLot (-5) 40] [mkLot 3 50] None));
      [apply list_elem_of_here|reflexivity..].
Defined.

(** ** NaN repair *)

Lemma repair_loop_fill (done rest : list float) (p : float) :
  repair_loop (length rest) (length (done ++ [p])) ((done ++ [p]) ++ rest) =
    Ok ((done ++ [p]) ++ fill_forward p rest).
Proof.
  revert done p. induction rest as [|x t IH]; intros done p.
  - reflexivity.
  - cbn [length repair_loop fill_forward]. unfold py_getitem at 1.
    rewrite list_lookup_middle by reflexivity. cbn [bind].
    assert (length (done ++ [p]) = S (length done)) as Hlen
      by (rewrite length_app; simpl; lia).
    destruct (PrimFloat.is_nan x) eqn:Ex.
    + rewrite Hlen at 1. cbn [Nat.leb]. unfold py_getitem.
      replace (length (done ++ [p]) - 1)%nat with (length done) by lia.
      assert (((done ++ [p]) ++ x :: t) !! length done = Some p) as ->.
      { rewrite <- (assoc_L (++) done [p] (x :: t)).
        apply list_lookup_middle. reflexivity. }
      cbn [bind].
      rewrite insert_app_r_alt by lia.
      replace (length (done ++ [p]) - length (done ++ [p]))%nat with O by lia.
      cbn [list_insert insert].
      specialize (IH (done ++ [p]) p).
      rewrite length_app in IH. cbn [length] in IH.
      replace (length (done ++ [p]) + 1)%nat with (S (length (done ++ [p]))) in IH by lia.
      rewrite <- !(assoc_L (++) (done ++ [p]) [p]) in IH. exact IH.
    + specialize (IH (done ++ [p]) x).
      rewrite length_app in IH. cbn [length] in IH.
      replace (length (done ++ [p]) + 1)%nat with (S (length (done ++ [p]))) in IH by lia.
      rewrite <- !(assoc_L (++) (done ++ [p]) [x]) in IH. exact IH.
Qed.

Lemma nan_repair_unfold (d : list float) :
  nan_repair d =
    match d with
    | [] => Ok []
    | x :: t =>
        if PrimFloat.is_nan x then
          match t with
          | [] => Raise IndexError
          | y :: _ => Ok (y :: fill_forward y t)
          end
        else Ok (x :: fill_forward x t)
    end.
Proof.
  destruct d as [|x t]; [reflexivity|].
  unfold nan_repair. cbn [length repair_loop]. unfold py_getitem at 1.
  cbn [lookup list_lookup bind].
  destruct (PrimFloat.is_nan x) eqn:Ex.
  - cbn [Nat.leb Nat.add]. unfold py_getitem.
    destruct t as [|y t']; [reflexivity|].
    cbn [lookup list_lookup bind list_insert insert].
    exact (repair_loop_fill [] (y :: t') y).
  - exact (repair_loop_fill [] t x).
Qed.

Lemma fill_forward_length (p : float) (l : list float) :
  length (fill_forward p l) = length l.
Proof. revert p. induction l as [|x t IH]; intros p; simpl; [|rewrite IH]; reflexivity. Qed.

Lemma fill_forward_lookup (p : float) (l : list float) (j : nat) (x : float) :
  l !! j = Some x ->
  fill_forward p l !! j =
    if PrimFloat.is_nan x then (p :: fill_forward p l) !! j else Some x.
Proof.
  revert p j. induction l as [|x0 t IH]; intros p j Hj; [discriminate|].
  destruct j as [|k]; simpl in Hj |- *.
  - injection Hj as ->. destruct (PrimFloat.is_nan x); reflexivity.
  - rewrite (IH _ _ Hj). reflexivity.
Qed.

Lemma fill_forward_id (p : float) (l : list float) :
  Forall (fun x => PrimFloat.is_nan x = false) l -> fill_forward p l = l.
Proof.
  intros Hall. revert p. induction Hall as [|x t Hx _ IH]; intros p; simpl.
  - reflexivity.
  - rewrite Hx, IH. reflexivity.
Qed.

(** C2 (amended): the repair scans the samples in increasing index order;
    a NaN at index [i >= 1] takes the value that then stands at index
    [i - 1], repaired or not, finite or not, and a NaN at index [0] takes
    the value at index [1]; one pass, which succeeds on every series but a
    single NaN.  So [[5; NaN; 7]] becomes [[5; 5; 7]], and a series without
    NaN is returned as it is. *)
Theorem nan_repair_takes_left_neighbour (d : list float) :
  ((forall x, d = [x] -> PrimFloat.is_nan x = false) ->
   exists r, nan_repair d = Ok r /\ length r = length d /\
     forall i x, d !! i = Some x ->
       r !! i = if PrimFloat.is_nan x
                then match i with
                     | O => d !! 1%nat
                     | S j => r !! j
                     end
                else Some x)
  /\ nan_repair [5; nan; 7]%float = Ok [5; 5; 7]%float
  /\ (Forall (fun x => PrimFloat.is_nan x = false) d -> nan_repair d = Ok d).
Proof.
  split; [|split].
  - intros Hsingle. rewrite nan_repair_unfold.
    destruct d as [|x t]; [exists []; repeat split; intros i x Hi; discriminate|].
    destruct (PrimFloat.is_nan x) eqn:Ex.
    + destruct t as [|y t'].
      { rewrite (Hsingle x eq_refl) in Ex. discriminate. }
      eexists. split; [reflexivity|]. split.
      { simpl. rewrite fill_forward_length. reflexivity. }
      intros i z Hi. destruct i as [|j].
      * injection Hi as <-. rewrite Ex. reflexivity.
      * change ((x :: y :: t') !! S j) with ((y :: t') !! j) in Hi.
        change ((y :: fill_forward y (y :: t')) !! S j)
          with (fill_forward y (y :: t') !! j).
        apply fill_forward_lookup, Hi.
    + eexists. split; [reflexivity|]. split.
      { simpl. rewrite fill_forward_length. reflexivity. }
      intros i z Hi. destruct i as [|j].
      * injection Hi as <-. rewrite Ex. reflexivity.
      * change ((x :: t) !! S j) with (t !! j) in Hi.
        change ((x :: fill_forward x t) !! S j) with (fill_forward x t !! j).
        apply fill_forward_lookup, Hi.
  - reflexivity.
  - intros Hall. rewrite nan_repair_unfold.
    destruct Hall as [|x t Hx Ht]; [reflexivity|].
    rewrite Hx, (fill_forward_id _ _ Ht). reflexivity.
Qed.

Lemma nan_repair_takes_left_neighbour_witness :
  (exists r, nan_repair [nan; 3; nan; nan; 4]%float = Ok r /\
     length r = 5%nat /\ r !! 3%nat = r !! 2%nat)
  /\ nan_repair [3; 4]%float = Ok [3; 4]%float.
Proof.
  destruct (nan_repair_takes_left_neighbour [nan; 3; nan; nan; 4]%float)
    as (H1 & _ & _).
  destruct (nan_repair_takes_left_neighbour [3; 4]%float) as (_ & _ & H3).
  split.
  - destruct H1 as (r & Hr & Hlen & Hidx); [intros x [=]|].
    exists r. split; [exact Hr|]. split; [exact Hlen|].
    exact (Hidx 3%nat nan eq_refl).
  - apply H3. repeat constructor.
Defined.

(** Counterexample to C2 as stated, [[NaN; NaN; 3]]: at index 1 the left
    neighbour is NaN, so the stated policy takes the value at index 2,
    while the program copies the NaN at index 0.  The statement also fails
    on an infinite sample, which is not finite and which the program
    leaves as it is. *)
Lemma nan_repair_copies_nan_neighbour :
  nan_repair [nan; nan; 3]%float = Ok [nan; nan; 3]%float
  /\ stated_repair [nan; nan; 3]%float = Ok [nan; 3; 3]%float
  /\ nan_repair [nan; nan; 3]%float <> stated_repair [nan; nan; 3]%float
  /\ nan_repair [5; infinity; 7]%float = Ok [5; infinity; 7]%float
  /\ stated_repair [5; infinity; 7]%float = Ok [5; 5; 7]%float.
Proof.
  split; [reflexivity|]. split; [reflexivity|].
  split; [|split; reflexivity].
  intros H. vm_compute in H. discriminate H.
Qed.

(** C10: on a series made of one NaN, the repair reads index 1, which the
    series does not have: it raises [IndexError] and returns no series. *)
Theorem nan_repair_single_nan_raises (x : float) :
  PrimFloat.is_nan x = true -> nan_repair [x] = Raise IndexError.
Proof.
  intros Hx. rewrite nan_repair_unfold, Hx. reflexivity.
Qed.

Lemma nan_repair_single_nan_raises_witness :
  nan_repair [nan] = Raise IndexError.
Proof.
  apply (nan_repair_single_nan_raises nan). reflexivity.
Defined.

(** ** Dictionaries *)

Lemma dict_get_set_eq {V : Type} (k : string) (v : V) (d : dict V) :
  dict_get k (dict_set k v d) = Some v.
Proof.
  induction d as [|[k' v'] d IH]; simpl.
  - rewrite String.eqb_refl. reflexivity.
  - destruct (String.eqb k k') eqn:E; simpl; rewrite ?String.eqb_refl, ?E; auto.
Qed.

Lemma dict_get_set_ne {V : Type} (k k' : string) (v : V) (d : dict V) :
  k <> k' -> dict_get k' (dict_set k v d) = dict_get k' d.
Proof.
  intros Hne. induction d as [|[k0 v0] d IH]; simpl.
  - apply String.eqb_neq in Hne. rewrite String.eqb_sym, Hne. reflexivity.
  - destruct (String.eqb k k0) eqn:E; simpl.
    + apply String.eqb_eq in E as <-.
      apply String.eqb_neq in Hne. rewrite String.eqb_sym, Hne. reflexivity.
    + rewrite IH. reflexivity.
Qed.

Lemma dict_get_None {V : Type} (k : string) (d : dict V) :
  dict_get k d = None <-> k ∉ dict_keys d.
Proof.
  induction d as [|[k' v'] d IH]; simpl.
  - split; [intros _ H; inversion H|reflexivity].
  - rewrite not_elem_of_cons. destruct (String.eqb k k') eqn:E.
    + apply String.eqb_eq in E. split; [discriminate|intros [H _]; contradiction].
    + apply String.eqb_neq in E. rewrite IH. tauto.
Qed.

Lemma dict_get_Some_elem {V : Type} (k : string) (v : V) (d : dict V) :
  dict_get k d = Some v -> (k, v) ∈ d.
Proof.
  induction d as [|[k' v'] d IH]; simpl; [discriminate|].
  destruct (String.eqb k k') eqn:E.
  - apply String.eqb_eq in E as <-. intros [= <-]. apply list_elem_of_here.
  - intros H. apply list_elem_of_further, IH, H.
Qed.

Lemma dict_get_elem {V : Type} (k : string) (v : V) (d : dict V) :
  NoDup (dict_keys d) -> (k, v) ∈ d -> dict_get k d = Some v.
Proof.
  induction d as [|[k' v'] d IH]; simpl; intros Hnd Hin; [inversion Hin|].
  apply NoDup_cons in Hnd as [Hk' Hnd].
  apply elem_of_cons in Hin as [[= <- <-]|Hin].
  - rewrite String.eqb_refl. reflexivity.
  - destruct (String.eqb k k') eqn:E; [|apply IH; assumption].
    apply String.eqb_eq in E as <-. exfalso. apply Hk'.
    change k with (fst (k, v)). apply (list_elem_of_fmap_2 fst), Hin.
Qed.

Lemma dict_set_fresh {V : Type} (k : string) (v : V) (d : dict V) :
  k ∉ dict_keys d -> dict_set k v d = d ++ [(k, v)].
Proof.
  induction d as [|[k' v'] d IH]; simpl; intros Hk; [reflexivity|].
  apply not_elem_of_cons in Hk as [Hne Hk].
  apply String.eqb_neq in Hne. rewrite Hne, IH by assumption. reflexivity.
Qed.

Lemma dict_keys_set_present {V : Type} (k : string) (v : V) (d : dict V) :
  k ∈ dict_keys d -> dict_keys (dict_set k v d) = dict_keys d.
Proof.
  induction d as [|[k' v'] d IH]; simpl; intros Hk; [inversion Hk|].
  destruct (String.eqb k k') eqn:E; simpl.
  - apply String.eqb_eq in E as <-. reflexivity.
  - apply String.eqb_neq in E. apply elem_of_cons in Hk as [Hk|Hk]; [contradiction|].
    f_equal. apply IH, Hk.
Qed.

Lemma dict_set_present_values {V : Type} (k : string) (v : V) (d : dict V) :
  NoDup (dict_keys d) ->
  forall k' v', (k', v') ∈ dict_set k v d ->
    (k' = k /\ v' = v) \/ (k' <> k /\ (k', v') ∈ d).
Proof.
  induction d as [|[k0 v0] d IH]; simpl; intros Hnd k' v' Hin.
  - apply list_elem_of_singleton in Hin as [= -> ->]. auto.
  - apply NoDup_cons in Hnd as [Hk0 Hnd].
    destruct (String.eqb k k0) eqn:E.
    + apply String.eqb_eq in E as <-.
      apply elem_of_cons in Hin as [[= -> ->]|Hin]; [auto|].
      right. split; [|apply list_elem_of_further, Hin].
      intros ->. apply Hk0. change k with (fst (k, v')).
      apply (list_elem_of_fmap_2 fst), Hin.
    + apply String.eqb_neq in E.
      apply elem_of_cons in Hin as [[= -> ->]|Hin].
      * right. split; [congruence|apply list_elem_of_here].
      * destruct (IH Hnd _ _ Hin) as [?|[? ?]]; [auto|].
        right. split; [assumption|apply list_elem_of_further; assumption].
Qed.

Lemma stocks_wf_set (store : dict Stock) (stock : Stock) :
  stocks_wf store -> stocks_wf (dict_set (symbol stock) stock store).
Proof.
  intros [Hnd Hsym]. split.
  - destruct (decide (symbol stock ∈ dict_keys store)) as [Hin|Hout].
    + rewrite dict_keys_set_present; assumption.
    + rewrite dict_set_fresh by assumption. unfold dict_keys.
      rewrite map_app. simpl. apply NoDup_app. split; [exact Hnd|].
      split; [|apply NoDup_singleton].
      intros k Hk Hk'. apply list_elem_of_singleton in Hk' as ->. contradiction.
  - apply Forall_forall. intros [k v] Hin.
    apply dict_set_present_values in Hin as [[-> ->]|[_ Hin]]; [reflexivity| |exact Hnd].
    rewrite Forall_forall in Hsym. apply (Hsym _ Hin).
Qed.

Lemma stocks_wf_get (store : dict Stock) (sym : string) (stock : Stock) :
  stocks_wf store -> dict_get sym store = Some stock -> symbol stock = sym.
Proof.
  intros [_ Hsym] Hget. apply dict_get_Some_elem in Hget.
  rewrite Forall_forall in Hsym. apply (Hsym _ Hget).
Qed.

(** ** Population *)

Section Population.
Context `{Externals}.

Lemma populate_stock_Ok (stocks_config : dict StockConfig)
    (self p : Portfolio) (sym : string) (d : list float) :
  populate_stock stocks_config self (sym, d) = Ok p ->
  exists v g count bought_at col,
    last d = Some v /\
    p = add_stock self (mkStock sym v d g None) count bought_at col.
Proof.
  unfold populate_stock, py_last, dict_lookup. intros Hp.
  destruct (last d) as [v|]; [|discriminate]. cbn [bind] in Hp.
  destruct (dict_get sym stocks_config) as [cfg|]; [|discriminate].
  cbn [bind] in Hp.
  destruct (average_buyin (cfg_buy cfg) (cfg_sell cfg)) as [[count bought_at]|];
    [|discriminate].
  cbn [bind] in Hp. injection Hp as <-.
  destruct (cfg_graph cfg) as [s|]; [destruct (String.eqb s "True")|];
    eexists v, _, count, bought_at, _; (split; [reflexivity|reflexivity]).
Qed.

Lemma populate_stock_empty (stocks_config : dict StockConfig)
    (self : Portfolio) (sym : string) :
  populate_stock stocks_config self (sym, []) = Raise IndexError.
Proof. reflexivity. Qed.

(** What a successful population leaves: one stock and one pair of
    quantity and average cost per fetched column, in the columns' order. *)
Lemma populate_loop_spec (stocks_config : dict StockConfig)
    (columns : MarketData) (self p : Portfolio) :
  populate_loop stocks_config self columns = Ok p ->
  NoDup (dict_keys (stocks self) ++ map fst columns) ->
  dict_keys (stocks_metadata self) = dict_keys (stocks self) ->
  exists added : list (Stock * (float * float)),
    stocks p = stocks self ++ map (fun a => (symbol (fst a), fst a)) added /\
    stocks_metadata p =
      stocks_metadata self ++ map (fun a => (symbol (fst a), snd a)) added /\
    map (fun a => (symbol (fst a), data (fst a))) added = columns /\
    initial_value p =
      fold_left (fun acc a => (acc + fst (snd a) * snd (snd a))%float) added
        (initial_value self) /\
    length (color_list p) = (length (color_list self) + length columns)%nat.
Proof.
  revert self. induction columns as [|[sym d] rest IH]; intros self Hp Hnd Hkeys.
  - injection Hp as <-. exists []. simpl. rewrite !app_nil_r. auto with lia.
  - simpl in Hp. apply bind_Ok in Hp as (p1 & Hp1 & Hp).
    apply populate_stock_Ok in Hp1 as (v & g & count & bought_at & col & _ & ->).
    assert (sym ∉ dict_keys (stocks self)) as Hfresh.
    { apply NoDup_app in Hnd as (_ & Hdisj & _). intros Hin.
      apply (Hdisj _ Hin). apply list_elem_of_here. }
    destruct (IH _ Hp) as (added & Hs & Hm & Hc & Hi & Hl).
    + simpl. rewrite dict_set_fresh by exact Hfresh.
      unfold dict_keys. rewrite map_app. simpl.
      rewrite <- (assoc_L (++)). exact Hnd.
    + simpl. rewrite !dict_set_fresh by (rewrite ?Hkeys; exact Hfresh).
      unfold dict_keys in *. rewrite !map_app, Hkeys. reflexivity.
    + simpl in Hs, Hm, Hi, Hl.
      rewrite dict_set_fresh in Hs by exact Hfresh.
      rewrite dict_set_fresh in Hm by (rewrite Hkeys; exact Hfresh).
      exists ((mkStock sym v d g None, (count, bought_at)) :: added).
      simpl. rewrite Hs, Hm, Hc, Hi, Hl, <- !(assoc_L (++)), length_app.
      simpl. auto with lia.
Qed.

Lemma populate_spec (market_data : MarketData)
    (stocks_config : dict StockConfig) (p : Portfolio) :
  populate market_data stocks_config new_Portfolio = Ok p ->
  NoDup (map fst market_data) ->
  exists added : list (Stock * (float * float)),
    stocks p = map (fun a => (symbol (fst a), fst a)) added /\
    stocks_metadata p = map (fun a => (symbol (fst a), snd a)) added /\
    map (fun a => (symbol (fst a), data (fst a))) added = market_data /\
    initial_value p =
      fold_left (fun acc a => (acc + fst (snd a) * snd (snd a))%float) added
        0%float.
Proof.
  intros Hp Hnd.
  destruct (populate_loop_spec _ _ _ _ Hp Hnd eq_refl) as (added&?&?&?&?&_).
  exists added. auto.
Qed.

Lemma populate_keys (market_data : MarketData)
    (stocks_config : dict StockConfig) (p : Portfolio) :
  populate market_data stocks_config new_Portfolio = Ok p ->
  NoDup (map fst market_data) ->
  dict_keys (stocks p) = map fst market_data /\ stocks_wf (stocks p).
Proof.
  intros Hp Hnd. destruct (populate_spec _ _ _ Hp Hnd) as (added&Hs&_&Hc&_).
  assert (dict_keys (stocks p) = map fst market_data) as Hk.
  { rewrite Hs, <- Hc. unfold dict_keys. rewrite !map_map. reflexivity. }
  split; [exact Hk|]. split; [rewrite Hk; exact Hnd|].
  rewrite Hs. apply Forall_forall. intros [k s] Hin.
  apply list_elem_of_fmap in Hin as (a & [= -> ->] & _). reflexivity.
Qed.

Lemma populate_data (market_data : MarketData)
    (stocks_config : dict StockConfig) (p : Portfolio) (sym : string)
    (d : list float) :
  populate market_data stocks_config new_Portfolio = Ok p ->
  NoDup (map fst market_data) ->
  (sym, d) ∈ market_data ->
  exists s, dict_get sym (stocks p) = Some s /\ data s = d.
Proof.
  intros Hp Hnd Hin.
  destruct (populate_keys _ _ _ Hp Hnd) as [_ [Hnd' _]].
  destruct (populate_spec _ _ _ Hp Hnd) as (added&Hs&_&Hc&_).
  rewrite <- Hc in Hin. apply list_elem_of_fmap in Hin as (a & [= -> ->] & Hin).
  exists (fst a). split; [|reflexivity].
  apply dict_get_elem; [exact Hnd'|]. rewrite Hs.
  apply (list_elem_of_fmap_2 (fun a => (symbol (fst a), fst a))), Hin.
Qed.

Lemma populate_loop_app (stocks_config : dict StockConfig)
    (self : Portfolio) (l1 l2 : MarketData) :
  populate_loop stocks_config self (l1 ++ l2) =
    (do s <- populate_loop stocks_config self l1;
     populate_loop stocks_config s l2).
Proof.
  revert self. induction l1 as [|td l1 IH]; intros self; simpl; [reflexivity|].
  destruct (populate_stock stocks_config self td); simpl; [apply IH|reflexivity].
Qed.

End Population.

(** C4 (amended): [populate] makes one holding per fetched column and
    knows no [MissingDataError].  A fetched column without samples stops
    the run: reading its last sample raises [IndexError].  A configured
    symbol for which nothing was fetched is not noticed: when [populate]
    succeeds, the holdings are exactly the fetched columns. *)
Theorem populate_follows_fetched_columns (E : Externals)
    (market_data : MarketData) (stocks_config : dict StockConfig) :
  (forall sym, (sym, []) ∈ market_data ->
     exists e, populate market_data stocks_config new_Portfolio = Raise e)
  /\ (forall before sym after self,
        market_data = before ++ (sym, []) :: after ->
        populate before stocks_config new_Portfolio = Ok self ->
        populate market_data stocks_config new_Portfolio = Raise IndexError)
  /\ (forall p, populate market_data stocks_config new_Portfolio = Ok p ->
        NoDup (map fst market_data) ->
        dict_keys (stocks p) = map fst market_data).
Proof.
  split; [|split].
  - intros sym Hin.
    apply (populate_loop_Raise stocks_config market_data new_Portfolio sym []
             IndexError Hin).
    intros self'. apply populate_stock_empty.
  - intros before sym after self -> Hbefore. unfold populate in *.
    rewrite populate_loop_app, Hbefore. reflexivity.
  - intros p Hp Hnd. apply (populate_keys _ _ _ Hp Hnd).
Qed.

Lemma populate_follows_fetched_columns_witness :
  populate [("AAA", [100; 105]%float); ("BBB", [])] demo_config new_Portfolio =
    Raise IndexError
  /\ exists p, populate demo_market demo_config new_Portfolio = Ok p /\
       dict_keys (stocks p) = ["AAA"; "BBB"].
Proof.
  destruct (populate_follows_fetched_columns demo_externals
              [("AAA", [100; 105]%float); ("BBB", [])] demo_config)
    as (_ & H2 & _).
  destruct (populate_follows_fetched_columns demo_externals
              demo_market demo_config) as (_ & _ & H3).
  split.
  - eapply (H2 [("AAA", [100; 105]%float)] "BBB" []); reflexivity.
  - eexists. split; [reflexivity|].
    apply H3; [reflexivity|].
    apply (bool_decide_unpack _). vm_compute. exact I.
Defined.

(** Counterexample to C4 as stated: the fetched data have no column for
    the configured symbol [BBB], and the run goes on to the table, with a
    ledger that lacks [BBB].  It also goes on when the column of [BBB]
    holds nothing but NaN: the holding is there, and the total value is
    NaN. *)
Lemma populate_omits_unfetched_symbol :
  "BBB" ∈ dict_keys demo_config
  /\ (exists p rep,
        main [("AAA", [100; 105; 110]%float)] demo_config false 80 20 "math" =
          Ok (p, rep)
        /\ dict_keys (stocks p) = ["AAA"])
  /\ (exists p rep,
        main [("AAA", [100; 105; 110]%float); ("BBB", [nan; nan; nan])]
          demo_config false 80 20 "math" = Ok (p, rep)
        /\ dict_keys (stocks p) = ["AAA"; "BBB"]
        /\ PrimFloat.is_nan (current_value p) = true).
Proof.
  split; [|split].
  - apply list_elem_of_further, list_elem_of_here.
  - eexists _, _. split; reflexivity.
  - eexists _, _. split; [reflexivity|]. split; reflexivity.
Qed.

(** ** The range of the y axis *)

Lemma fold_min_spec (t : list float) (acc : float) :
  (acc <=? acc)%float = true ->
  (forall y, y ∈ t -> (y <=? y)%float = true) ->
  let m := fold_left (fun m y => if (y <? m)%float then y else m) t acc in
  (m = acc \/ m ∈ t) /\ (m <=? acc)%float = true /\
  forall y, y ∈ t -> (m <=? y)%float = true.
Proof.
  revert acc. induction t as [|x t IH]; intros acc Hacc Ht; simpl.
  - split; [auto|]. split; [exact Hacc|]. intros y Hy. inversion Hy.
  - assert ((x <=? x)%float = true) as Hx by (apply Ht, list_elem_of_here).
    assert (forall y, y ∈ t -> (y <=? y)%float = true) as Ht'
      by (intros y Hy; apply Ht, list_elem_of_further, Hy).
    destruct (x <? acc)%float eqn:E.
    + destruct (IH x Hx Ht') as (Hm & Hle & Hall).
      split; [destruct Hm as [->|Hm]; right;
              [apply list_elem_of_here|apply list_elem_of_further, Hm]|].
      split; [eapply leb_trans; [exact Hle|apply ltb_leb, E]|].
      intros y Hy. apply elem_of_cons in Hy as [->|Hy]; [exact Hle|apply Hall, Hy].
    + destruct (IH acc Hacc Ht') as (Hm & Hle & Hall).
      split; [destruct Hm as [->|Hm]; [auto|right; apply list_elem_of_further, Hm]|].
      split; [exact Hle|].
      intros y Hy. apply elem_of_cons in Hy as [->|Hy]; [|apply Hall, Hy].
      eapply leb_trans; [exact Hle|]. apply ltb_false_leb; assumption.
Qed.

Lemma fold_max_spec (t : list float) (acc : float) :
  (acc <=? acc)%float = true ->
  (forall y, y ∈ t -> (y <=? y)%float = true) ->
  let m := fold_left (fun m y => if (m <? y)%float then y else m) t acc in
  (m = acc \/ m ∈ t) /\ (acc <=? m)%float = true /\
  forall y, y ∈ t -> (y <=? m)%float = true.
Proof.
  revert acc. induction t as [|x t IH]; intros acc Hacc Ht; simpl.
  - split; [auto|]. split; [exact Hacc|]. intros y Hy. inversion Hy.
  - assert ((x <=? x)%float = true) as Hx by (apply Ht, list_elem_of_here).
    assert (forall y, y ∈ t -> (y <=? y)%float = true) as Ht'
      by (intros y Hy; apply Ht, list_elem_of_further, Hy).
    destruct (acc <? x)%float eqn:E.
    + destruct (IH x Hx Ht') as (Hm & Hle & Hall).
      split; [destruct Hm as [->|Hm]; right;
              [apply list_elem_of_here|apply list_elem_of_further, Hm]|].
      split; [eapply leb_trans; [apply ltb_leb, E|exact Hle]|].
      intros y Hy. apply elem_of_cons in Hy as [->|Hy]; [exact Hle|apply Hall, Hy].
    + destruct (IH acc Hacc Ht') as (Hm & Hle & Hall).
      split; [destruct Hm as [->|Hm]; [auto|right; apply list_elem_of_further, Hm]|].
      split; [exact Hle|].
      intros y Hy. apply elem_of_cons in Hy as [->|Hy]; [|apply Hall, Hy].
      eapply leb_trans; [|exact Hle]. apply ltb_false_leb; assumption.
Qed.

Lemma py_min_spec (l : list float) :
  l <> [] -> (forall y, y ∈ l -> (y <=? y)%float = true) ->
  exists m, py_min l = Ok m /\ m ∈ l /\ forall y, y ∈ l -> (m <=? y)%float = true.
Proof.
  intros Hne Hl. destruct l as [|x t]; [congruence|].
  assert ((x <=? x)%float = true) as Hx by (apply Hl, list_elem_of_here).
  destruct (fold_min_spec t x Hx) as (Hm & Hle & Hall).
  { intros y Hy. apply Hl, list_elem_of_further, Hy. }
  eexists. split; [reflexivity|]. split.
  - destruct Hm as [->|Hm]; [apply list_elem_of_here|apply list_elem_of_further, Hm].
  - intros y Hy. apply elem_of_cons in Hy as [->|Hy]; [exact Hle|apply Hall, Hy].
Qed.

Lemma py_max_spec (l : list float) :
  l <> [] -> (forall y, y ∈ l -> (y <=? y)%float = true) ->
  exists m, py_max l = Ok m /\ m ∈ l /\ forall y, y ∈ l -> (y <=? m)%float = true.
Proof.
  intros Hne Hl. destruct l as [|x t]; [congruence|].
  assert ((x <=? x)%float = true) as Hx by (apply Hl, list_elem_of_here).
  destruct (fold_max_spec t x Hx) as (Hm & Hle & Hall).
  { intros y Hy. apply Hl, list_elem_of_further, Hy. }
  eexists. split; [reflexivity|]. split.
  - destruct Hm as [->|Hm]; [apply list_elem_of_here|apply list_elem_of_further, Hm].
  - intros y Hy. apply elem_of_cons in Hy as [->|Hy]; [exact Hle|apply Hall, Hy].
Qed.

(** The loop of [find_y_range]: the bounds it returns are the starting
    bounds or samples, and they enclose the starting bounds and all the
    samples. *)
Lemma find_y_range_loop_spec (store : dict Stock) (stks : list string)
    (y_min y_max : float) :
  (y_min <=? y_min)%float = true -> (y_max <=? y_max)%float = true ->
  (forall sym, sym ∈ stks ->
     exists stock, dict_get sym store = Some stock /\ data stock <> []) ->
  (forall x, x ∈ graph_samples store stks -> (x <=? x)%float = true) ->
  exists lo hi, find_y_range_loop store stks y_min y_max = Ok (lo, hi) /\
    (lo = y_min \/ lo ∈ graph_samples store stks) /\
    (lo <=? y_min)%float = true /\
    (forall x, x ∈ graph_samples store stks -> (lo <=? x)%float = true) /\
    (hi = y_max \/ hi ∈ graph_samples store stks) /\
    (y_max <=? hi)%float = true /\
    (forall x, x ∈ graph_samples store stks -> (x <=? hi)%float = true).
Proof.
  revert y_min y_max.
  induction stks as [|sym rest IH]; intros y_min y_max Hmin Hmax Hst Hord.
  - exists y_min, y_max. simpl.
    repeat split; auto; intros x Hx; inversion Hx.
  - destruct (Hst sym (list_elem_of_here _ _)) as (stock & Hget & Hne).
    unfold graph_samples in *. simpl in Hord |- *. rewrite Hget in Hord |- *.
    unfold dict_lookup. rewrite Hget. simpl.
    assert (forall y, y ∈ data stock -> (y <=? y)%float = true) as Hd
      by (intros y Hy; apply Hord, elem_of_app; auto).
    destruct (py_min_spec _ Hne Hd) as (mn & -> & Hmn_in & Hmn).
    destruct (py_max_spec _ Hne Hd) as (mx & -> & Hmx_in & Hmx).
    simpl.
    set (y_min' := if (mn <? y_min)%float then mn else y_min).
    set (y_max' := if (y_max <? mx)%float then mx else y_max).
    assert ((mn <=? mn)%float = true) as Hmn_o by (apply Hd, Hmn_in).
    assert ((mx <=? mx)%float = true) as Hmx_o by (apply Hd, Hmx_in).
    assert ((y_min' <=? y_min')%float = true) as Hmin'
      by (unfold y_min'; destruct (mn <? y_min)%float; assumption).
    assert ((y_max' <=? y_max')%float = true) as Hmax'
      by (unfold y_max'; destruct (y_max <? mx)%float; assumption).
    destruct (IH y_min' y_max' Hmin' Hmax') as
      (lo & hi & -> & Hlo & Hlo_le & Hlo_all & Hhi & Hhi_le & Hhi_all).
    { intros s Hs. apply Hst, list_elem_of_further, Hs. }
    { intros x Hx. apply Hord, elem_of_app. auto. }
    assert ((y_min' <=? y_min)%float = true /\ (y_min' <=? mn)%float = true /\
            (y_min' = y_min \/ y_min' = mn)) as (A1 & A2 & A3).
    { unfold y_min'. destruct (mn <? y_min)%float eqn:E;
        auto 6 with float_order. }
    assert ((y_max <=? y_max')%float = true /\ (mx <=? y_max')%float = true /\
            (y_max' = y_max \/ y_max' = mx)) as (B1 & B2 & B3).
    { unfold y_max'. destruct (y_max <? mx)%float eqn:E;
        auto 6 with float_order. }
    exists lo, hi. split; [reflexivity|].
    split; [|split; [|split; [|split; [|split]]]].
    + destruct Hlo as [->|Hlo]; [|right; apply elem_of_app; auto].
      destruct A3 as [->| ->]; [auto|right; apply elem_of_app; auto].
    + eapply leb_trans; eassumption.
    + intros x Hx. apply elem_of_app in Hx as [Hx|Hx]; [|apply Hlo_all, Hx].
      eapply leb_trans; [exact Hlo_le|]. eapply leb_trans; [exact A2|apply Hmn, Hx].
    + destruct Hhi as [->|Hhi]; [|right; apply elem_of_app; auto].
      destruct B3 as [->| ->]; [auto|right; apply elem_of_app; auto].
    + eapply leb_trans; eassumption.
    + intros x Hx. apply elem_of_app in Hx as [Hx|Hx]; [|apply Hhi_all, Hx].
      eapply leb_trans; [|exact Hhi_le]. eapply leb_trans; [apply Hmx, Hx|exact B2].
Qed.

(** C9 (amended): for a graph with at least one stock, whose stocks all
    have samples and whose samples all lie between [0] and [10^13] (so none
    is NaN), [find_y_range] returns the minimum and the maximum of all the
    samples of the graph's stocks. *)
Theorem find_y_range_is_min_max (store : dict Stock) (g : Graph) :
  g_stocks g <> [] ->
  (forall sym, sym ∈ g_stocks g ->
     exists stock, dict_get sym store = Some stock /\ data stock <> []) ->
  (forall x, x ∈ graph_samples store (g_stocks g) ->
     (0 <=? x)%float = true /\ (x <=? 10000000000000)%float = true) ->
  exists lo hi, find_y_range store g = Ok (lo, hi) /\
    is_minimum lo (graph_samples store (g_stocks g)) /\
    is_maximum hi (graph_samples store (g_stocks g)).
Proof.
  intros Hne Hst Hrange. unfold find_y_range.
  assert (forall x, x ∈ graph_samples store (g_stocks g) -> (x <=? x)%float = true)
    as Hord by (intros x Hx; destruct (Hrange x Hx); eauto with float_order).
  destruct (find_y_range_loop_spec store (g_stocks g)
              10000000000000%float 0%float eq_refl eq_refl Hst Hord)
    as (lo & hi & -> & Hlo & Hlo_le & Hlo_all & Hhi & Hhi_le & Hhi_all).
  assert (exists x, x ∈ graph_samples store (g_stocks g)) as [x0 Hx0].
  { destruct (g_stocks g) as [|sym rest]; [congruence|].
    destruct (Hst sym (list_elem_of_here _ _)) as (stock & Hget & Hd).
    unfold graph_samples. simpl. rewrite Hget.
    destruct (data stock) as [|x t]; [congruence|].
    exists x. apply list_elem_of_here. }
  exists lo, hi. split; [reflexivity|]. split; split.
  - destruct Hlo as [->|Hlo].
    + exists x0. split; [exact Hx0|].
      apply leb_antisym_eqb; [apply Hlo_all, Hx0|apply Hrange, Hx0].
    + exists lo. split; [exact Hlo|].
      apply leb_antisym_eqb; apply Hord, Hlo.
  - exact Hlo_all.
  - destruct Hhi as [->|Hhi].
    + exists x0. split; [exact Hx0|].
      apply leb_antisym_eqb; [apply Hrange, Hx0|apply Hhi_all, Hx0].
    + exists hi. split; [exact Hhi|].
      apply leb_antisym_eqb; apply Hord, Hhi.
  - exact Hhi_all.
Qed.

Lemma find_y_range_is_min_max_witness :
  exists lo hi,
    find_y_range
      [("AAA", mkStock "AAA" 110 [100; 105; 110]%float true None);
       ("BBB", mkStock "BBB" 52 [50; 48; 52]%float true None)]
      (new_Graph ["AAA"; "BBB"] 80 20 [None; None]) = Ok (lo, hi)
    /\ is_minimum lo [100; 105; 110; 50; 48; 52]%float
    /\ is_maximum hi [100; 105; 110; 50; 48; 52]%float.
Proof.
  apply (find_y_range_is_min_max
           [("AAA", mkStock "AAA" 110 [100; 105; 110]%float true None);
            ("BBB", mkStock "BBB" 52 [50; 48; 52]%float true None)]
           (new_Graph ["AAA"; "BBB"] 80 20 [None; None])).
  - discriminate.
  - intros sym Hsym. simpl in Hsym.
    apply elem_of_cons in Hsym as [->|Hsym];
      [eexists; split; [reflexivity|discriminate]|].
    apply list_elem_of_singleton in Hsym as ->.
    eexists; split; [reflexivity|discriminate].
  - intros x Hx. vm_compute in Hx.
    repeat (apply elem_of_cons in Hx as [->|Hx]; [split; reflexivity|]).
    inversion Hx.
Defined.

(** Counterexample to C9 as stated: on a graph of one stock whose only
    sample is [2 * 10^13] the lower bound stays at the starting value
    [10^13], below the only sample; and on a stock whose only sample is
    [-1] the upper bound stays at the starting value [0].  On samples that
    start with NaN both bounds keep their starting values, since the range
    is computed before the repair, while the line is drawn over
    [[5; 5; 7]]. *)
Lemma find_y_range_keeps_sentinels :
  find_y_range [("AAA", mkStock "AAA" 20000000000000 [20000000000000]%float true None)]
    (new_Graph ["AAA"] 80 20 [None]) =
    Ok (10000000000000%float, 20000000000000%float)
  /\ ~ is_minimum 10000000000000%float [20000000000000]%float
  /\ find_y_range [("AAA", mkStock "AAA" (-1) [-1]%float true None)]
       (new_Graph ["AAA"] 80 20 [None]) = Ok ((-1)%float, 0%float)
  /\ ~ is_maximum 0%float [-1]%float
  /\ (exists store g line,
        gen_graph demo_palette
          [("AAA", mkStock "AAA" 7 [nan; 5; 7]%float true None)]
          (new_Graph ["AAA"] 80 20 [None]) = Ok (store, g)
        /\ g_y_min g = 10000000000000%float /\ g_y_max g = 0%float
        /\ g_lines g = [line] /\ line_ys line = [5; 5; 7]%float
        /\ ~ is_minimum (g_y_min g) (line_ys line)).
Proof.
  split; [reflexivity|]. split; [|split; [reflexivity|split]].
  - intros [(x & Hx & Heq) _]. apply list_elem_of_singleton in Hx as ->.
    vm_compute in Heq. discriminate Heq.
  - intros [(x & Hx & Heq) _]. apply list_elem_of_singleton in Hx as ->.
    vm_compute in Heq. discriminate Heq.
  - eexists _, _, _. split; [reflexivity|]. repeat (split; [reflexivity|]).
    intros [_ Hall]. specialize (Hall 5%float (list_elem_of_here _ _)).
    vm_compute in Hall. discriminate Hall.
Qed.

(** ** Graph generation: what happens to the shared stocks *)

Lemma repaired_in_nil (store : dict Stock) : repaired_in [] store store.
Proof.
  split; [reflexivity|]. intros sym s Hs. exists s.
  repeat split; auto. intros H. inversion H.
Qed.

Lemma repaired_in_app (l1 l2 : list string) (s0 s1 s2 : dict Stock) :
  NoDup (l1 ++ l2) ->
  repaired_in l1 s0 s1 -> repaired_in l2 s1 s2 -> repaired_in (l1 ++ l2) s0 s2.
Proof.
  intros Hnd [K1 R1] [K2 R2]. split; [congruence|].
  apply NoDup_app in Hnd as (_ & Hdisj & _).
  intros sym s Hs.
  destruct (R1 sym s Hs) as (s' & Hs' & Y1 & G1 & V1 & In1 & Out1).
  destruct (R2 sym s' Hs') as (s'' & Hs'' & Y2 & G2 & V2 & In2 & Out2).
  exists s''. split; [exact Hs''|].
  split; [congruence|]. split; [congruence|]. split; [congruence|]. split.
  - intros Hin. apply elem_of_app in Hin as [Hin|Hin].
    + rewrite Out2; [apply In1, Hin|]. intros H2. apply (Hdisj _ Hin H2).
    + rewrite <- Out1; [apply In2, Hin|]. intros H1. apply (Hdisj _ H1 Hin).
  - intros Hout. apply not_elem_of_app in Hout as [H1 H2].
    rewrite Out2, Out1 by assumption. reflexivity.
Qed.

(** One pass of the loop body on the stock [sym]. *)
Lemma repaired_in_step (store : dict Stock) (sym : string) (stock : Stock)
    (d : list float) :
  stocks_wf store ->
  dict_get sym store = Some stock ->
  nan_repair (data stock) = Ok d ->
  stocks_wf (dict_set sym (set_data stock d) store) /\
  repaired_in [sym] store (dict_set sym (set_data stock d) store).
Proof.
  intros Hwf Hget Hrep.
  pose proof (stocks_wf_get _ _ _ Hwf Hget) as Hsym.
  split.
  - rewrite <- Hsym. apply (stocks_wf_set store (set_data stock d)), Hwf.
  - split.
    + apply dict_keys_set_present. destruct (decide (sym ∈ dict_keys store)) as [|Hout];
        [assumption|]. apply dict_get_None in Hout. congruence.
    + intros sym0 s Hs. destruct (decide (sym = sym0)) as [<-|Hne].
      * exists (set_data stock d). rewrite dict_get_set_eq.
        assert (s = stock) as -> by congruence.
        repeat split; auto. intros Hout. exfalso. apply Hout, list_elem_of_here.
      * exists s. rewrite dict_get_set_ne by exact Hne.
        repeat split; auto. intros Hin.
        apply list_elem_of_singleton in Hin. congruence.
Qed.

Section GraphGeneration.
Context `{Externals}.

Lemma gen_graph_loop_spec (auto_colors : list string)
    (colors : list (option string)) (stks : list string) :
  forall (store : dict Stock) (i : nat) (lines : list plot_line)
         (store' : dict Stock) (lines' : list plot_line),
  gen_graph_loop auto_colors colors store i stks lines = Ok (store', lines') ->
  stocks_wf store -> NoDup stks ->
  stocks_wf store' /\ repaired_in stks store store' /\
  exists new, lines' = lines ++ new /\ length new = length stks /\
    forall k sym, stks !! k = Some sym ->
      exists line s', new !! k = Some line /\
        line_color auto_colors colors (i + k) = Ok (line_lc line) /\
        line_label line = sym /\
        dict_get sym store' = Some s' /\
        line_ys line = data s' /\
        line_xs line = seq 0 (length (data s')).
Proof.
  induction stks as [|sym rest IH]; intros store i lines store' lines' Hloop Hwf Hnd.
  - injection Hloop as <- <-. split; [exact Hwf|]. split; [apply repaired_in_nil|].
    exists []. rewrite app_nil_r. repeat split. intros k sym Hk. discriminate.
  - simpl in Hloop.
    apply bind_Ok in Hloop as (lc & Hlc & Hloop).
    apply bind_Ok in Hloop as (stock & Hstock & Hloop).
    apply bind_Ok in Hloop as (d & Hd & Hloop).
    unfold dict_lookup in Hstock.
    destruct (dict_get sym store) as [stock'|] eqn:Hget; [|discriminate].
    injection Hstock as ->.
    apply NoDup_cons in Hnd as [Hfresh Hnd].
    destruct (repaired_in_step store sym stock d Hwf Hget Hd) as [Hwf1 Hrep1].
    destruct (IH _ _ _ _ _ Hloop Hwf1 Hnd) as (Hwf' & Hrep' & new & -> & Hlen & Hnew).
    split; [exact Hwf'|]. split.
    { apply (repaired_in_app [sym] rest store
               (dict_set sym (set_data stock d) store) store'); try assumption.
      simpl. apply NoDup_cons. auto. }
    exists (mkLine (seq 0 (length d)) d lc (symbol stock) :: new).
    split; [rewrite <- (assoc_L (++)); reflexivity|].
    split; [simpl; rewrite Hlen; reflexivity|].
    intros k sym0 Hk. destruct k as [|k].
    + injection Hk as <-.
      destruct Hrep' as [_ Hrep'].
      destruct (Hrep' sym (set_data stock d)) as (s' & Hs' & _ & _ & _ & _ & Hout).
      { apply dict_get_set_eq. }
      exists (mkLine (seq 0 (length d)) d lc (symbol stock)), s'.
      rewrite Nat.add_0_r, (Hout Hfresh). simpl.
      repeat split; auto. apply (stocks_wf_get _ _ _ Hwf Hget).
    + destruct (Hnew k sym0 Hk) as (line & s' & Hl & Hc & Hlab & Hs' & Hys & Hxs).
      exists line, s'. replace (i + S k)%nat with (S i + k)%nat by lia.
      repeat split; auto.
Qed.

Lemma gen_graph_spec (auto_colors : list string)
    (store store' : dict Stock) (g g' : Graph) :
  gen_graph auto_colors store g = Ok (store', g') ->
  stocks_wf store -> NoDup (g_stocks g) ->
  stocks_wf store' /\ repaired_in (g_stocks g) store store' /\
  g_stocks g' = g_stocks g /\ g_colors g' = g_colors g /\
  find_y_range store g = Ok (g_y_min g', g_y_max g') /\
  graph_drawn auto_colors store' g'.
Proof.
  unfold gen_graph. intros Hg Hwf Hnd.
  apply bind_Ok in Hg as ([lo hi] & Hrange & Hg).
  apply bind_Ok in Hg as ([store1 lines] & Hloop & Hg).
  injection Hg as <- <-.
  destruct (gen_graph_loop_spec _ _ _ _ _ _ _ _ Hloop Hwf Hnd)
    as (Hwf' & Hrep & new & -> & Hlen & Hnew).
  split; [exact Hwf'|]. split; [exact Hrep|].
  split; [reflexivity|]. split; [reflexivity|]. split; [exact Hrange|].
  split; [exact Hlen|].
  intros k sym Hk. simpl in Hk |- *.
  destruct (Hnew k sym Hk) as (line & s' & ? & ? & ? & ? & ? & _).
  exists line, s'. auto.
Qed.

Lemma graph_drawn_later (auto_colors : list string)
    (later : list string) (store store' : dict Stock) (g : Graph) :
  repaired_in later store store' ->
  (forall sym, sym ∈ g_stocks g -> sym ∉ later) ->
  graph_drawn auto_colors store g -> graph_drawn auto_colors store' g.
Proof.
  intros [_ Hrep] Hdisj [Hlen Hdrawn]. split; [exact Hlen|].
  intros k sym Hk.
  destruct (Hdrawn k sym Hk) as (line & s & Hl & Hc & Hlab & Hs & Hys).
  destruct (Hrep sym s Hs) as (s' & Hs' & _ & _ & _ & _ & Hout).
  exists line, s'. rewrite Hout; [auto 10|].
  apply Hdisj. eapply list_elem_of_lookup_2, Hk.
Qed.

Lemma gen_all_spec (gs : list Graph) :
  forall (store store' : dict Stock) (gs' : list Graph),
  gen_all store gs = Ok (store', gs') ->
  stocks_wf store -> NoDup (concat (map g_stocks gs)) ->
  stocks_wf store' /\ repaired_in (concat (map g_stocks gs)) store store' /\
  map g_stocks gs' = map g_stocks gs /\ map g_colors gs' = map g_colors gs /\
  Forall (graph_drawn autocolors_color_list store') gs'.
Proof.
  induction gs as [|g rest IH]; intros store store' gs' Hall Hwf Hnd.
  - injection Hall as <- <-. simpl. auto using repaired_in_nil.
  - simpl in Hall, Hnd.
    apply bind_Ok in Hall as ([store1 g1] & Hg & Hall).
    apply bind_Ok in Hall as ([store2 rest'] & Hrest & Hall).
    injection Hall as <- <-.
    pose proof Hnd as Hnd0.
    apply NoDup_app in Hnd as (Hnd1 & Hdisj & Hnd2).
    destruct (gen_graph_spec _ _ _ _ _ Hg Hwf Hnd1)
      as (Hwf1 & Hrep1 & Hst & Hco & _ & Hdrawn).
    destruct (IH _ _ _ Hrest Hwf1 Hnd2) as (Hwf2 & Hrep2 & Hsts & Hcos & Hall').
    split; [exact Hwf2|]. split.
    { simpl. eapply repaired_in_app; eassumption. }
    simpl. rewrite Hst, Hco, Hsts, Hcos. repeat split.
    apply Forall_cons. split; [|exact Hall'].
    eapply graph_drawn_later; [exact Hrep2| |exact Hdrawn].
    intros sym Hsym. rewrite Hst in Hsym. apply Hdisj, Hsym.
Qed.

Lemma flagged_symbols_elem (store : dict Stock) (sym : string) :
  Forall (fun kv => symbol (snd kv) = fst kv) store ->
  sym ∈ flagged_symbols store <->
  exists s, (sym, s) ∈ store /\ graph s = true.
Proof.
  intros Hsym. unfold flagged_symbols, dict_values. split.
  - intros Hin. apply list_elem_of_fmap in Hin as (s & -> & Hin).
    apply list_elem_of_filter in Hin as [Hg Hin].
    apply list_elem_of_fmap in Hin as ([k s'] & -> & Hin).
    rewrite Forall_forall in Hsym. pose proof (Hsym _ Hin) as Hk. simpl in Hk.
    exists s'. simpl. rewrite Hk. auto.
  - intros (s & Hin & Hg).
    rewrite Forall_forall in Hsym. pose proof (Hsym _ Hin) as Hk. simpl in Hk.
    rewrite <- Hk. apply (list_elem_of_fmap_2 symbol).
    apply list_elem_of_filter. split; [exact Hg|].
    apply (list_elem_of_fmap_2 snd _ (sym, s)), Hin.
Qed.

Lemma flagged_symbols_NoDup (store : dict Stock) :
  stocks_wf store -> NoDup (flagged_symbols store).
Proof.
  intros [Hnd Hsym]. induction store as [|[k v] rest IH].
  - apply NoDup_nil_2.
  - apply NoDup_cons in Hnd as [Hk Hnd].
    apply Forall_cons in Hsym as [Hv Hsym]. simpl in Hv.
    unfold flagged_symbols, dict_values. simpl. rewrite filter_cons.
    destruct (decide (graph v = true)) as [Hg|Hg]; [|apply IH; assumption].
    simpl. apply NoDup_cons. split; [|apply IH; assumption].
    rewrite Hv. intros Hin.
    apply (flagged_symbols_elem rest k Hsym) in Hin as (s & Hin & _).
    apply Hk. apply (list_elem_of_fmap_2 fst _ (k, s)), Hin.
Qed.

Lemma flagged_symbols_get (store : dict Stock) (sym : string) (s : Stock) :
  stocks_wf store -> dict_get sym store = Some s ->
  sym ∈ flagged_symbols store <-> graph s = true.
Proof.
  intros [Hnd Hsym] Hget. rewrite (flagged_symbols_elem _ _ Hsym). split.
  - intros (s' & Hin & Hg). apply (dict_get_elem _ _ _ Hnd) in Hin. congruence.
  - intros Hg. exists s. split; [apply dict_get_Some_elem, Hget|exact Hg].
Qed.

(** The graphs of the independent branch: one per flagged stock, each with
    that stock alone and one colour. *)
Lemma independent_graphs_loop_spec (color_list : list (option string))
    (width height : Z) (values : list Stock) :
  forall (i : nat) (gs : list Graph),
  independent_graphs_loop color_list width height i values = Ok gs ->
  concat (map g_stocks gs) =
    map symbol (filter (fun s => graph s = true) values) /\
  Forall (fun g => exists sym c, g_stocks g = [sym] /\ g_colors g = [c]) gs.
Proof.
  induction values as [|stock rest IH]; intros i gs Hgs.
  - injection Hgs as <-. split; [reflexivity|constructor].
  - simpl in Hgs. rewrite filter_cons.
    destruct (graph stock) eqn:Eg.
    + apply bind_Ok in Hgs as (c & _ & Hgs).
      apply bind_Ok in Hgs as (gs0 & Hgs0 & Hgs). injection Hgs as <-.
      destruct (IH _ _ Hgs0) as [Hc Hf].
      destruct (decide (true = true)); [|congruence].
      simpl. rewrite Hc. split; [reflexivity|].
      apply Forall_cons. split; [eauto|exact Hf].
    + destruct (decide (false = true)); [discriminate|]. apply (IH _ _ Hgs).
Qed.

Lemma Forall_same_stocks_colors (P : list string -> list (option string) -> Prop)
    (gs gs' : list Graph) :
  map g_stocks gs' = map g_stocks gs -> map g_colors gs' = map g_colors gs ->
  Forall (fun g => P (g_stocks g) (g_colors g)) gs ->
  Forall (fun g => P (g_stocks g) (g_colors g)) gs'.
Proof.
  revert gs'. induction gs as [|g rest IH]; intros [|g' rest'] Hs Hc Hall;
    try discriminate; [constructor|].
  injection Hs as Hs1 Hs. injection Hc as Hc1 Hc.
  apply Forall_cons in Hall as [Hg Hall].
  apply Forall_cons. split; [rewrite Hs1, Hc1; exact Hg|apply IH; assumption].
Qed.

Lemma gen_graphs_spec (independent_graphs : bool) (w h : Z)
    (self p' : Portfolio) :
  gen_graphs independent_graphs w h self = Ok p' ->
  stocks_wf (stocks self) ->
  stocks_metadata p' = stocks_metadata self /\
  initial_value p' = initial_value self /\
  color_list p' = color_list self /\
  stocks_wf (stocks p') /\
  repaired_in (flagged_symbols (stocks self)) (stocks self) (stocks p') /\
  Forall (graph_drawn autocolors_color_list (stocks p')) (graphs p') /\
  (independent_graphs = true ->
   Forall (fun g => exists sym c, g_stocks g = [sym] /\ g_colors g = [c])
     (graphs p')).
Proof.
  unfold gen_graphs. intros Hg Hwf.
  apply bind_Ok in Hg as (gs & Hgs & Hg).
  apply bind_Ok in Hg as ([store gs'] & Hall & Hg). injection Hg as <-. simpl.
  assert (concat (map g_stocks gs) = flagged_symbols (stocks self) /\
          (independent_graphs = true ->
           Forall (fun g => exists sym c, g_stocks g = [sym] /\ g_colors g = [c]) gs))
    as [Hconcat Hsingle].
  { destruct independent_graphs; simpl in Hgs.
    - destruct (independent_graphs_loop_spec _ _ _ _ _ _ Hgs) as [Hc Hf]. auto.
    - split; [|discriminate]. unfold flagged_symbols.
      destruct (filter (fun s => graph s = true) (dict_values (stocks self)))
        as [|s l]; simpl in Hgs; injection Hgs as <-; simpl;
        rewrite ?app_nil_r; reflexivity. }
  destruct (gen_all_spec gs _ _ _ Hall Hwf) as (Hwf' & Hrep & Hs & Hc & Hdrawn).
  { rewrite Hconcat. apply flagged_symbols_NoDup, Hwf. }
  rewrite Hconcat in Hrep. repeat split; auto; try apply Hwf'.
  - apply Hrep.
  - apply Hrep.
  - intros Hi. eapply (Forall_same_stocks_colors
      (fun st co => exists sym c, st = [sym] /\ co = [c])); eauto.
Qed.

(** The combined branch: one graph, of the flagged stocks in the
    dictionary's order, with the first colours of [color_list]. *)
Lemma gen_graphs_combined (w h : Z) (self p' : Portfolio) :
  gen_graphs false w h self = Ok p' ->
  stocks_wf (stocks self) ->
  flagged_symbols (stocks self) <> [] ->
  exists g, graphs p' = [g] /\
    g_stocks g = flagged_symbols (stocks self) /\
    g_colors g =
      take (length (flagged_symbols (stocks self))) (color_list self) /\
    graph_drawn autocolors_color_list (stocks p') g.
Proof.
  unfold gen_graphs, flagged_symbols. intros Hg Hwf Hne.
  apply bind_Ok in Hg as (gs & Hgs & Hg).
  apply bind_Ok in Hg as ([store gs'] & Hall & Hg). injection Hg as <-.
  cbn [negb] in Hgs.
  destruct (filter (fun s => graph s = true) (dict_values (stocks self)))
    as [|s l] eqn:El; [contradiction|].
  cbn [length Nat.ltb Nat.leb] in Hgs. injection Hgs as <-.
  destruct (gen_all_spec _ _ _ _ Hall Hwf) as (_ & _ & Hs & Hc & Hdrawn).
  { change (NoDup (map symbol (s :: l) ++ [])).
    rewrite app_nil_r, <- El. apply (flagged_symbols_NoDup _ Hwf). }
  destruct gs' as [|g' [|g'' rest]]; try discriminate.
  simpl in Hs, Hc. injection Hs as Hs. injection Hc as Hc.
  apply Forall_cons in Hdrawn as [Hdrawn _].
  exists g'. cbn [graphs set_graphs stocks set_stocks].
  rewrite length_map. auto.
Qed.

End GraphGeneration.

(** ** Automatic colours *)

Lemma line_color_None `{Externals} (auto_colors : list string)
    (colors : list (option string)) (i : nat) (lc : rgb) :
  colors !! i = Some None ->
  line_color auto_colors colors i = Ok lc ->
  exists hex, auto_colors !! (i mod 67) = Some hex /\ hex_to_rgb hex = Ok lc.
Proof.
  unfold line_color, py_getitem. intros -> Hlc. cbn [bind] in Hlc. revert Hlc.
  destruct (auto_colors !! (i mod 67)) as [hex|]; cbn [bind]; [|discriminate].
  intros Hlc. exists hex. auto.
Qed.

(** C8 (amended): a line whose requested colour, in its graph, is [None]
    gets the palette entry at the line's index in that graph, modulo 67:
    the index counts the lines of the graph, not the holdings of the
    portfolio.  With independent graphs every graph has one line, of index
    0, so every holding without a colour gets the first palette entry; on
    the combined graph the index is the holding's rank among the holdings
    that are graphed. *)
Theorem auto_colour_follows_line_index (E : Externals) :
  (forall auto_colors store g store' g' i sym,
     gen_graph auto_colors store g = Ok (store', g') ->
     stocks_wf store -> NoDup (g_stocks g) ->
     g_stocks g !! i = Some sym -> g_colors g !! i = Some None ->
     exists hex line,
       auto_colors !! (i mod 67) = Some hex /\
       g_lines g' !! i = Some line /\ line_label line = sym /\
       hex_to_rgb hex = Ok (line_lc line))
  /\ (forall w h self p',
        gen_graphs true w h self = Ok p' -> stocks_wf (stocks self) ->
        Forall (fun g => exists sym c,
                  g_stocks g = [sym] /\ g_colors g = [c] /\
                  (c = None ->
                   exists hex line,
                     autocolors_color_list !! 0%nat = Some hex /\
                     g_lines g = [line] /\ line_label line = sym /\
                     hex_to_rgb hex = Ok (line_lc line)))
          (graphs p'))
  /\ (forall w h self p',
        gen_graphs false w h self = Ok p' -> stocks_wf (stocks self) ->
        flagged_symbols (stocks self) <> [] ->
        exists g, graphs p' = [g] /\
          g_stocks g = flagged_symbols (stocks self) /\
          forall i sym,
            g_stocks g !! i = Some sym -> g_colors g !! i = Some None ->
            exists hex line,
              autocolors_color_list !! (i mod 67) = Some hex /\
              g_lines g !! i = Some line /\ line_label line = sym /\
              hex_to_rgb hex = Ok (line_lc line)).
Proof.
  split; [|split].
  - intros auto_colors store g store' g' i sym Hg Hwf Hnd Hi Hc.
    destruct (gen_graph_spec _ _ _ _ _ Hg Hwf Hnd)
      as (_ & _ & Hst & Hco & _ & _ & Hdrawn).
    rewrite <- Hst in Hi. rewrite <- Hco in Hc.
    destruct (Hdrawn i sym Hi) as (line & s & Hl & Hlc & Hlab & _).
    destruct (line_color_None _ _ _ _ Hc Hlc) as (hex & Hhex & Hrgb).
    exists hex, line. auto.
  - intros w h self p' Hg Hwf.
    destruct (gen_graphs_spec _ _ _ _ _ Hg Hwf) as (_&_&_&_&_& Hdrawn & Hsingle).
    specialize (Hsingle eq_refl).
    rewrite Forall_forall in Hdrawn, Hsingle |- *. intros g Hin.
    destruct (Hsingle g Hin) as (sym & c & Hst & Hco).
    exists sym, c. split; [exact Hst|]. split; [exact Hco|]. intros ->.
    destruct (Hdrawn g Hin) as [Hlen Hlines].
    destruct (Hlines 0%nat sym) as (line & s & Hl & Hlc & Hlab & _).
    { rewrite Hst. reflexivity. }
    rewrite Hco in Hlc.
    destruct (line_color_None _ [None] 0%nat _ eq_refl Hlc) as (hex & Hhex & Hrgb).
    exists hex, line. repeat split; auto.
    rewrite Hst in Hlen. destruct (g_lines g) as [|l0 [|l1 ls]]; try discriminate.
    simpl in Hl. injection Hl as ->. reflexivity.
  - intros w h self p' Hg Hwf Hne.
    destruct (gen_graphs_combined _ _ _ _ Hg Hwf Hne)
      as (g & Hgs & Hst & _ & _ & Hdrawn).
    exists g. split; [exact Hgs|]. split; [exact Hst|].
    intros i sym Hi Hc.
    destruct (Hdrawn i sym Hi) as (line & s & Hl & Hlc & Hlab & _).
    destruct (line_color_None _ _ _ _ Hc Hlc) as (hex & Hhex & Hrgb).
    exists hex, line. auto.
Qed.

Lemma auto_colour_follows_line_index_witness :
  exists p p',
    populate demo_market demo_config new_Portfolio = Ok p /\
    gen_graphs true 80 20 p = Ok p' /\
    Forall (fun g => exists sym c,
              g_stocks g = [sym] /\ g_colors g = [c] /\
              (c = None ->
               exists hex line,
                 demo_palette !! 0%nat = Some hex /\
                 g_lines g = [line] /\ line_label line = sym /\
                 demo_hex_to_rgb hex = Ok (line_lc line)))
      (graphs p').
Proof.
  set (p := result_get new_Portfolio
              (populate demo_market demo_config new_Portfolio)).
  set (p' := result_get new_Portfolio (gen_graphs true 80 20 p)).
  exists p, p'. split; [reflexivity|]. split; [reflexivity|].
  destruct (auto_colour_follows_line_index demo_externals) as (_ & H2 & _).
  apply (H2 80%Z 20%Z p p'); [reflexivity|].
  split.
  - apply (bool_decide_unpack _). vm_compute. exact I.
  - repeat constructor.
Defined.

(** Counterexample to C8 as stated: [BBB] is second in the configuration
    and has no colour of its own; the claim gives it the palette entry 1,
    while the program gives it the entry 0, both with independent graphs
    and, when [AAA] is not graphed, on the combined graph. *)
Lemma second_holding_gets_first_colour :
  exists c0 c1,
    (do hex <- py_getitem demo_palette 0; demo_hex_to_rgb hex) = Ok c0 /\
    (do hex <- py_getitem demo_palette (1 mod length demo_palette);
     demo_hex_to_rgb hex) = Ok c1 /\
    c0 <> c1 /\
    (exists p rep g line,
       main demo_market demo_config true 80 20 "math" = Ok (p, rep) /\
       dict_keys (stocks p) !! 1%nat = Some "BBB" /\
       color_list p !! 1%nat = Some None /\
       graphs p !! 1%nat = Some g /\ g_lines g = [line] /\
       line_label line = "BBB" /\ line_lc line = c0) /\
    (exists p rep g line,
       main demo_market second_only_config false 80 20 "math" = Ok (p, rep) /\
       dict_keys (stocks p) !! 1%nat = Some "BBB" /\
       color_list p !! 1%nat = Some None /\
       graphs p = [g] /\ g_lines g = [line] /\
       line_label line = "BBB" /\ line_lc line = c0).
Proof.
  eexists _, _. split; [reflexivity|]. split; [reflexivity|].
  split; [discriminate|]. split.
  - eexists _, _, _, _. repeat split; reflexivity.
  - eexists _, _, _, _. repeat split; reflexivity.
Qed.

(** ** The table and the totals *)

Lemma last_Some_default {A : Type} (l : list A) (x d : A) :
  last l = Some x -> List.last l d = x.
Proof.
  induction l as [|a [|b t] IH]; simpl; intros Hl.
  - discriminate.
  - congruence.
  - apply IH. exact Hl.
Qed.

Lemma get_curr_last_sample (stock : Stock) (curr : float) :
  get_curr stock = Ok curr -> last_sample stock = curr.
Proof.
  unfold get_curr, py_last, last_sample. intros H.
  destruct (last (data stock)) as [x|] eqn:E; [|discriminate].
  injection H as <-. apply last_Some_default, E.
Qed.

Lemma get_open_first_sample (stock : Stock) (opn : float) :
  get_open stock = Ok opn -> first_sample stock = opn.
Proof.
  unfold get_open, py_getitem, first_sample. intros H.
  destruct (data stock) as [|x t]; [discriminate|].
  simpl in H. injection H as <-. reflexivity.
Qed.

Section Table.
Context `{Externals}.

Lemma print_table_loop_spec (mode : string) (self : Portfolio)
    (values : list Stock) :
  forall (table : list table_line) (cur opn : float)
         (table' : list table_line) (cur' opn' : float),
  print_table_loop mode (stocks_metadata self) values table cur opn =
    Ok (table', cur', opn') ->
  cur' = fold_left (fun acc y => (acc + y)%float)
           (map (fun st => (last_sample st * quantity_of self st)%float) values)
           cur /\
  opn' = fold_left (fun acc y => (acc + y)%float)
           (map (fun st => (first_sample st * quantity_of self st)%float) values)
           opn.
Proof.
  induction values as [|stock rest IH]; intros table cur opn table' cur' opn' Hloop.
  - injection Hloop as _ <- <-. split; reflexivity.
  - simpl in Hloop.
    apply bind_Ok in Hloop as (line & _ & Hloop).
    apply bind_Ok in Hloop as (meta & Hmeta & Hloop).
    apply bind_Ok in Hloop as (v & Hv & Hloop).
    apply bind_Ok in Hloop as (o & Ho & Hloop).
    apply bind_Ok in Hloop as (meta' & Hmeta' & Hloop).
    rewrite Hmeta in Hmeta'. injection Hmeta' as <-.
    unfold dict_lookup in Hmeta.
    destruct (dict_get (symbol stock) (stocks_metadata self)) as [meta0|] eqn:Hget;
      [|discriminate].
    injection Hmeta as ->.
    unfold calc_value in Hv. apply bind_Ok in Hv as (curr & Hcurr & Hv).
    injection Hv as <-.
    destruct (IH _ _ _ _ _ _ Hloop) as [-> ->].
    assert (quantity_of self stock = fst meta) as Hq
      by (unfold quantity_of; rewrite Hget; reflexivity).
    simpl. rewrite Hq, (get_curr_last_sample stock curr Hcurr),
      (get_open_first_sample stock o Ho). split; reflexivity.
Qed.

Lemma print_table_loop_lines (mode : string) (metadata : dict (float * float))
    (values : list Stock) :
  forall (table : list table_line) (cur opn : float)
         (table' : list table_line) (cur' opn' : float),
  print_table_loop mode metadata values table cur opn = Ok (table', cur', opn') ->
  exists new, table' = table ++ new /\
    Forall2 (fun st line => table_line_of mode metadata st = Ok line) values new.
Proof.
  induction values as [|stock rest IH]; intros table cur opn table' cur' opn' Hloop.
  - injection Hloop as <- _ _. exists []. rewrite app_nil_r. split; [reflexivity|constructor].
  - simpl in Hloop.
    apply bind_Ok in Hloop as (line & Hline & Hloop).
    apply bind_Ok in Hloop as (meta & _ & Hloop).
    apply bind_Ok in Hloop as (v & _ & Hloop).
    apply bind_Ok in Hloop as (o & _ & Hloop).
    apply bind_Ok in Hloop as (meta' & _ & Hloop).
    destruct (IH _ _ _ _ _ _ Hloop) as (new & -> & Hnew).
    exists (line :: new). rewrite <- (assoc_L (++)). split; [reflexivity|].
    constructor; assumption.
Qed.

(** The table is made from the stocks as [print_table] finds them, and
    leaves them as they are. *)
Lemma print_table_lines (mode : string) (self self' : Portfolio) (rep : report) :
  print_table mode self = Ok (self', rep) ->
  stocks self' = stocks self /\
  Forall2 (fun st line => table_line_of mode (stocks_metadata self) st = Ok line)
    (holdings self) (rep_table rep).
Proof.
  unfold print_table. intros Hpt.
  apply bind_Ok in Hpt as ([[table cur] opn] & Hloop & Hpt).
  apply bind_Ok in Hpt as (today & _ & Hpt).
  apply bind_Ok in Hpt as (overall & _ & Hpt).
  injection Hpt as <- <-.
  destruct (print_table_loop_lines _ _ _ _ _ _ _ _ _ Hloop) as (new & -> & Hnew).
  split; [reflexivity|exact Hnew].
Qed.

Lemma populate_initial_value (market_data : MarketData)
    (stocks_config : dict StockConfig) (p : Portfolio) :
  NoDup (map fst market_data) ->
  populate market_data stocks_config new_Portfolio = Ok p ->
  initial_value p =
    float_sum (map (fun st => (quantity_of p st * average_cost_of p st)%float)
                 (holdings p)).
Proof.
  intros Hnd Hp.
  destruct (populate_spec _ _ _ Hp Hnd) as (added & Hs & Hm & Hc & Hi).
  assert (NoDup (dict_keys (stocks_metadata p))) as Hndm.
  { rewrite Hm. unfold dict_keys. rewrite map_map. simpl.
    replace (map (fun a : Stock * (float * float) => symbol (fst a)) added)
      with (map fst market_data); [exact Hnd|].
    rewrite <- Hc, map_map. reflexivity. }
  rewrite Hi. unfold float_sum, holdings, dict_values. rewrite Hs, !map_map. simpl.
  assert (forall a, a ∈ added ->
            (quantity_of p (fst a) * average_cost_of p (fst a))%float =
            (fst (snd a) * snd (snd a))%float) as Hcost.
  { intros a Ha. unfold quantity_of, average_cost_of.
    rewrite (dict_get_elem (symbol (fst a)) (snd a)); [reflexivity|exact Hndm|].
    rewrite Hm. apply (list_elem_of_fmap_2 (fun a => (symbol (fst a), snd a))), Ha. }
  clear Hs Hm Hc Hi Hndm. revert Hcost. generalize 0%float.
  induction added as [|a rest IH]; intros acc Hcost; simpl; [reflexivity|].
  rewrite (Hcost a (list_elem_of_here _ _)). apply IH.
  intros b Hb. apply Hcost, list_elem_of_further, Hb.
Qed.

Lemma py_len_float_positive {A : Type} (l : list A) :
  l <> [] -> (Z.of_nat (length l) < 2 ^ 63)%Z ->
  (0 <? py_len_float l)%float = true.
Proof.
  intros Hne Hlen. apply ltb_zero_positive. unfold py_len_float.
  rewrite of_uint63_spec, Uint63.of_Z_spec.
  rewrite Z.mod_small by (split; [lia|exact Hlen]).
  destruct l as [|a l]; [congruence|]. cbn [length].
  destruct (Z.of_nat (S (length l))) as [|n|n] eqn:En; try lia.
  unfold binary_normalize.
  destruct (binary_round_sign false n 0) as [(m' & e' & ->)| ->];
    [unfold SpecFloat.emin, prec, emax; lia|exact I..].
Qed.

Lemma get_curr_Ok (stock : Stock) :
  data stock <> [] -> get_curr stock = Ok (last_sample stock).
Proof.
  intros Hne. unfold get_curr, py_last, last_sample.
  destruct (last (data stock)) as [x|] eqn:E.
  - rewrite (last_Some_default _ _ 0%float E). reflexivity.
  - apply last_None in E. contradiction.
Qed.

Lemma get_open_Ok (stock : Stock) :
  data stock <> [] -> get_open stock = Ok (first_sample stock).
Proof.
  intros Hne. unfold get_open, py_getitem, first_sample.
  destruct (data stock); [contradiction|reflexivity].
Qed.

Lemma table_line_of_returns (mode : string) (self : Portfolio) (stock : Stock) :
  printable self stock ->
  exists line, table_line_of mode (stocks_metadata self) stock = Ok line.
Proof.
  intros (Hne & Hlen & Hnz & Hmeta).
  unfold table_line_of, change_percent, calc_value, dict_lookup.
  rewrite (get_curr_Ok _ Hne), (get_open_Ok _ Hne). cbn [bind].
  unfold py_truediv at 1. rewrite Hnz. cbn [bind].
  fold (get_curr stock). rewrite (get_curr_Ok _ Hne). cbn [bind].
  unfold get_data.
  destruct (py_min (data stock)) as [lo|] eqn:Elo;
    [|destruct (data stock); [contradiction|discriminate]].
  destruct (py_max (data stock)) as [hi|] eqn:Ehi;
    [|destruct (data stock); [contradiction|discriminate]].
  cbn [bind]. unfold py_truediv.
  rewrite (ltb_eqb_false _ _ (py_len_float_positive _ Hne Hlen)). cbn [bind].
  destruct (dict_get (symbol stock) (stocks_metadata self)) as [meta|];
    [|congruence].
  cbn [bind]. eauto.
Qed.

Lemma print_table_loop_returns (mode : string) (self : Portfolio)
    (values : list Stock) :
  Forall (printable self) values ->
  forall table cur opn, exists table' cur' opn',
    print_table_loop mode (stocks_metadata self) values table cur opn =
      Ok (table', cur', opn').
Proof.
  intros Hall. induction Hall as [|stock rest Hst _ IH]; intros table cur opn.
  - simpl. eauto.
  - simpl. destruct (table_line_of_returns mode self stock Hst) as [line ->].
    cbn [bind]. unfold dict_lookup.
    destruct Hst as (Hne & _ & _ & Hmeta).
    destruct (dict_get (symbol stock) (stocks_metadata self)) as [meta|];
      [|congruence].
    cbn [bind]. unfold calc_value.
    fold (get_curr stock). rewrite (get_curr_Ok _ Hne), (get_open_Ok _ Hne).
    cbn [bind]. apply IH.
Qed.

Lemma print_table_returns (mode : string) (self : Portfolio) :
  Forall (printable self) (holdings self) ->
  (float_sum (map (fun st => (last_sample st * quantity_of self st)%float)
                (holdings self)) =? 0)%float = false ->
  exists self' rep, print_table mode self = Ok (self', rep).
Proof.
  intros Hall Hnz. unfold print_table.
  destruct (print_table_loop_returns mode self _ Hall [] 0%float 0%float)
    as (table & cur & opn & Hloop).
  fold (holdings self). rewrite Hloop. cbn [bind].
  destruct (print_table_loop_spec _ _ _ _ _ _ _ _ _ Hloop) as [Hcur _].
  fold (float_sum (map (fun st => (last_sample st * quantity_of self st)%float)
                     (holdings self))) in Hcur.
  unfold print_gains, py_truediv. cbn [current_value set_totals].
  rewrite Hcur, Hnz. cbn [bind]. eauto.
Qed.

End Table.

(** ** Where the repair happens *)

(** C3 (amended): [populate] stores the fetched samples as they are, NaN
    included; the repair is made by [gen_graphs], in place and only on the
    stocks that are to be graphed, whose lines are drawn over the repaired
    samples; the table is then made from the stocks as [gen_graphs] left
    them, so from the same repaired samples for a graphed stock, and from
    the samples as fetched for a stock that is not graphed. *)
Theorem repair_happens_in_gen_graphs (E : Externals)
    (market_data : MarketData) (stocks_config : dict StockConfig)
    (independent_graphs : bool) (w h : Z) (p p' : Portfolio) :
  NoDup (map fst market_data) ->
  populate market_data stocks_config new_Portfolio = Ok p ->
  gen_graphs independent_graphs w h p = Ok p' ->
  (forall sym d, (sym, d) ∈ market_data ->
     exists s s',
       dict_get sym (stocks p) = Some s /\ data s = d /\
       dict_get sym (stocks p') = Some s' /\
       (graph s = true -> nan_repair d = Ok (data s')) /\
       (graph s = false -> data s' = d))
  /\ Forall (graph_drawn autocolors_color_list (stocks p')) (graphs p')
  /\ (forall mode q rep,
        print_table mode p' = Ok (q, rep) ->
        stocks q = stocks p' /\
        Forall2 (fun st line =>
                   table_line_of mode (stocks_metadata p') st = Ok line)
          (holdings p') (rep_table rep)).
Proof.
  intros Hnd Hp Hg.
  destruct (populate_keys _ _ _ Hp Hnd) as [_ Hwf].
  destruct (gen_graphs_spec _ _ _ _ _ Hg Hwf) as (_ & _ & _ & _ & Hrep & Hdrawn & _).
  split; [|split; [exact Hdrawn|]].
  - intros sym d Hin.
    destruct (populate_data _ _ _ _ _ Hp Hnd Hin) as (s & Hs & <-).
    destruct Hrep as [_ Hrep].
    destruct (Hrep sym s Hs) as (s' & Hs' & _ & _ & _ & Hin' & Hout).
    exists s, s'. repeat split; auto.
    + intros Hflag. apply Hin', (flagged_symbols_get _ _ _ Hwf Hs), Hflag.
    + intros Hflag. apply Hout.
      rewrite (flagged_symbols_get _ _ _ Hwf Hs). congruence.
  - intros mode q rep Hpt. apply (print_table_lines _ _ _ _ Hpt).
Qed.

Lemma repair_happens_in_gen_graphs_witness :
  exists p p',
    populate gap_market gap_config new_Portfolio = Ok p /\
    gen_graphs false 80 20 p = Ok p' /\
    (forall sym d, (sym, d) ∈ gap_market ->
       exists s s',
         dict_get sym (stocks p) = Some s /\ data s = d /\
         dict_get sym (stocks p') = Some s' /\
         (graph s = true -> nan_repair d = Ok (data s')) /\
         (graph s = false -> data s' = d)).
Proof.
  set (p := result_get new_Portfolio
              (populate gap_market gap_config new_Portfolio)).
  set (p' := result_get new_Portfolio (gen_graphs false 80 20 p)).
  exists p, p'. split; [reflexivity|]. split; [reflexivity|].
  apply (repair_happens_in_gen_graphs demo_externals gap_market gap_config
           false 80 20 p p').
  - apply (bool_decide_unpack _). vm_compute. exact I.
  - reflexivity.
  - reflexivity.
Defined.

(** Counterexample to C3 as stated, [gap_market]: after [populate] the
    samples of [AAA] still hold the fetched NaN, and after the whole run
    the samples of [BBB], which is not graphed, still hold theirs, so that
    the table's average for [BBB] is NaN. *)
Lemma unflagged_stock_keeps_nan :
  (exists p s,
     populate gap_market gap_config new_Portfolio = Ok p /\
     dict_get "AAA" (stocks p) = Some s /\
     data s = [5; nan; 7]%float)
  /\ exists p' rep s line,
       main gap_market gap_config false 80 20 "math" = Ok (p', rep) /\
       dict_get "BBB" (stocks p') = Some s /\
       data s = [50; nan; 52]%float /\
       Exists (fun x => PrimFloat.is_nan x = true) (data s) /\
       rep_table rep !! 1%nat = Some line /\
       cell_ticker line = "BBB" /\
       PrimFloat.is_nan (cell_avg line) = true.
Proof.
  split.
  - eexists _, _. split; [reflexivity|]. split; reflexivity.
  - eexists _, _, _, _. split; [reflexivity|]. split; [reflexivity|].
    split; [reflexivity|]. split; [|split; [reflexivity|split; reflexivity]].
    apply Exists_cons_tl, Exists_cons_hd. reflexivity.
Qed.

(** C5: the initial value that [populate] accumulates is the sum over the
    holdings of quantity times average cost; the totals that [print_table]
    computes are the sum of last sample times quantity, the sum of first
    sample times quantity, and the two gains are the current value minus the
    opening value and minus the initial value; [print_table] does compute
    them when every holding has samples, a last price that is not zero and
    its quantity, and the current value is not zero.  On the portfolio of
    [AAA] and [BBB] they are 1250, 1360, 1250 and 110. *)
Theorem portfolio_totals (E : Externals) :
  (forall market_data stocks_config p,
     NoDup (map fst market_data) ->
     populate market_data stocks_config new_Portfolio = Ok p ->
     initial_value p =
       float_sum (map (fun st => (quantity_of p st * average_cost_of p st)%float)
                    (holdings p)))
  /\ (forall mode self self' rep,
        print_table mode self = Ok (self', rep) ->
        current_value self' =
          float_sum (map (fun st => (last_sample st * quantity_of self st)%float)
                       (holdings self)) /\
        opening_value self' =
          float_sum (map (fun st => (first_sample st * quantity_of self st)%float)
                       (holdings self)) /\
        initial_value self' = initial_value self /\
        value_gained_day rep = (current_value self' - opening_value self')%float /\
        value_gained_all rep = (current_value self' - initial_value self')%float)
  /\ (forall mode self,
        Forall (printable self) (holdings self) ->
        (float_sum (map (fun st => (last_sample st * quantity_of self st)%float)
                      (holdings self)) =? 0)%float = false ->
        exists self' rep, print_table mode self = Ok (self', rep))
  /\ (forall mode, exists p p' rep,
        populate demo_market demo_config new_Portfolio = Ok p /\
        print_table mode p = Ok (p', rep) /\
        initial_value p = 1250%float /\
        current_value p' = 1360%float /\
        opening_value p' = 1250%float /\
        value_gained_all rep = 110%float).
Proof.
  split; [|split; [|split]].
  - intros md cfg p Hnd Hp. apply (populate_initial_value md cfg p Hnd Hp).
  - intros mode self self' rep Hpt. unfold print_table in Hpt.
    apply bind_Ok in Hpt as ([[table cur] opn] & Hloop & Hpt).
    apply bind_Ok in Hpt as (today & _ & Hpt).
    apply bind_Ok in Hpt as (overall & _ & Hpt).
    injection Hpt as <- <-.
    destruct (print_table_loop_spec _ _ _ _ _ _ _ _ _ Hloop) as [-> ->].
    simpl. repeat split; reflexivity.
  - intros mode self Hall Hnz. apply print_table_returns; assumption.
  - intros mode.
    exists (result_get new_Portfolio (populate demo_market demo_config new_Portfolio)).
    eexists _, _. split; [reflexivity|]. split; [vm_compute; reflexivity|].
    repeat split; reflexivity.
Qed.

Lemma portfolio_totals_witness :
  exists p rep,
    main demo_market demo_config false 80 20 "math" = Ok (p, rep) /\
    initial_value p = 1250%float /\
    initial_value p =
      float_sum (map (fun st => (quantity_of p st * average_cost_of p st)%float)
                   (holdings p)) /\
    current_value p = 1360%float /\
    current_value p =
      float_sum (map (fun st => (last_sample st * quantity_of p st)%float)
                   (holdings p)) /\
    opening_value p = 1250%float /\
    value_gained_day rep = 110%float /\
    value_gained_all rep = (current_value p - initial_value p)%float.
Proof.
  destruct (portfolio_totals demo_externals) as (_ & H2 & _).
  set (q := result_get new_Portfolio
              (do p <- populate demo_market demo_config new_Portfolio;
               gen_graphs false 80 20 p)).
  set (r := result_get (new_Portfolio, mkReport [] 0 0 0 0
                          (mkGains true 0 0) (mkGains true 0 0))
              (print_table "math" q)).
  destruct (H2 "math" q (fst r) (snd r) eq_refl) as (Hc & Ho & Hi & Hd & Ha).
  exists (fst r), (snd r). split; [reflexivity|].
  split; [reflexivity|]. split; [reflexivity|]. split; [reflexivity|].
  split; [exact Hc|]. split; [reflexivity|]. split; [reflexivity|exact Ha].
Defined.

(** C6: for a holding whose current price is not zero, the percentage
    shown in the table is [round_value] of
    [(current - open) / current * 100]: the divisor is the current price.
    For open 100 and current 110 this is [10 / 110 * 100], between
    9.0908 and 9.0918, not 10. *)
Theorem change_percent_divides_by_current (E : Externals) :
  (forall stock curr opn,
     get_curr stock = Ok curr -> get_open stock = Ok opn ->
     (curr =? 0)%float = false ->
     change_percent stock = Ok ((curr - opn) / curr * 100)%float)
  /\ (forall mode metadata stock line,
        table_line_of mode metadata stock = Ok line ->
        exists pct, change_percent stock = Ok pct /\
          cell_change_pct line = round_value pct mode 2)
  /\ change_percent (mkStock "AAA" 110 [100; 110]%float false None) =
       Ok (10 / 110 * 100)%float
  /\ (9.0908203125 <? 10 / 110 * 100)%float = true
  /\ (10 / 110 * 100 <? 9.091796875)%float = true.
Proof.
  split; [|split; [|repeat split]].
  - intros stock curr opn Hcurr Hopn Hnz. unfold change_percent, py_truediv.
    rewrite Hcurr, Hopn. simpl. rewrite Hnz. reflexivity.
  - intros mode metadata stock line Hline. unfold table_line_of in Hline.
    apply bind_Ok in Hline as (curr & _ & Hline).
    apply bind_Ok in Hline as (opn & _ & Hline).
    apply bind_Ok in Hline as (pct & Hpct & Hline).
    apply bind_Ok in Hline as (last & _ & Hline).
    apply bind_Ok in Hline as (lo & _ & Hline).
    apply bind_Ok in Hline as (hi & _ & Hline).
    apply bind_Ok in Hline as (avg & _ & Hline).
    apply bind_Ok in Hline as (meta & _ & Hline).
    apply bind_Ok in Hline as (cv & _ & Hline).
    injection Hline as <-. exists pct. split; [exact Hpct|reflexivity].
Qed.

Lemma change_percent_divides_by_current_witness :
  change_percent (mkStock "BBB" 52 [50; 48; 52]%float false None) =
    Ok ((52 - 50) / 52 * 100)%float
  /\ exists line,
       table_line_of "math" [("BBB", (5, 50)%float)]
         (mkStock "BBB" 52 [50; 48; 52]%float false None) = Ok line /\
       cell_change_pct line = ((52 - 50) / 52 * 100)%float.
Proof.
  destruct (change_percent_divides_by_current demo_externals) as (H1 & H2 & _).
  split.
  - apply (H1 (mkStock "BBB" 52 [50; 48; 52]%float false None) 52%float 50%float);
      reflexivity.
  - set (line := result_get (mkTableLine "" 0 0 0 0 0 0 0 0 0 0 false)
                   (table_line_of "math" [("BBB", (5, 50)%float)]
                      (mkStock "BBB" 52 [50; 48; 52]%float false None))).
    exists line. split; [reflexivity|].
    destruct (H2 "math" [("BBB", (5, 50)%float)]
                (mkStock "BBB" 52 [50; 48; 52]%float false None) line eq_refl)
      as (pct & Hpct & Hcell).
    rewrite Hcell. vm_compute in Hpct. injection Hpct as <-. reflexivity.
Defined.

(** * Further properties of the code *)

(** ** Floats: NaN *)

Lemma is_nan_spec (x : float) :
  PrimFloat.is_nan x = true <-> Prim2SF x = S754_nan.
Proof.
  unfold PrimFloat.is_nan. rewrite negb_true_iff.
  split.
  - intros Hx. destruct (Prim2SF x) eqn:E; try reflexivity;
      exfalso; (assert (Ht : (x =? x)%float = true);
                [apply eqb_key; unfold fkey; rewrite E; eexists; split; reflexivity
                |congruence]).
  - intros E. destruct (x =? x)%float eqn:Hx; [|reflexivity].
    apply eqb_key in Hx as (a & Ha & _). unfold fkey in Ha. rewrite E in Ha.
    discriminate.
Qed.

Lemma is_nan_eq (x : float) : PrimFloat.is_nan x = true -> x = nan.
Proof.
  intros Hx. apply is_nan_spec in Hx. apply Prim2SF_inj. rewrite Hx. reflexivity.
Qed.

Lemma add_nan_l (x : float) : (nan + x)%float = nan.
Proof.
  apply Prim2SF_inj. rewrite add_spec.
  change (Prim2SF nan) with S754_nan. reflexivity.
Qed.

Lemma add_nan_r (x : float) : (x + nan)%float = nan.
Proof.
  apply Prim2SF_inj. rewrite add_spec.
  change (Prim2SF nan) with S754_nan. destruct (Prim2SF x); reflexivity.
Qed.

Lemma sub_nan_l (x : float) : (nan - x)%float = nan.
Proof.
  apply Prim2SF_inj. rewrite sub_spec.
  change (Prim2SF nan) with S754_nan. reflexivity.
Qed.

Lemma sub_nan_r (x : float) : (x - nan)%float = nan.
Proof.
  apply Prim2SF_inj. rewrite sub_spec.
  change (Prim2SF nan) with S754_nan. destruct (Prim2SF x); reflexivity.
Qed.

Lemma mul_nan_l (x : float) : (nan * x)%float = nan.
Proof.
  apply Prim2SF_inj. rewrite mul_spec.
  change (Prim2SF nan) with S754_nan. reflexivity.
Qed.

Lemma div_nan_r (x : float) : (x / nan)%float = nan.
Proof.
  apply Prim2SF_inj. rewrite div_spec.
  change (Prim2SF nan) with S754_nan. destruct (Prim2SF x); reflexivity.
Qed.

Lemma leb_nan_l (x : float) : (nan <=? x)%float = false.
Proof.
  destruct (nan <=? x)%float eqn:E; [|reflexivity].
  apply leb_key in E as (a & b & Ha & _). discriminate.
Qed.

Lemma fold_add_nan (l : list float) :
  fold_left (fun acc y => (acc + y)%float) l nan = nan.
Proof.
  induction l as [|x l IH]; simpl; [reflexivity|].
  rewrite add_nan_l. exact IH.
Qed.

Lemma fold_add_Exists_nan (l : list float) (acc : float) :
  Exists (fun x => x = nan) l ->
  fold_left (fun acc y => (acc + y)%float) l acc = nan.
Proof.
  intros Hex. revert acc.
  induction Hex as [x l Hx|x l _ IH]; intros acc; simpl.
  - subst x. rewrite add_nan_r. apply fold_add_nan.
  - apply IH.
Qed.

(** ** Cost basis: which check fails, and what passes the checks *)


(** X2: a quantity that is NaN passes the check [next_c <= 0], since no
    comparison with NaN holds.  When the other quantities are positive, the
    holding then gets NaN both as its quantity and as its average cost. *)
Theorem average_buyin_accepts_nan_quantity (buys sells : list lot) :
  Forall (fun l => (0 <? lot_qty l)%float = true \/
                   PrimFloat.is_nan (lot_qty l) = true) (buys ++ sells) ->
  Exists (fun l => PrimFloat.is_nan (lot_qty l) = true) (buys ++ sells) ->
  average_buyin buys sells = Ok (nan, nan).
Proof.
  intros Hall Hex.
  assert (Hpass : Forall (fun l => (lot_qty l <=? 0)%float = false) (buys ++ sells)).
  { eapply Forall_impl; [exact Hall|]. intros l [Hl|Hl]; simpl.
    - apply ltb_leb_false. exact Hl.
    - rewrite (is_nan_eq _ Hl). apply leb_nan_l. }
  apply Forall_app in Hpass as [Hb Hs].
  unfold average_buyin.
  rewrite (sum_lots_accepts _ _ _ _ Hb). cbn [bind].
  rewrite (sum_lots_accepts _ _ _ _ Hs). cbn [bind].
  assert (Hside : forall lots,
            Exists (fun l => PrimFloat.is_nan (lot_qty l) = true) lots ->
            fold_left (fun acc y => (acc + y)%float) (map lot_qty lots) 0%float = nan).
  { intros lots Hl. apply fold_add_Exists_nan. apply Exists_exists.
    apply Exists_exists in Hl as (l & Hin & Hl).
    exists (lot_qty l). split; [|apply is_nan_eq; exact Hl].
    apply (list_elem_of_fmap_2 lot_qty). exact Hin. }
  assert (Hcount :
    ((fold_left (fun acc y => (acc + y)%float) (map lot_qty buys) 0 -
      fold_left (fun acc y => (acc + y)%float) (map lot_qty sells) 0)%float = nan)).
  { apply Exists_app in Hex as [Hex|Hex]; rewrite (Hside _ Hex).
    - apply sub_nan_l.
    - apply sub_nan_r. }
  rewrite Hcount. change (nan =? 0)%float with false. cbv iota.
  unfold py_truediv. change (nan =? 0)%float with false. cbv iota. cbn [bind].
  rewrite div_nan_r. reflexivity.
Qed.

Lemma average_buyin_accepts_nan_quantity_witness :
  average_buyin [mkLot 10 100; mkLot nan 40] [mkLot 3 50] = Ok (nan, nan).
Proof.
  apply (average_buyin_accepts_nan_quantity
           [mkLot 10 100; mkLot nan 40] [mkLot 3 50]).
  - apply Forall_cons. split; [left; reflexivity|].
    apply Forall_cons. split; [right; reflexivity|].
    apply Forall_cons. split; [left; reflexivity|].
    apply Forall_nil. exact I.
  - apply Exists_cons. right. apply Exists_cons. left. reflexivity.
Defined.

(** ** NaN repair: what the repaired series looks like *)

Lemma fill_forward_clean (p : float) (l : list float) :
  PrimFloat.is_nan p = false ->
  Forall (fun x => PrimFloat.is_nan x = false) (fill_forward p l).
Proof.
  revert p. induction l as [|x l IH]; intros p Hp; simpl; [constructor|].
  destruct (PrimFloat.is_nan x) eqn:Hx.
  - constructor; [exact Hp|apply IH; exact Hp].
  - constructor; [exact Hx|apply IH; exact Hx].
Qed.

Lemma fill_forward_elem (p : float) (l : list float) (x : float) :
  x ∈ fill_forward p l -> x = p \/ x ∈ l.
Proof.
  revert p. induction l as [|y l IH]; intros p; simpl.
  - intros Hx. inversion Hx.
  - intros Hx. apply elem_of_cons in Hx as [->|Hx].
    + destruct (PrimFloat.is_nan y); [left; reflexivity|right; left].
    + apply IH in Hx as [->|Hx].
      * destruct (PrimFloat.is_nan y); [left; reflexivity|right; left].
      * right. right. exact Hx.
Qed.

(** Filling forward from a NaN a series that was filled forward from a NaN
    changes nothing: a sample that is still NaN has only NaN before it. *)
Lemma fill_forward_twice (p q : float) (l : list float) :
  (PrimFloat.is_nan p = true -> q = p) ->
  fill_forward q (fill_forward p l) = fill_forward p l.
Proof.
  revert p q. induction l as [|x l IH]; intros p q Hq; simpl; [reflexivity|].
  destruct (PrimFloat.is_nan x) eqn:Hx.
  - destruct (PrimFloat.is_nan p) eqn:Hp.
    + rewrite (Hq eq_refl). f_equal. apply IH. intros _. reflexivity.
    + f_equal. apply IH. intros Hp'. congruence.
  - rewrite Hx. f_equal. apply IH. intros Hx'. congruence.
Qed.

(** X3: the repair is idempotent: repairing a repaired series succeeds and
    changes nothing, so a stock that is drawn on several graphs is only
    changed by the first of them. *)
Theorem nan_repair_idempotent (d r : list float) :
  nan_repair d = Ok r -> nan_repair r = Ok r.
Proof.
  rewrite !nan_repair_unfold.
  destruct d as [|x t]; [intros [= <-]; reflexivity|].
  destruct (PrimFloat.is_nan x) eqn:Hx.
  - destruct t as [|y t]; [discriminate|]. intros [= <-].
    assert (Hhead : forall l, fill_forward y (y :: l) = y :: fill_forward y l).
    { intros l. simpl. destruct (PrimFloat.is_nan y); reflexivity. }
    assert (Hy : (if PrimFloat.is_nan y then y else y) = y)
      by (destruct (PrimFloat.is_nan y); reflexivity).
    rewrite !Hy, !Hhead.
    rewrite (fill_forward_twice y y); [|intros _; reflexivity].
    destruct (PrimFloat.is_nan y); reflexivity.
  - intros [= <-]. rewrite Hx.
    rewrite (fill_forward_twice x x); [reflexivity|]. intros _. reflexivity.
Qed.

Lemma nan_repair_idempotent_witness :
  nan_repair [nan; nan; 3; nan; 4]%float = Ok [nan; nan; 3; 3; 4]%float /\
  nan_repair [nan; nan; 3; 3; 4]%float = Ok [nan; nan; 3; 3; 4]%float.
Proof.
  split; [reflexivity|].
  apply (nan_repair_idempotent [nan; nan; 3; nan; 4]%float). reflexivity.
Defined.

(** X4: the repaired series is free of NaN exactly when the series is empty
    or one of its first two samples is not NaN; otherwise the NaN at the
    head stays and spreads to the right. *)
Theorem nan_repair_clean_iff (d r : list float) :
  nan_repair d = Ok r ->
  Forall (fun x => PrimFloat.is_nan x = false) r <->
  d = [] \/
  exists x, (d !! 0%nat = Some x \/ d !! 1%nat = Some x) /\
            PrimFloat.is_nan x = false.
Proof.
  rewrite nan_repair_unfold.
  destruct d as [|x t]; [intros [= <-]; split; [left; reflexivity|constructor]|].
  destruct (PrimFloat.is_nan x) eqn:Hx.
  - destruct t as [|y t]; [discriminate|]. intros [= <-]. split.
    + intros Hall. right. exists y. split; [right; reflexivity|].
      apply Forall_cons in Hall as [Hy _]. exact Hy.
    + intros [Hd|(z & [Hz|Hz] & Hnan)]; [discriminate| |].
      * injection Hz as <-. congruence.
      * injection Hz as <-.
        constructor; [exact Hnan|exact (fill_forward_clean y (y :: t) Hnan)].
  - intros [= <-]. split.
    + intros _. right. exists x. split; [left; reflexivity|exact Hx].
    + intros _. constructor; [exact Hx|apply fill_forward_clean; exact Hx].
Qed.

Lemma nan_repair_clean_iff_witness :
  Forall (fun x => PrimFloat.is_nan x = false) [3; 3; 3; 4]%float <->
  [nan; 3; nan; 4]%float = [] \/
  exists x, ([nan; 3; nan; 4]%float !! 0%nat = Some x \/
             [nan; 3; nan; 4]%float !! 1%nat = Some x) /\
            PrimFloat.is_nan x = false.
Proof.
  apply (nan_repair_clean_iff [nan; 3; nan; 4]%float [3; 3; 3; 4]%float).
  reflexivity.
Defined.

(** X5: the repair invents no value: every sample of the repaired series
    is a sample of the series as it was fetched, and the series keeps its
    length. *)
Theorem nan_repair_values_from_input (d r : list float) :
  nan_repair d = Ok r ->
  length r = length d /\ forall x, x ∈ r -> x ∈ d.
Proof.
  rewrite nan_repair_unfold.
  destruct d as [|x t]; [intros [= <-]; split; [reflexivity|tauto]|].
  destruct (PrimFloat.is_nan x) eqn:Hx.
  - destruct t as [|y t]; [discriminate|]. intros [= <-]. split.
    + cbn [length]. rewrite fill_forward_length. reflexivity.
    + intros z Hz. apply elem_of_cons in Hz as [->|Hz]; [right; left|].
      apply (fill_forward_elem y (y :: t)) in Hz as [->|Hz];
        [right; left|right; exact Hz].
  - intros [= <-]. split.
    + cbn [length]. rewrite fill_forward_length. reflexivity.
    + intros z Hz. apply elem_of_cons in Hz as [->|Hz]; [left|].
      apply fill_forward_elem in Hz as [->|Hz]; [left|right; exact Hz].
Qed.

Lemma nan_repair_values_from_input_witness :
  length [3; 3; 3; 4]%float = length [nan; 3; nan; 4]%float /\
  forall x, x ∈ [3; 3; 3; 4]%float -> x ∈ [nan; 3; nan; 4]%float.
Proof.
  apply (nan_repair_values_from_input [nan; 3; nan; 4]%float [3; 3; 3; 4]%float).
  reflexivity.
Defined.

(** ** The range of the y axis: what holds for any samples *)

Lemma find_y_range_loop_bracket (store : dict Stock) (stks : list string) :
  forall (y_min y_max lo hi : float),
  find_y_range_loop store stks y_min y_max = Ok (lo, hi) ->
  (y_min <=? y_min)%float = true -> (y_max <=? y_max)%float = true ->
  (lo <=? y_min)%float = true /\ (y_max <=? hi)%float = true.
Proof.
  induction stks as [|sym rest IH]; intros y_min y_max lo hi Hrun Hmin Hmax.
  - injection Hrun as <- <-. split; assumption.
  - simpl in Hrun.
    apply bind_Ok in Hrun as (stock & _ & Hrun).
    apply bind_Ok in Hrun as (lo' & _ & Hrun).
    apply bind_Ok in Hrun as (hi' & _ & Hrun).
    assert (Hmin' : let m := if (lo' <? y_min)%float then lo' else y_min in
                    (m <=? m)%float = true /\ (m <=? y_min)%float = true).
    { destruct (lo' <? y_min)%float eqn:Hlo; simpl; [|split; exact Hmin].
      apply ltb_leb in Hlo. split; [exact (leb_refl _ _ Hlo)|exact Hlo]. }
    assert (Hmax' : let m := if (y_max <? hi')%float then hi' else y_max in
                    (m <=? m)%float = true /\ (y_max <=? m)%float = true).
    { destruct (y_max <? hi')%float eqn:Hhi; simpl; [|split; exact Hmax].
      apply ltb_leb in Hhi. split; [exact (leb_refl_r _ _ Hhi)|exact Hhi]. }
    destruct Hmin' as [Hm1 Hm2]. destruct Hmax' as [Hx1 Hx2].
    apply IH in Hrun as [H1 H2]; [|exact Hm1|exact Hx1].
    split; [exact (leb_trans _ _ _ H1 Hm2)|exact (leb_trans _ _ _ Hx2 H2)].
Qed.

(** X6: whatever the samples are, NaN included, the lower bound that
    [find_y_range] returns is at most the sentinel [10000000000000] and the
    upper bound is at least [0]; in particular neither bound is NaN. *)
Theorem find_y_range_within_sentinels (store : dict Stock) (g : Graph)
    (lo hi : float) :
  find_y_range store g = Ok (lo, hi) ->
  (lo <=? 10000000000000)%float = true /\ (0 <=? hi)%float = true /\
  PrimFloat.is_nan lo = false /\ PrimFloat.is_nan hi = false.
Proof.
  intros Hrun. unfold find_y_range in Hrun.
  apply find_y_range_loop_bracket in Hrun as [Hlo Hhi]; [|reflexivity|reflexivity].
  repeat split; try assumption.
  - destruct (PrimFloat.is_nan lo) eqn:E; [|reflexivity].
    rewrite (is_nan_eq _ E), leb_nan_l in Hlo. discriminate.
  - destruct (PrimFloat.is_nan hi) eqn:E; [|reflexivity].
    rewrite (is_nan_eq _ E) in Hhi. discriminate.
Qed.

Lemma find_y_range_within_sentinels_witness :
  (nan <=? 10000000000000)%float = false /\
  ((-3) <=? 10000000000000)%float = true /\ (0 <=? 2)%float = true /\
  PrimFloat.is_nan (-3) = false /\ PrimFloat.is_nan 2 = false.
Proof.
  split; [reflexivity|].
  apply (find_y_range_within_sentinels
           [("AAA", mkStock "AAA" 7 [nan; 5; 7]%float true None);
            ("BBB", mkStock "BBB" 2 [-3; nan; 2]%float true None)]
           (new_Graph ["AAA"; "BBB"] 80 20 [None; None])).
  reflexivity.
Defined.

(** X7: [find_y_range] raises [ValueError] as soon as one of the graph's
    stocks has no sample, since [min] of an empty list does. *)
Theorem find_y_range_empty_series (store : dict Stock) (g : Graph) :
  Forall (fun sym => dict_get sym store <> None) (g_stocks g) ->
  Exists (fun sym => exists s, dict_get sym store = Some s /\ data s = [])
    (g_stocks g) ->
  find_y_range store g = Raise ValueError.
Proof.
  unfold find_y_range. generalize 10000000000000%float 0%float.
  induction (g_stocks g) as [|sym rest IH]; intros y_min y_max Hall Hex.
  - inversion Hex.
  - apply Forall_cons in Hall as [Hsym Hall]. simpl. unfold dict_lookup.
    destruct (dict_get sym store) as [s|] eqn:Hs; [|congruence]. cbn [bind].
    destruct (data s) as [|x t] eqn:Hd; [reflexivity|].
    cbn [py_min py_max bind]. apply IH; [exact Hall|].
    apply Exists_cons in Hex as [(s' & Hs' & Hd')|Hex]; [|exact Hex].
    congruence.
Qed.

Lemma find_y_range_empty_series_witness :
  find_y_range
    [("AAA", mkStock "AAA" 7 [5; 7]%float true None);
     ("BBB", mkStock "BBB" 0 [] true None)]
    (new_Graph ["AAA"; "BBB"] 80 20 [None; None]) = Raise ValueError.
Proof.
  apply find_y_range_empty_series.
  - apply Forall_cons. split; [discriminate|].
    apply Forall_cons. split; [discriminate|]. apply Forall_nil. exact I.
  - apply Exists_cons. right. apply Exists_cons. left.
    eexists. split; reflexivity.
Defined.

(** ** Population: what each fetched column becomes *)

Lemma map_lookup_Some {A B : Type} (f : A -> B) (l : list A) (k : nat) (x : A) :
  l !! k = Some x -> map f l !! k = Some (f x).
Proof.
  revert k. induction l as [|y l IH]; intros [|k] Hk; try discriminate.
  - injection Hk as ->. reflexivity.
  - simpl. apply IH. exact Hk.
Qed.

Section PopulationEntries.
Context `{Externals}.

Lemma populate_stock_entry (stocks_config : dict StockConfig)
    (self p : Portfolio) (td : string * list float) :
  populate_stock stocks_config self td = Ok p ->
  exists entry, column_entry stocks_config td entry /\
    p = add_stock self (fst (fst entry)) (fst (snd (fst entry)))
          (snd (snd (fst entry))) (snd entry).
Proof.
  destruct td as [sym d].
  unfold populate_stock, py_last, dict_lookup. intros Hp.
  destruct (last d) as [v|] eqn:Hv; [|discriminate]. cbn [bind] in Hp.
  destruct (dict_get sym stocks_config) as [cfg|] eqn:Hcfg; [|discriminate].
  cbn [bind] in Hp.
  destruct (average_buyin (cfg_buy cfg) (cfg_sell cfg))
    as [[count bought_at]|] eqn:Hbuy; [|discriminate].
  cbn [bind] in Hp. injection Hp as <-.
  exists (mkStock sym v d (wants_graph cfg) None, (count, bought_at),
          checked_color (cfg_color cfg)).
  split.
  - exists cfg, v. simpl. auto.
  - simpl. unfold wants_graph, checked_color.
    destruct (cfg_graph cfg) as [s|]; [destruct (String.eqb s "True")|];
      (destruct (cfg_color cfg) as [c|];
       [destruct (String.prefix "#" c || is_css3_name c)|]; reflexivity).
Qed.

Lemma populate_loop_entries (stocks_config : dict StockConfig)
    (columns : MarketData) (self p : Portfolio) :
  populate_loop stocks_config self columns = Ok p ->
  NoDup (dict_keys (stocks self) ++ map fst columns) ->
  dict_keys (stocks_metadata self) = dict_keys (stocks self) ->
  exists entries : list (Stock * (float * float) * option string),
    Forall2 (column_entry stocks_config) columns entries /\
    stocks p =
      stocks self ++ map (fun e => (symbol (fst (fst e)), fst (fst e))) entries /\
    stocks_metadata p =
      stocks_metadata self ++
      map (fun e => (symbol (fst (fst e)), snd (fst e))) entries /\
    color_list p = color_list self ++ map snd entries.
Proof.
  revert self. induction columns as [|[sym d] rest IH]; intros self Hp Hnd Hkeys.
  - injection Hp as <-. exists []. simpl. rewrite !app_nil_r.
    repeat split; constructor.
  - simpl in Hp. apply bind_Ok in Hp as (p1 & Hp1 & Hp).
    apply (populate_stock_entry _ _ _ (sym, d)) in Hp1 as (entry & Hentry & ->).
    destruct entry as [[stock [count bought_at]] col]. cbn [fst snd] in Hp.
    assert (Hsym : symbol stock = sym).
    { destruct Hentry as (cfg & v & _ & _ & _ & Hst & _). cbn [fst snd] in Hst.
      rewrite Hst. reflexivity. }
    assert (sym ∉ dict_keys (stocks self)) as Hfresh.
    { apply NoDup_app in Hnd as (_ & Hdisj & _). intros Hin.
      apply (Hdisj _ Hin). apply list_elem_of_here. }
    destruct (IH _ Hp) as (entries & Hall & Hs & Hm & Hc).
    + simpl. rewrite Hsym, dict_set_fresh by exact Hfresh.
      unfold dict_keys. rewrite map_app. simpl.
      rewrite <- (assoc_L (++)). exact Hnd.
    + simpl. rewrite Hsym, !dict_set_fresh by (rewrite ?Hkeys; exact Hfresh).
      unfold dict_keys in *. rewrite !map_app, Hkeys. reflexivity.
    + simpl in Hs, Hm, Hc. rewrite Hsym in Hs, Hm.
      rewrite dict_set_fresh in Hs by exact Hfresh.
      rewrite dict_set_fresh in Hm by (rewrite Hkeys; exact Hfresh).
      exists ((stock, (count, bought_at), col) :: entries). simpl.
      rewrite Hs, Hm, Hc, Hsym, <- !(assoc_L (++)). simpl.
      split; [constructor; assumption|]. repeat split; reflexivity.
Qed.

Lemma populate_metadata_keys (market_data : MarketData)
    (stocks_config : dict StockConfig) (p : Portfolio) :
  populate market_data stocks_config new_Portfolio = Ok p ->
  NoDup (map fst market_data) ->
  dict_keys (stocks_metadata p) = dict_keys (stocks p).
Proof.
  intros Hp Hnd.
  destruct (populate_spec _ _ _ Hp Hnd) as (added & Hs & Hm & _).
  rewrite Hs, Hm. unfold dict_keys. rewrite !map_map. reflexivity.
Qed.

End PopulationEntries.

(** The holding at position [k] after a successful population. *)
Lemma populate_column_holding (E : Externals)
    (market_data : MarketData) (stocks_config : dict StockConfig)
    (p : Portfolio) :
  populate market_data stocks_config new_Portfolio = Ok p ->
  NoDup (map fst market_data) ->
  forall k sym d, market_data !! k = Some (sym, d) ->
    exists cfg v count bought_at,
      dict_get sym stocks_config = Some cfg /\
      last d = Some v /\
      average_buyin (cfg_buy cfg) (cfg_sell cfg) = Ok (count, bought_at) /\
      stocks p !! k = Some (sym, mkStock sym v d (wants_graph cfg) None) /\
      stocks_metadata p !! k = Some (sym, (count, bought_at)) /\
      color_list p !! k = Some (checked_color (cfg_color cfg)).
Proof.
  intros Hp Hnd k sym d Hk.
  destruct (populate_loop_entries _ _ _ _ Hp Hnd eq_refl)
    as (entries & Hall & Hs & Hm & Hc).
  simpl in Hs, Hm, Hc.
  destruct (Forall2_lookup_l _ _ _ _ _ Hall Hk) as (entry & Hentry & Hcol).
  destruct Hcol as (cfg & v & Hcfg & Hv & Hbuy & Hstock & Hcolor).
  simpl in Hcfg, Hv, Hstock.
  destruct entry as [[stock [count bought_at]] col]. simpl in *. subst stock col.
  exists cfg, v, count, bought_at.
  rewrite Hs, Hm, Hc.
  repeat split; try assumption.
  - exact (map_lookup_Some (fun e => (symbol (fst (fst e)), fst (fst e))) _ _ _ Hentry).
  - exact (map_lookup_Some (fun e => (symbol (fst (fst e)), snd (fst e))) _ _ _ Hentry).
  - exact (map_lookup_Some snd _ _ _ Hentry).
Qed.

(** X8: with distinct fetched tickers, a successful [populate] turns the
    [k]-th fetched column [(sym, d)] into the [k]-th holding: a stock with
    symbol [sym], samples [d] and value the last sample, graphed exactly
    when the section's [graph] key is the text [True]; the quantity and
    average cost that [average_buyin] computes from the section's lots; and,
    as [k]-th entry of the colour list, the section's colour if it starts
    with [#] or is a CSS3 name, and no colour otherwise.  The stock and its
    quantity and cost are then found under the ticker. *)
Theorem populate_builds_each_holding (E : Externals)
    (market_data : MarketData) (stocks_config : dict StockConfig)
    (p : Portfolio) :
  populate market_data stocks_config new_Portfolio = Ok p ->
  NoDup (map fst market_data) ->
  forall k sym d, market_data !! k = Some (sym, d) ->
    exists cfg v count bought_at,
      dict_get sym stocks_config = Some cfg /\
      last d = Some v /\
      average_buyin (cfg_buy cfg) (cfg_sell cfg) = Ok (count, bought_at) /\
      stocks p !! k = Some (sym, mkStock sym v d (wants_graph cfg) None) /\
      stocks_metadata p !! k = Some (sym, (count, bought_at)) /\
      color_list p !! k = Some (checked_color (cfg_color cfg)) /\
      get_stock p sym = Ok (mkStock sym v d (wants_graph cfg) None) /\
      dict_get sym (stocks_metadata p) = Some (count, bought_at).
Proof.
  intros Hp Hnd k sym d Hk.
  destruct (populate_column_holding _ _ _ _ Hp Hnd _ _ _ Hk)
    as (cfg & v & count & bought_at & Hcfg & Hv & Hbuy & Hs & Hm & Hc).
  destruct (populate_keys _ _ _ Hp Hnd) as [_ Hwf].
  pose proof (populate_metadata_keys _ _ _ Hp Hnd) as Hmkeys.
  exists cfg, v, count, bought_at.
  split; [exact Hcfg|]. split; [exact Hv|]. split; [exact Hbuy|].
  split; [exact Hs|]. split; [exact Hm|]. split; [exact Hc|].
  apply list_elem_of_lookup_2 in Hs, Hm. split.
  - unfold get_stock, dict_lookup.
    rewrite (dict_get_elem _ _ _ (proj1 Hwf) Hs). reflexivity.
  - apply dict_get_elem; [rewrite Hmkeys; apply Hwf|exact Hm].
Qed.

Lemma populate_builds_each_holding_witness :
  exists p,
    populate demo_market demo_config new_Portfolio = Ok p /\
    stocks p !! 1%nat =
      Some ("BBB", mkStock "BBB" 52 [50; 48; 52]%float true None) /\
    stocks_metadata p !! 1%nat = Some ("BBB", (5, 50)%float) /\
    color_list p !! 1%nat = Some None.
Proof.
  set (p := result_get new_Portfolio
              (populate demo_market demo_config new_Portfolio)).
  exists p. split; [reflexivity|].
  destruct (populate_builds_each_holding demo_externals demo_market demo_config p
              eq_refl) with (k := 1%nat) (sym := "BBB") (d := [50; 48; 52]%float)
    as (cfg & v & count & bought_at & Hcfg & Hv & Hbuy & Hs & Hm & Hc & _).
  - apply (bool_decide_unpack _). vm_compute. exact I.
  - reflexivity.
  - injection Hcfg as <-. injection Hv as <-. injection Hbuy as <- <-.
    repeat split; assumption.
Defined.

Section PopulationOutcome.
Context `{Externals}.

Lemma checked_color_ok (c : option string) (name : string) :
  checked_color c = Some name ->
  String.prefix "#" name = true \/ dict_get name CSS3_NAMES_TO_HEX <> None.
Proof.
  unfold checked_color. destruct c as [s|]; [|discriminate].
  destruct (String.prefix "#" s) eqn:Hp; simpl.
  - intros [= <-]. left. exact Hp.
  - unfold is_css3_name. destruct (dict_get s CSS3_NAMES_TO_HEX) eqn:Hs;
      [|discriminate].
    intros [= <-]. right. congruence.
Qed.

(** The colours kept so far are checked, and there is one more per column. *)
Lemma populate_loop_colors (stocks_config : dict StockConfig)
    (columns : MarketData) (self p : Portfolio) :
  populate_loop stocks_config self columns = Ok p ->
  exists cs, color_list p = color_list self ++ map checked_color cs /\
    length cs = length columns.
Proof.
  revert self. induction columns as [|td rest IH]; intros self Hp.
  - injection Hp as <-. exists []. simpl. rewrite app_nil_r. auto.
  - cbn [populate_loop] in Hp. apply bind_Ok in Hp as (p1 & Hp1 & Hp).
    apply populate_stock_entry in Hp1 as (entry & Hentry & ->).
    destruct Hentry as (cfg & v & _ & _ & _ & _ & Hcol).
    apply IH in Hp as (cs & Hcs & Hlen). simpl in Hcs.
    exists (cfg_color cfg :: cs). simpl.
    rewrite Hcs, Hcol, <- (assoc_L (++)), Hlen. auto.
Qed.



End PopulationOutcome.

(** X9: [populate] keeps one colour per fetched column, and every colour
    it keeps can be resolved by [gen_graph]: a kept colour that does not
    start with [#] is a key of the CSS3 table, so the look-up in the last
    branch of [gen_graph] finds it, and the line's colour is [hex_to_rgb] of
    the colour itself or of its entry in the table. *)
Theorem populate_keeps_usable_colours (E : Externals)
    (market_data : MarketData) (stocks_config : dict StockConfig)
    (self p : Portfolio) :
  populate market_data stocks_config self = Ok p ->
  color_list self = [] ->
  length (color_list p) = length market_data /\
  forall k name, color_list p !! k = Some (Some name) ->
    forall auto_colors colors i, colors !! i = Some (Some name) ->
      exists hex,
        (if String.prefix "#" name then hex = name
         else dict_get name CSS3_NAMES_TO_HEX = Some hex) /\
        line_color auto_colors colors i = hex_to_rgb hex.
Proof.
  intros Hp Hnil. apply populate_loop_colors in Hp as (cs & Hcs & Hlen).
  rewrite Hnil in Hcs. simpl in Hcs. rewrite Hcs. split.
  - rewrite length_map. exact Hlen.
  - intros k name Hk auto_colors colors i Hi.
    assert (Hok : exists c, checked_color c = Some name).
    { clear -Hk. revert k Hk. induction cs as [|c cs IH]; intros [|k] Hk;
        try discriminate.
      - injection Hk as Hk. exists c. exact Hk.
      - apply (IH k). exact Hk. }
    destruct Hok as [c Hc]. apply checked_color_ok in Hc.
    unfold line_color, py_getitem. rewrite Hi. cbn [bind].
    destruct (String.prefix "#" name) eqn:Hpre.
    + exists name. split; reflexivity.
    + destruct Hc as [Hc|Hc]; [discriminate|]. unfold dict_lookup.
      destruct (dict_get name CSS3_NAMES_TO_HEX) as [hex|]; [|congruence].
      exists hex. split; reflexivity.
Qed.

Lemma populate_keeps_usable_colours_witness :
  exists p,
    populate [("AAA", [100; 105]%float); ("BBB", [50; 52]%float);
              ("CCC", [7; 8]%float)]
      [("AAA", mkStockConfig (Some "True") [mkLot 10 100] [] (Some "lime"));
       ("BBB", mkStockConfig (Some "True") [mkLot 5 50] [] (Some "#102030"));
       ("CCC", mkStockConfig (Some "True") [mkLot 5 50] [] (Some "mauve"))]
      new_Portfolio = Ok p /\
    color_list p = [Some "lime"; Some "#102030"; None] /\
    line_color demo_palette (color_list p) 0 = demo_hex_to_rgb "#00ff00".
Proof.
  set (md := [("AAA", [100; 105]%float); ("BBB", [50; 52]%float);
              ("CCC", [7; 8]%float)]).
  set (cfg := [("AAA", mkStockConfig (Some "True") [mkLot 10 100] [] (Some "lime"));
       ("BBB", mkStockConfig (Some "True") [mkLot 5 50] [] (Some "#102030"));
       ("CCC", mkStockConfig (Some "True") [mkLot 5 50] [] (Some "mauve"))]).
  set (p := result_get new_Portfolio (populate md cfg new_Portfolio)).
  exists p. split; [reflexivity|]. split; [reflexivity|].
  destruct (populate_keeps_usable_colours demo_externals md cfg new_Portfolio p
              eq_refl eq_refl) as [_ Hres].
  destruct (Hres 0%nat "lime" eq_refl demo_palette (color_list p) 0%nat eq_refl)
    as (hex & Hhex & ->).
  simpl in Hhex. injection Hhex as <-. reflexivity.
Defined.


(** X11: a fetched ticker that has samples but no section in
    [portfolio.ini] makes [populate] raise [KeyError], when the columns
    before it were populated. *)
Theorem populate_unknown_ticker_raises (E : Externals)
    (market_data before after : MarketData) (stocks_config : dict StockConfig)
    (sym : string) (d : list float) (self : Portfolio) :
  market_data = before ++ (sym, d) :: after ->
  populate before stocks_config new_Portfolio = Ok self ->
  d <> [] ->
  dict_get sym stocks_config = None ->
  populate market_data stocks_config new_Portfolio = Raise KeyError.
Proof.
  intros -> Hbefore Hd Hsym. unfold populate in *.
  rewrite populate_loop_app, Hbefore. cbn [bind populate_loop].
  unfold populate_stock, py_last, dict_lookup.
  destruct (last d) as [v|] eqn:Hv; [|apply last_None in Hv; contradiction].
  cbn [bind]. rewrite Hsym. reflexivity.
Qed.

Lemma populate_unknown_ticker_raises_witness :
  populate [("AAA", [100; 105]%float); ("ZZZ", [1; 2]%float)] demo_config
    new_Portfolio = Raise KeyError.
Proof.
  apply (populate_unknown_ticker_raises demo_externals _
           [("AAA", [100; 105]%float)] [] demo_config "ZZZ" [1; 2]%float
           (result_get new_Portfolio
              (populate [("AAA", [100; 105]%float)] demo_config new_Portfolio))).
  - reflexivity.
  - reflexivity.
  - discriminate.
  - reflexivity.
Defined.

(** ** Adding and looking up holdings *)

(** The keys of a dictionary after an assignment: the same keys when the
    key was there, one more at the end when it was not. *)
Lemma dict_keys_set {V : Type} (k : string) (v : V) (d : dict V) :
  dict_keys (dict_set k v d) =
    if bool_decide (k ∈ dict_keys d) then dict_keys d else dict_keys d ++ [k].
Proof.
  destruct (bool_decide (k ∈ dict_keys d)) eqn:Hk.
  - apply bool_decide_eq_true in Hk. apply dict_keys_set_present. exact Hk.
  - apply bool_decide_eq_false in Hk. rewrite dict_set_fresh by exact Hk.
    unfold dict_keys. rewrite map_app. reflexivity.
Qed.

(** X12: [get_stock] returns the stock that [add_stock] stored last under
    a symbol; adding a stock leaves the look-up of every other symbol as it
    was; and looking up a symbol that was never added raises [KeyError]. *)
Theorem get_stock_after_add_stock (self : Portfolio) (stock : Stock)
    (count value : float) (col : option string) :
  get_stock (add_stock self stock count value col) (symbol stock) = Ok stock
  /\ (forall sym, sym <> symbol stock ->
        get_stock (add_stock self stock count value col) sym =
          get_stock self sym)
  /\ (forall sym, sym ∉ dict_keys (get_stocks self) ->
        get_stock self sym = Raise KeyError).
Proof.
  unfold get_stock, get_stocks, dict_lookup. simpl. repeat split.
  - rewrite dict_get_set_eq. reflexivity.
  - intros sym Hsym. rewrite dict_get_set_ne by congruence. reflexivity.
  - intros sym Hsym. apply dict_get_None in Hsym. rewrite Hsym. reflexivity.
Qed.

(** X13: adding a second stock under a symbol that the portfolio already
    holds replaces the stock and its quantity and average cost where they
    stand, without a new key; but the cost of both additions stays in
    [initial_value], and the colour list gets an entry for each. *)
Theorem add_stock_again_counts_cost_twice (self : Portfolio) (s1 s2 : Stock)
    (c1 v1 c2 v2 : float) (col1 col2 : option string) :
  symbol s1 = symbol s2 ->
  let p1 := add_stock self s1 c1 v1 col1 in
  let p2 := add_stock p1 s2 c2 v2 col2 in
  dict_keys (stocks p2) = dict_keys (stocks p1) /\
  dict_keys (stocks_metadata p2) = dict_keys (stocks_metadata p1) /\
  get_stock p2 (symbol s2) = Ok s2 /\
  dict_get (symbol s2) (stocks_metadata p2) = Some (c2, v2) /\
  initial_value p2 = (initial_value self + c1 * v1 + c2 * v2)%float /\
  color_list p2 = color_list self ++ [col1; col2].
Proof.
  intros Hsym p1 p2. unfold p2, p1, get_stock, dict_lookup. simpl.
  rewrite <- Hsym.
  repeat split.
  - apply dict_keys_set_present. rewrite dict_keys_set.
    destruct (bool_decide _) eqn:Hk.
    + apply bool_decide_eq_true in Hk. exact Hk.
    + apply elem_of_app. right. left.
  - apply dict_keys_set_present. rewrite dict_keys_set.
    destruct (bool_decide _) eqn:Hk.
    + apply bool_decide_eq_true in Hk. exact Hk.
    + apply elem_of_app. right. left.
  - rewrite dict_get_set_eq. reflexivity.
  - rewrite dict_get_set_eq. reflexivity.
  - rewrite <- (assoc_L (++)). reflexivity.
Qed.

Lemma add_stock_again_counts_cost_twice_witness :
  exists p2,
    p2 = add_stock
           (add_stock new_Portfolio
              (mkStock "AAA" 110 [100; 110]%float true None) 10 100 None)
           (mkStock "AAA" 7 [7]%float false None) 2 50 (Some "red") /\
    dict_keys (stocks p2) = ["AAA"] /\
    get_stock p2 "AAA" = Ok (mkStock "AAA" 7 [7]%float false None) /\
    initial_value p2 = 1100%float /\
    length (color_list p2) = 2%nat.
Proof.
  eexists. split; [reflexivity|].
  destruct (add_stock_again_counts_cost_twice new_Portfolio
              (mkStock "AAA" 110 [100; 110]%float true None)
              (mkStock "AAA" 7 [7]%float false None)
              10 100 2 50 None (Some "red") eq_refl)
    as (Hk & _ & Hget & _ & Hinit & Hcol).
  split; [rewrite Hk; reflexivity|]. split; [exact Hget|].
  split; [rewrite Hinit; reflexivity|]. rewrite Hcol. reflexivity.
Defined.

(** ** Graph generation: which graphs, which colours, which repairs *)

Section GraphShape.
Context `{Externals}.

Lemma gen_graph_loop_store (auto_colors : list string)
    (colors : list (option string)) (stks : list string) :
  forall (store : dict Stock) (i : nat) (lines : list plot_line)
         (store' : dict Stock) (lines' : list plot_line),
  gen_graph_loop auto_colors colors store i stks lines = Ok (store', lines') ->
  repair_all store stks = Ok store'.
Proof.
  induction stks as [|sym rest IH]; intros store i lines store' lines' Hrun.
  - injection Hrun as <- <-. reflexivity.
  - cbn [gen_graph_loop] in Hrun.
    apply bind_Ok in Hrun as (lc & _ & Hrun).
    apply bind_Ok in Hrun as (stock & Hstock & Hrun).
    apply bind_Ok in Hrun as (d & Hd & Hrun).
    cbn [repair_all]. rewrite Hstock. cbn [bind]. rewrite Hd. cbn [bind].
    apply (IH _ _ _ _ _ Hrun).
Qed.

Lemma repair_all_app (l1 l2 : list string) (store : dict Stock) :
  repair_all store (l1 ++ l2) =
    (do s <- repair_all store l1; repair_all s l2).
Proof.
  revert store. induction l1 as [|sym rest IH]; intros store; [reflexivity|].
  cbn [app repair_all].
  destruct (dict_lookup sym store) as [stock|]; [|reflexivity]. cbn [bind].
  destruct (nan_repair (data stock)) as [d|]; [|reflexivity]. cbn [bind].
  apply IH.
Qed.

Lemma gen_all_shape (gs : list Graph) :
  forall (store store' : dict Stock) (gs' : list Graph),
  gen_all store gs = Ok (store', gs') ->
  map g_stocks gs' = map g_stocks gs /\
  map g_colors gs' = map g_colors gs /\
  repair_all store (concat (map g_stocks gs)) = Ok store'.
Proof.
  induction gs as [|g rest IH]; intros store store' gs' Hrun.
  - injection Hrun as <- <-. auto.
  - cbn [gen_all] in Hrun.
    apply bind_Ok in Hrun as ([store1 g'] & Hg & Hrun).
    apply bind_Ok in Hrun as ([store2 rest'] & Hrest & Hrun).
    injection Hrun as <- <-.
    destruct (IH _ _ _ Hrest) as (Hs & Hc & Hrep).
    unfold gen_graph in Hg.
    apply bind_Ok in Hg as ([lo hi] & _ & Hg).
    apply bind_Ok in Hg as ([store1' lines] & Hloop & Hg).
    injection Hg as <- <-.
    apply gen_graph_loop_store in Hloop.
    cbn [map concat g_stocks g_colors]. rewrite Hs, Hc, repair_all_app, Hloop.
    auto.
Qed.

Lemma independent_graphs_loop_unflagged (color_list : list (option string))
    (width height : Z) (values : list Stock) (i : nat) :
  Forall (fun s => graph s = false) values ->
  independent_graphs_loop color_list width height i values = Ok [].
Proof.
  intros Hall. revert i.
  induction Hall as [|s rest Hs _ IH]; intros i; [reflexivity|].
  cbn [independent_graphs_loop]. rewrite Hs. apply IH.
Qed.

End GraphShape.

(** X14: when no holding is flagged for a graph, [gen_graphs] succeeds in
    either mode, makes no graph, and leaves every stock, repaired or not, as
    it was: nothing but the (empty) list of graphs is set. *)
Theorem gen_graphs_without_flagged_holding (E : Externals)
    (independent_graphs : bool) (w h : Z) (self : Portfolio) :
  Forall (fun s => graph s = false) (holdings self) ->
  gen_graphs independent_graphs w h self = Ok (set_graphs self []).
Proof.
  intros Hall. unfold gen_graphs, holdings in *.
  destruct independent_graphs; cbn [negb].
  - rewrite (independent_graphs_loop_unflagged _ _ _ _ _ Hall).
    cbn [bind gen_all]. destruct self. reflexivity.
  - assert (Hnone : filter (fun s => graph s = true)
                      (dict_values (stocks self)) = []).
    { clear -Hall. induction Hall as [|s rest Hs _ IH]; [reflexivity|].
      rewrite filter_cons. destruct (decide (graph s = true)); [congruence|].
      exact IH. }
    cbv zeta. rewrite Hnone. cbn [length Nat.ltb Nat.leb bind gen_all].
    destruct self. reflexivity.
Qed.

Lemma gen_graphs_without_flagged_holding_witness :
  exists p,
    populate gap_market
      [("AAA", mkStockConfig None [mkLot 10 100] [] None);
       ("BBB", mkStockConfig (Some "true") [mkLot 5 50] [] None)]
      new_Portfolio = Ok p /\
    gen_graphs false 80 20 p = Ok (set_graphs p []).
Proof.
  set (p := result_get new_Portfolio
              (populate gap_market
                 [("AAA", mkStockConfig None [mkLot 10 100] [] None);
                  ("BBB", mkStockConfig (Some "true") [mkLot 5 50] [] None)]
                 new_Portfolio)).
  exists p. split; [reflexivity|].
  apply (gen_graphs_without_flagged_holding demo_externals false 80 20 p).
  apply Forall_cons. split; [reflexivity|].
  apply Forall_cons. split; [reflexivity|]. apply Forall_nil. exact I.
Defined.

Section GraphColours.
Context `{Externals}.

(** Each graph of the independent branch is made for a flagged stock, with
    the colour that stands at the stock's own position. *)
Lemma independent_graphs_loop_pairs (color_list : list (option string))
    (width height : Z) (values : list Stock) :
  forall (i : nat) (gs : list Graph),
  independent_graphs_loop color_list width height i values = Ok gs ->
  map g_stocks gs =
    map (fun s => [symbol s]) (filter (fun s => graph s = true) values) /\
  Forall (fun g => exists j s c,
            values !! j = Some s /\ graph s = true /\
            color_list !! (i + j)%nat = Some c /\
            g_stocks g = [symbol s] /\ g_colors g = [c]) gs.
Proof.
  induction values as [|s rest IH]; intros i gs Hgs.
  - injection Hgs as <-. split; constructor.
  - cbn [independent_graphs_loop] in Hgs. rewrite filter_cons.
    destruct (graph s) eqn:Hs.
    + apply bind_Ok in Hgs as (c & Hc & Hgs).
      apply bind_Ok in Hgs as (gs0 & Hgs0 & Hgs). injection Hgs as <-.
      destruct (IH _ _ Hgs0) as [Hst Hall].
      destruct (decide (true = true)); [|congruence].
      split; [simpl; rewrite Hst; reflexivity|].
      apply Forall_cons. split.
      * exists 0%nat, s, c. unfold py_getitem in Hc.
        rewrite Nat.add_0_r.
        destruct (color_list !! i) as [c'|]; [|discriminate].
        injection Hc as ->. auto.
      * eapply Forall_impl; [exact Hall|].
        intros g (j & s' & c' & Hj & Hg & Hcl & Hgst & Hgco).
        exists (S j), s', c'. rewrite <- Nat.add_succ_comm. auto.
    + destruct (decide (false = true)); [discriminate|].
      destruct (IH _ _ Hgs) as [Hst Hall]. split; [exact Hst|].
      eapply Forall_impl; [exact Hall|].
      intros g (j & s' & c' & Hj & Hg & Hcl & Hgst & Hgco).
      exists (S j), s', c'. rewrite <- Nat.add_succ_comm. auto.
Qed.

End GraphColours.

(** X15: in independent mode there is one graph per flagged holding, in
    the portfolio's order, and each graph carries the colour of its own
    holding: after [populate] (distinct fetched tickers), every graph is
    that of a ticker whose section asks for a graph, with that section's
    colour as [populate] checked it. *)
Theorem independent_graph_has_own_colour (E : Externals)
    (market_data : MarketData) (stocks_config : dict StockConfig)
    (w h : Z) (p p' : Portfolio) :
  populate market_data stocks_config new_Portfolio = Ok p ->
  NoDup (map fst market_data) ->
  gen_graphs true w h p = Ok p' ->
  map g_stocks (graphs p') =
    map (fun sym => [sym]) (flagged_symbols (stocks p)) /\
  Forall (fun g => exists sym cfg,
            g_stocks g = [sym] /\
            dict_get sym stocks_config = Some cfg /\
            wants_graph cfg = true /\
            g_colors g = [checked_color (cfg_color cfg)]) (graphs p').
Proof.
  intros Hp Hnd Hg. unfold gen_graphs in Hg. cbn [negb] in Hg.
  apply bind_Ok in Hg as (gs & Hgs & Hg).
  apply bind_Ok in Hg as ([store gs'] & Hall & Hg). injection Hg as <-.
  cbn [graphs set_graphs].
  apply gen_all_shape in Hall as (Hs & Hc & _).
  apply independent_graphs_loop_pairs in Hgs as [Hst Hpairs].
  split.
  - rewrite Hs, Hst. unfold flagged_symbols. rewrite map_map. reflexivity.
  - apply (Forall_same_stocks_colors
             (fun st co => exists sym cfg,
                st = [sym] /\ dict_get sym stocks_config = Some cfg /\
                wants_graph cfg = true /\
                co = [checked_color (cfg_color cfg)]) gs gs' Hs Hc).
    eapply Forall_impl; [exact Hpairs|].
    intros g (j & s & c & Hj & Hflag & Hcl & Hgst & Hgco). simpl in Hcl.
    destruct (populate_keys _ _ _ Hp Hnd) as [Hkeys _].
    assert (Hlt : (j < length market_data)%nat).
    { apply lookup_lt_Some in Hj. unfold dict_values in Hj.
      rewrite length_map in Hj.
      rewrite <- (length_map fst market_data), <- Hkeys.
      unfold dict_keys. rewrite length_map. exact Hj. }
    apply lookup_lt_is_Some_2 in Hlt as [[sym d] Hcol].
    destruct (populate_column_holding _ _ _ _ Hp Hnd _ _ _ Hcol)
      as (cfg & v & count & bought_at & Hcfg & _ & _ & Hstock & _ & Hcolor).
    assert (Hs' : s = mkStock sym v d (wants_graph cfg) None).
    { unfold dict_values in Hj.
      rewrite (map_lookup_Some snd _ _ _ Hstock) in Hj. injection Hj as <-.
      reflexivity. }
    subst s. simpl in Hflag, Hgst.
    exists sym, cfg. rewrite Hcl in Hcolor. injection Hcolor as ->. auto.
Qed.

Lemma independent_graph_has_own_colour_witness :
  exists p p',
    populate demo_market
      [("AAA", mkStockConfig None [mkLot 10 100] [] (Some "red"));
       ("BBB", mkStockConfig (Some "True") [mkLot 5 50] [] (Some "blue"))]
      new_Portfolio = Ok p /\
    gen_graphs true 80 20 p = Ok p' /\
    map g_stocks (graphs p') = [["BBB"]] /\
    map g_colors (graphs p') = [[Some "blue"]].
Proof.
  set (cfg := [("AAA", mkStockConfig None [mkLot 10 100] [] (Some "red"));
       ("BBB", mkStockConfig (Some "True") [mkLot 5 50] [] (Some "blue"))]).
  set (p := result_get new_Portfolio (populate demo_market cfg new_Portfolio)).
  set (p' := result_get new_Portfolio (gen_graphs true 80 20 p)).
  exists p, p'. split; [reflexivity|]. split; [reflexivity|].
  destruct (independent_graph_has_own_colour demo_externals demo_market cfg
              80 20 p p' eq_refl) as [Hst Hall].
  - apply (bool_decide_unpack _). vm_compute. exact I.
  - reflexivity.
  - split; [rewrite Hst; reflexivity|].
    destruct (graphs p') as [|g [|g' rest]] eqn:Hgs; try discriminate.
    apply Forall_cons in Hall as [(sym & c & Hgst & Hc & _ & Hgco) _].
    injection Hst as Hsym. rewrite Hsym in Hgst. injection Hgst as <-.
    injection Hc as <-. simpl. rewrite Hgco. reflexivity.
Defined.

(** X16: in combined mode the single graph draws the flagged holdings in
    the portfolio's order, but takes its colours from the front of the
    colour list: its [k]-th line is given the colour of the [k]-th fetched
    column, whether or not that column is the [k]-th flagged holding. *)
Theorem combined_graph_colours_follow_columns (E : Externals)
    (market_data : MarketData) (stocks_config : dict StockConfig)
    (w h : Z) (p p' : Portfolio) :
  populate market_data stocks_config new_Portfolio = Ok p ->
  NoDup (map fst market_data) ->
  gen_graphs false w h p = Ok p' ->
  flagged_symbols (stocks p) <> [] ->
  exists g, graphs p' = [g] /\
    g_stocks g = flagged_symbols (stocks p) /\
    forall k, (k < length (g_stocks g))%nat ->
      exists sym d cfg,
        market_data !! k = Some (sym, d) /\
        dict_get sym stocks_config = Some cfg /\
        g_colors g !! k = Some (checked_color (cfg_color cfg)).
Proof.
  intros Hp Hnd Hg Hne.
  destruct (populate_keys _ _ _ Hp Hnd) as [Hkeys Hwf].
  destruct (gen_graphs_combined _ _ _ _ Hg Hwf Hne) as (g & Hgs & Hst & Hco & _).
  exists g. split; [exact Hgs|]. split; [exact Hst|].
  intros k Hk. rewrite Hst in Hk.
  assert (Hlt : (k < length market_data)%nat).
  { eapply Nat.lt_le_trans; [exact Hk|]. unfold flagged_symbols.
    rewrite length_map.
    etransitivity; [apply length_filter|].
    unfold dict_values. rewrite length_map.
    rewrite <- (length_map fst market_data), <- Hkeys.
    unfold dict_keys. rewrite length_map. reflexivity. }
  apply lookup_lt_is_Some_2 in Hlt as [[sym d] Hcol].
  destruct (populate_column_holding _ _ _ _ Hp Hnd _ _ _ Hcol)
    as (cfg & v & count & bought_at & Hcfg & _ & _ & _ & _ & Hcolor).
  exists sym, d, cfg. split; [exact Hcol|]. split; [exact Hcfg|].
  rewrite Hco, lookup_take_lt by exact Hk. exact Hcolor.
Qed.

Lemma combined_graph_colours_follow_columns_witness :
  exists p p' g,
    populate demo_market
      [("AAA", mkStockConfig None [mkLot 10 100] [] (Some "red"));
       ("BBB", mkStockConfig (Some "True") [mkLot 5 50] [] (Some "blue"))]
      new_Portfolio = Ok p /\
    gen_graphs false 80 20 p = Ok p' /\
    graphs p' = [g] /\ g_stocks g = ["BBB"] /\
    g_colors g !! 0%nat = Some (Some "red").
Proof.
  set (cfg := [("AAA", mkStockConfig None [mkLot 10 100] [] (Some "red"));
       ("BBB", mkStockConfig (Some "True") [mkLot 5 50] [] (Some "blue"))]).
  set (p := result_get new_Portfolio (populate demo_market cfg new_Portfolio)).
  set (p' := result_get new_Portfolio (gen_graphs false 80 20 p)).
  destruct (combined_graph_colours_follow_columns demo_externals demo_market cfg
              80 20 p p' eq_refl) as (g & Hgs & Hst & Hcol).
  - apply (bool_decide_unpack _). vm_compute. exact I.
  - reflexivity.
  - discriminate.
  - exists p, p', g. split; [reflexivity|]. split; [reflexivity|].
    split; [exact Hgs|]. split; [exact Hst|].
    destruct (Hcol 0%nat) as (sym & d & c & Hmd & Hc & Hk).
    + rewrite Hst. simpl. lia.
    + injection Hmd as <- <-. injection Hc as <-. exact Hk.
Defined.

Lemma nan_repair_length (d r : list float) :
  nan_repair d = Ok r -> length r = length d.
Proof.
  rewrite nan_repair_unfold.
  destruct d as [|x [|y t]]; [intros [= <-]; reflexivity| |];
    destruct (PrimFloat.is_nan x); try discriminate; intros [= <-];
    cbn [length]; rewrite ?fill_forward_length; reflexivity.
Qed.

(** X17: [gen_graph] draws one line per stock of the graph, in the graph's
    order: the line of a stock is labelled with its symbol, runs over the
    repair of the samples the stock had before, and places sample [j] at
    minute [j], with as many positions as the stock had samples. *)
Theorem gen_graph_draws_repaired_series (E : Externals)
    (auto_colors : list string) (store store' : dict Stock) (g g' : Graph) :
  gen_graph auto_colors store g = Ok (store', g') ->
  stocks_wf store -> NoDup (g_stocks g) ->
  length (g_lines g') = length (g_stocks g) /\
  forall k sym, g_stocks g !! k = Some sym ->
    exists s line,
      dict_get sym store = Some s /\
      g_lines g' !! k = Some line /\
      line_label line = sym /\
      nan_repair (data s) = Ok (line_ys line) /\
      line_xs line = seq 0 (length (data s)).
Proof.
  intros Hg Hwf Hnd. unfold gen_graph in Hg.
  apply bind_Ok in Hg as ([lo hi] & _ & Hg).
  apply bind_Ok in Hg as ([store1 lines] & Hloop & Hg). injection Hg as <- <-.
  cbn [g_lines].
  destruct (gen_graph_loop_spec _ _ _ _ _ _ _ _ Hloop Hwf Hnd)
    as (_ & [Hkeys Hrep] & new & -> & Hlen & Hlines).
  simpl. split; [exact Hlen|].
  intros k sym Hk.
  destruct (Hlines _ _ Hk) as (line & s' & Hline & _ & Hlabel & Hs' & Hys & Hxs).
  destruct (dict_get sym store) as [s|] eqn:Hs.
  - destruct (Hrep _ _ Hs) as (s'' & Hs'' & _ & _ & _ & Hin & _).
    rewrite Hs' in Hs''. injection Hs'' as <-.
    assert (Hd : nan_repair (data s) = Ok (data s')).
    { apply Hin. eapply list_elem_of_lookup_2. exact Hk. }
    exists s, line. rewrite Hys, Hxs, (nan_repair_length _ _ Hd). auto.
  - exfalso. apply dict_get_None in Hs. rewrite <- Hkeys in Hs.
    apply dict_get_None in Hs. congruence.
Qed.

Lemma gen_graph_draws_repaired_series_witness :
  exists store' g' line,
    gen_graph demo_palette
      [("AAA", mkStock "AAA" 7 [nan; 5; nan; 7]%float true None)]
      (new_Graph ["AAA"] 80 20 [None]) = Ok (store', g') /\
    g_lines g' = [line] /\ line_label line = "AAA" /\
    line_ys line = [5; 5; 5; 7]%float /\ line_xs line = [0; 1; 2; 3]%nat.
Proof.
  set (store := [("AAA", mkStock "AAA" 7 [nan; 5; nan; 7]%float true None)]).
  set (g := new_Graph ["AAA"] 80 20 [None]).
  set (r := result_get (store, g) (gen_graph demo_palette store g)).
  destruct (gen_graph_draws_repaired_series demo_externals demo_palette
              store (fst r) g (snd r) eq_refl) as [Hlen Hlines].
  - split; [apply (bool_decide_unpack _); vm_compute; exact I|].
    apply Forall_cons. split; [reflexivity|]. apply Forall_nil. exact I.
  - apply (bool_decide_unpack _). vm_compute. exact I.
  - destruct (Hlines 0%nat "AAA" eq_refl)
      as (s & line & Hs & Hline & Hlabel & Hys & Hxs).
    injection Hs as <-. simpl in Hys, Hxs. injection Hys as Hys.
    exists (fst r), (snd r), line. split; [reflexivity|].
    split; [|auto].
    destruct (g_lines (snd r)) as [|l0 [|l1 rest]]; try discriminate.
    injection Hline as ->. reflexivity.
Defined.

Section GraphFrame.
Context `{Externals}.

(** What [gen_graphs] leaves in the portfolio, without any assumption on
    the dictionary: the stocks are the former stocks in which the flagged
    ones were repaired in turn, and the rest is untouched. *)
Lemma gen_graphs_store (independent_graphs : bool) (w h : Z)
    (self p' : Portfolio) :
  gen_graphs independent_graphs w h self = Ok p' ->
  repair_all (stocks self) (flagged_symbols (stocks self)) = Ok (stocks p') /\
  stocks_metadata p' = stocks_metadata self /\
  initial_value p' = initial_value self /\
  color_list p' = color_list self /\
  current_value p' = current_value self /\
  opening_value p' = opening_value self.
Proof.
  unfold gen_graphs. intros Hg.
  apply bind_Ok in Hg as (gs & Hgs & Hg).
  apply bind_Ok in Hg as ([store gs'] & Hall & Hg). injection Hg as <-.
  cbn [stocks stocks_metadata initial_value color_list current_value
       opening_value set_graphs set_stocks].
  apply gen_all_shape in Hall as (_ & _ & Hrep).
  assert (Hconcat : concat (map g_stocks gs) = flagged_symbols (stocks self)).
  { destruct independent_graphs; cbn [negb] in Hgs.
    - apply (independent_graphs_loop_spec _ _ _ _ _ _ Hgs).
    - unfold flagged_symbols.
      destruct (filter (fun s => graph s = true) (dict_values (stocks self)))
        as [|s l]; simpl in Hgs; injection Hgs as <-; simpl;
        rewrite ?app_nil_r; reflexivity. }
  rewrite Hconcat in Hrep. auto 10.
Qed.

(** The report of [print_table] is computed from the stocks, the
    quantities and costs, and the initial value; nothing else is read. *)
Lemma print_table_reads (mode : string) (p1 p2 : Portfolio) :
  stocks p1 = stocks p2 ->
  stocks_metadata p1 = stocks_metadata p2 ->
  initial_value p1 = initial_value p2 ->
  (do x <- print_table mode p1; Ok (snd x)) =
  (do x <- print_table mode p2; Ok (snd x)).
Proof.
  intros Hs Hm Hi. unfold print_table. rewrite Hs, Hm.
  destruct (print_table_loop mode (stocks_metadata p2)
              (dict_values (stocks p2)) [] 0 0) as [[[table cur] opn]|];
    [|reflexivity].
  cbn [bind]. unfold print_gains.
  cbn [current_value opening_value initial_value set_totals]. rewrite Hi.
  destruct (py_truediv (cur - opn) cur) as [q1|]; [|reflexivity]. cbn [bind].
  destruct (py_truediv (cur - initial_value p2) cur) as [q2|]; reflexivity.
Qed.

End GraphFrame.

(** X18: the table does not depend on how the graphs are made: whether one
    graph per holding or one graph for all, and whatever the size of the
    graphs, [gen_graphs] leaves the same stocks, and [print_table] then
    prints the same report or raises the same exception. *)
Theorem table_independent_of_chart_mode (E : Externals) (self p1 p2 : Portfolio)
    (mode1 mode2 : bool) (w1 h1 w2 h2 : Z) :
  gen_graphs mode1 w1 h1 self = Ok p1 ->
  gen_graphs mode2 w2 h2 self = Ok p2 ->
  stocks p1 = stocks p2 /\
  forall mode,
    (do x <- print_table mode p1; Ok (snd x)) =
    (do x <- print_table mode p2; Ok (snd x)).
Proof.
  intros H1 H2.
  apply gen_graphs_store in H1 as (Hs1 & Hm1 & Hi1 & _).
  apply gen_graphs_store in H2 as (Hs2 & Hm2 & Hi2 & _).
  assert (Hs : stocks p1 = stocks p2) by congruence.
  split; [exact Hs|]. intros mode.
  apply print_table_reads; congruence.
Qed.

Lemma table_independent_of_chart_mode_witness :
  exists p p1 p2,
    populate gap_market demo_config new_Portfolio = Ok p /\
    gen_graphs true 80 20 p = Ok p1 /\
    gen_graphs false 120 40 p = Ok p2 /\
    length (graphs p1) = 2%nat /\ length (graphs p2) = 1%nat /\
    stocks p1 = stocks p2 /\
    (do x <- print_table "math" p1; Ok (snd x)) =
    (do x <- print_table "math" p2; Ok (snd x)).
Proof.
  set (p := result_get new_Portfolio
              (populate gap_market demo_config new_Portfolio)).
  set (p1 := result_get new_Portfolio (gen_graphs true 80 20 p)).
  set (p2 := result_get new_Portfolio (gen_graphs false 120 40 p)).
  exists p, p1, p2.
  destruct (table_independent_of_chart_mode demo_externals p p1 p2
              true false 80 20 120 40 eq_refl eq_refl) as [Hs Hrep].
  split; [reflexivity|]. split; [reflexivity|]. split; [reflexivity|].
  split; [reflexivity|]. split; [reflexivity|]. split; [exact Hs|].
  apply Hrep.
Defined.

(** X19: [gen_graphs] changes nothing but samples: the quantities and
    average costs, the initial value and the colour list are as before, the
    holdings are the same in the same order, and each holding keeps its
    symbol, its flag, its stored value and its number of samples. *)
Theorem gen_graphs_frame (E : Externals) (independent_graphs : bool) (w h : Z)
    (self p' : Portfolio) :
  gen_graphs independent_graphs w h self = Ok p' ->
  stocks_wf (stocks self) ->
  stocks_metadata p' = stocks_metadata self /\
  initial_value p' = initial_value self /\
  color_list p' = color_list self /\
  dict_keys (stocks p') = dict_keys (stocks self) /\
  forall sym s, dict_get sym (stocks self) = Some s ->
    exists s', dict_get sym (stocks p') = Some s' /\
      symbol s' = symbol s /\ graph s' = graph s /\ value s' = value s /\
      length (data s') = length (data s).
Proof.
  intros Hg Hwf.
  destruct (gen_graphs_spec _ _ _ _ _ Hg Hwf)
    as (Hm & Hi & Hc & _ & [Hkeys Hrep] & _).
  repeat split; try assumption.
  intros sym s Hs.
  destruct (Hrep _ _ Hs) as (s' & Hs' & Hsym & Hgr & Hval & Hin & Hout).
  exists s'. repeat split; try assumption.
  destruct (decide (sym ∈ flagged_symbols (stocks self))) as [Hf|Hf].
  - apply nan_repair_length. apply Hin. exact Hf.
  - rewrite (Hout Hf). reflexivity.
Qed.

Lemma gen_graphs_frame_witness :
  exists p p' s',
    populate gap_market gap_config new_Portfolio = Ok p /\
    gen_graphs false 80 20 p = Ok p' /\
    stocks_metadata p' = stocks_metadata p /\
    dict_keys (stocks p') = ["AAA"; "BBB"] /\
    dict_get "AAA" (stocks p') = Some s' /\
    graph s' = true /\ length (data s') = 3%nat.
Proof.
  set (p := result_get new_Portfolio
              (populate gap_market gap_config new_Portfolio)).
  set (p' := result_get new_Portfolio (gen_graphs false 80 20 p)).
  destruct (gen_graphs_frame demo_externals false 80 20 p p' eq_refl)
    as (Hm & _ & _ & Hkeys & Hstocks).
  - split; [apply (bool_decide_unpack _); vm_compute; exact I|].
    apply Forall_cons. split; [reflexivity|].
    apply Forall_cons. split; [reflexivity|]. apply Forall_nil. exact I.
  - destruct (Hstocks "AAA" (mkStock "AAA" 7 [5; nan; 7]%float true None) eq_refl)
      as (s' & Hs' & _ & Hgr & _ & Hlen).
    exists p, p', s'. split; [reflexivity|]. split; [reflexivity|].
    split; [exact Hm|]. split; [rewrite Hkeys; reflexivity|]. auto.
Defined.

(** ** The table: its lines, and when it cannot be printed *)

Section TableLines.
Context `{Externals}.

Lemma table_line_of_shows (mode : string) (self : Portfolio) (st : Stock)
    (line : table_line) :
  table_line_of mode (stocks_metadata self) st = Ok line ->
  line_of_holding mode self st line.
Proof.
  unfold table_line_of. intros Hline.
  apply bind_Ok in Hline as (curr & Hcurr & Hline).
  apply bind_Ok in Hline as (opn & Hopn & Hline).
  apply bind_Ok in Hline as (pct & _ & Hline).
  apply bind_Ok in Hline as (last & Hlast & Hline).
  apply bind_Ok in Hline as (lo & _ & Hline).
  apply bind_Ok in Hline as (hi & _ & Hline).
  apply bind_Ok in Hline as (avg & _ & Hline).
  apply bind_Ok in Hline as (meta & Hmeta & Hline).
  apply bind_Ok in Hline as (cv & Hcv & Hline).
  injection Hline as <-.
  unfold calc_value in Hcv. fold (get_curr st) in Hcv.
  rewrite Hcurr in Hcv. cbn [bind] in Hcv. injection Hcv as <-.
  rewrite Hcurr in Hlast. injection Hlast as <-.
  apply get_curr_last_sample in Hcurr. apply get_open_first_sample in Hopn.
  unfold dict_lookup in Hmeta.
  unfold line_of_holding, quantity_of, average_cost_of.
  destruct (dict_get (symbol st) (stocks_metadata self)) as [m|];
    [|discriminate].
  injection Hmeta as <-. subst curr opn. simpl. auto 10.
Qed.

End TableLines.

(** X20: the table that [print_table] prints has one line per holding, in
    the portfolio's order, and the line of a holding shows its ticker, its
    last price, its change since the first sample, its quantity, its market
    value (last price times quantity), its average cost and its total cost;
    the line is green exactly when the rounded change is [>= 0].  Printing
    the table changes nothing in the portfolio but the two totals. *)
Theorem print_table_lists_holdings (E : Externals) (mode : string)
    (self self' : Portfolio) (rep : report) :
  print_table mode self = Ok (self', rep) ->
  Forall2 (line_of_holding mode self) (holdings self) (rep_table rep) /\
  stocks self' = stocks self /\
  stocks_metadata self' = stocks_metadata self /\
  initial_value self' = initial_value self /\
  color_list self' = color_list self /\
  graphs self' = graphs self.
Proof.
  intros Hrun.
  destruct (print_table_lines _ _ _ _ Hrun) as [Hs Hlines].
  split.
  - eapply Forall2_impl; [exact Hlines|].
    intros st line. apply table_line_of_shows.
  - unfold print_table in Hrun.
    apply bind_Ok in Hrun as ([[table cur] opn] & _ & Hrun).
    apply bind_Ok in Hrun as (today & _ & Hrun).
    apply bind_Ok in Hrun as (overall & _ & Hrun).
    injection Hrun as <- _. simpl. auto.
Qed.

Lemma print_table_lists_holdings_witness :
  exists p p' rep l0 l1,
    populate demo_market demo_config new_Portfolio = Ok p /\
    print_table "math" p = Ok (p', rep) /\
    rep_table rep = [l0; l1] /\
    cell_ticker l0 = "AAA" /\ cell_mkt_value l0 = 1100%float /\
    cell_ticker l1 = "BBB" /\ cell_total_cost l1 = 250%float /\
    stocks p' = stocks p.
Proof.
  set (p := result_get new_Portfolio
              (populate demo_market demo_config new_Portfolio)).
  set (r := result_get (new_Portfolio,
                          mkReport [] 0 0 0 0 (mkGains false 0 0) (mkGains false 0 0))
              (print_table "math" p)).
  destruct (print_table_lists_holdings demo_externals "math" p (fst r) (snd r)
              eq_refl) as (Hlines & Hs & _).
  apply Forall2_cons_inv_l in Hlines as (l0 & t0 & Hl0 & Hlines & Ht0).
  apply Forall2_cons_inv_l in Hlines as (l1 & t1 & Hl1 & Hlines & Ht1).
  apply Forall2_nil_inv_l in Hlines. subst t1 t0.
  exists p, (fst r), (snd r), l0, l1.
  destruct Hl0 as (Hk0 & _ & _ & _ & Hv0 & _).
  destruct Hl1 as (Hk1 & _ & _ & _ & _ & _ & Hc1 & _).
  split; [reflexivity|]. split; [reflexivity|]. split; [exact Ht0|].
  split; [exact Hk0|]. split; [rewrite Hv0; reflexivity|].
  split; [exact Hk1|]. split; [rewrite Hc1; reflexivity|]. exact Hs.
Defined.

(** ** Floats: zeros *)

Lemma eqb_zero (x : float) : sf_zero (Prim2SF x) -> (x =? 0)%float = true.
Proof.
  intros Hx. apply eqb_key. exists (0, 0, 0)%Z. unfold fkey.
  destruct (Prim2SF x); try contradiction. split; reflexivity.
Qed.

Lemma add_zero (x y : float) :
  sf_zero (Prim2SF x) -> sf_zero (Prim2SF y) -> sf_zero (Prim2SF (x + y)).
Proof.
  rewrite add_spec.
  destruct (Prim2SF x) as [sx| | |]; try contradiction.
  destruct (Prim2SF y) as [sy| | |]; try contradiction.
  intros _ _. destruct sx, sy; exact I.
Qed.

Lemma is_finite_spec (x : float) :
  PrimFloat.is_finite x = true ->
  match Prim2SF x with
  | S754_zero _ | S754_finite _ _ _ => True
  | _ => False
  end.
Proof.
  unfold PrimFloat.is_finite, PrimFloat.is_infinity.
  rewrite negb_true_iff, orb_false_iff. intros [Hnan Hinf].
  destruct (Prim2SF x) as [s|s| |s m e] eqn:E; try exact I.
  - rewrite FloatAxioms.eqb_spec, abs_spec, E in Hinf. discriminate.
  - apply is_nan_spec in E. congruence.
Qed.

Lemma mul_zero_r (x : float) :
  PrimFloat.is_finite x = true -> sf_zero (Prim2SF (x * 0)).
Proof.
  intros Hx. apply is_finite_spec in Hx. rewrite mul_spec, Prim2SF_zero.
  destruct (Prim2SF x); try contradiction; exact I.
Qed.

Lemma fold_add_zero (l : list float) (acc : float) :
  Forall (fun y => sf_zero (Prim2SF y)) l -> sf_zero (Prim2SF acc) ->
  sf_zero (Prim2SF (fold_left (fun a y => (a + y)%float) l acc)).
Proof.
  intros Hall. revert acc.
  induction Hall as [|y l Hy _ IH]; intros acc Hacc; [exact Hacc|].
  simpl. apply IH. apply add_zero; assumption.
Qed.

Section TableFailure.
Context `{Externals}.

Lemma table_line_of_zero_price (mode : string) (self : Portfolio)
    (stock : Stock) :
  data stock <> [] -> (last_sample stock =? 0)%float = true ->
  table_line_of mode (stocks_metadata self) stock = Raise ZeroDivisionError.
Proof.
  intros Hne Hz. unfold table_line_of, change_percent.
  rewrite (get_curr_Ok _ Hne), (get_open_Ok _ Hne). cbn [bind].
  unfold py_truediv. rewrite Hz. reflexivity.
Qed.

Lemma print_table_loop_zero_price (mode : string) (self : Portfolio)
    (values : list Stock) :
  Forall (has_line_inputs self) values ->
  Exists (fun st => (last_sample st =? 0)%float = true) values ->
  forall table cur opn,
    print_table_loop mode (stocks_metadata self) values table cur opn =
      Raise ZeroDivisionError.
Proof.
  intros Hall. induction Hall as [|stock rest Hst _ IH]; intros Hex table cur opn.
  - inversion Hex.
  - cbn [print_table_loop].
    destruct Hst as (Hne & Hlen & Hmeta).
    destruct (last_sample stock =? 0)%float eqn:Hz.
    + rewrite (table_line_of_zero_price _ _ _ Hne Hz). reflexivity.
    + assert (Hpr : printable self stock) by (repeat split; assumption).
      destruct (table_line_of_returns mode self stock Hpr) as [line ->].
      cbn [bind]. unfold dict_lookup.
      destruct (dict_get (symbol stock) (stocks_metadata self)) as [meta|];
        [|congruence].
      cbn [bind]. unfold calc_value.
      fold (get_curr stock). rewrite (get_curr_Ok _ Hne), (get_open_Ok _ Hne).
      cbn [bind]. apply IH.
      apply Exists_cons in Hex as [Hex|Hex]; [congruence|exact Hex].
Qed.

Lemma print_table_zero_total (mode : string) (self : Portfolio) :
  Forall (has_line_inputs self) (holdings self) ->
  (float_sum (map (fun st => (last_sample st * quantity_of self st)%float)
                (holdings self)) =? 0)%float = true ->
  print_table mode self = Raise ZeroDivisionError.
Proof.
  intros Hall Hz. unfold print_table. fold (holdings self).
  destruct (decide (Exists (fun st => (last_sample st =? 0)%float = true)
                      (holdings self))) as [Hex|Hex].
  - rewrite (print_table_loop_zero_price _ _ _ Hall Hex). reflexivity.
  - assert (Hpr : Forall (printable self) (holdings self)).
    { apply Forall_forall. intros st Hst.
      destruct (proj1 (Forall_forall _ _) Hall st Hst) as (Hne & Hlen & Hmeta).
      repeat split; try assumption.
      destruct (last_sample st =? 0)%float eqn:E; [|reflexivity].
      exfalso. apply Hex. apply Exists_exists. exists st. auto. }
    destruct (print_table_loop_returns mode self _ Hpr [] 0%float 0%float)
      as (table & cur & opn & Hloop).
    rewrite Hloop. cbn [bind].
    destruct (print_table_loop_spec _ _ _ _ _ _ _ _ _ Hloop) as [Hcur _].
    fold (float_sum (map (fun st => (last_sample st * quantity_of self st)%float)
                       (holdings self))) in Hcur.
    unfold print_gains, py_truediv. cbn [current_value set_totals].
    rewrite Hcur, Hz. reflexivity.
Qed.

End TableFailure.

(** X21: [print_table] raises [ZeroDivisionError], and prints no totals and
    no gains, when the last price of a holding is zero (the change in
    percent divides by it) or when the total value of the holdings is zero
    (each gain is divided by it); in particular it raises for a portfolio
    without any holding. *)
Theorem print_table_division_by_zero (E : Externals) (mode : string)
    (self : Portfolio) :
  Forall (has_line_inputs self) (holdings self) ->
  Exists (fun st => (last_sample st =? 0)%float = true) (holdings self) \/
  (float_sum (map (fun st => (last_sample st * quantity_of self st)%float)
                (holdings self)) =? 0)%float = true \/
  holdings self = [] ->
  print_table mode self = Raise ZeroDivisionError.
Proof.
  intros Hall [Hex|[Hz|Hnil]].
  - unfold print_table. fold (holdings self).
    rewrite (print_table_loop_zero_price _ _ _ Hall Hex). reflexivity.
  - apply print_table_zero_total; assumption.
  - apply print_table_zero_total; [exact Hall|]. rewrite Hnil. reflexivity.
Qed.

Lemma print_table_division_by_zero_witness :
  print_table "math" new_Portfolio = Raise ZeroDivisionError /\
  main [] demo_config false 80 20 "math" = Raise ZeroDivisionError /\
  print_table "math"
    (add_stock new_Portfolio (mkStock "AAA" 0 [3; 0]%float false None) 10 2 None) =
    Raise ZeroDivisionError.
Proof.
  split; [|split].
  - apply (print_table_division_by_zero demo_externals "math" new_Portfolio).
    + apply Forall_nil. exact I.
    + right. right. reflexivity.
  - apply (print_table_division_by_zero demo_externals "math" new_Portfolio).
    + apply Forall_nil. exact I.
    + right. left. reflexivity.
  - apply (print_table_division_by_zero demo_externals "math").
    + apply Forall_cons. split; [|apply Forall_nil; exact I].
      split; [discriminate|]. split; [reflexivity|discriminate].
    + left. apply Exists_cons. left. reflexivity.
Defined.

(** ** A portfolio of tickers that are only watched *)

Section WatchList.
Context `{Externals}.

(** After [populate] and [gen_graphs], a holding whose section has no lot
    still has samples, and its quantity and average cost are zero. *)
Lemma watch_list_holding (market_data : MarketData)
    (stocks_config : dict StockConfig) (independent_graphs : bool) (w h : Z)
    (p p' : Portfolio) (st : Stock) :
  NoDup (map fst market_data) ->
  populate market_data stocks_config new_Portfolio = Ok p ->
  (forall sym cfg, dict_get sym stocks_config = Some cfg ->
     cfg_buy cfg = [] /\ cfg_sell cfg = []) ->
  gen_graphs independent_graphs w h p = Ok p' ->
  st ∈ holdings p' ->
  data st <> [] /\
  dict_get (symbol st) (stocks_metadata p') = Some (0%float, 0%float).
Proof.
  intros Hnd Hp Hlots Hg Hst.
  destruct (populate_keys _ _ _ Hp Hnd) as [Hkeys Hwf].
  pose proof (populate_metadata_keys _ _ _ Hp Hnd) as Hmkeys.
  destruct (gen_graphs_spec _ _ _ _ _ Hg Hwf)
    as (Hm & _ & _ & Hwf' & [Hkeys' Hrep] & _).
  unfold holdings, dict_values in Hst.
  apply list_elem_of_fmap in Hst as ([sym st'] & Hsnd & Hin).
  simpl in Hsnd. subst st'.
  assert (Hget' : dict_get sym (stocks p') = Some st)
    by (apply dict_get_elem; [apply Hwf'|exact Hin]).
  rewrite (stocks_wf_get _ _ _ Hwf' Hget').
  assert (Hkey : sym ∈ map fst market_data).
  { rewrite <- Hkeys, <- Hkeys'. unfold dict_keys.
    apply (list_elem_of_fmap_2 fst _ _ Hin). }
  apply list_elem_of_fmap in Hkey as ([sym' d] & Hfst & Hcol).
  simpl in Hfst. subst sym'.
  apply list_elem_of_lookup_1 in Hcol as [k Hcol].
  destruct (populate_column_holding _ _ _ _ Hp Hnd _ _ _ Hcol)
    as (cfg & v & count & bought_at & Hcfg & Hv & Hbuy & Hstock & Hmeta & _).
  destruct (Hlots _ _ Hcfg) as [Hb Hs]. rewrite Hb, Hs in Hbuy.
  injection Hbuy as <- <-.
  apply list_elem_of_lookup_2 in Hstock, Hmeta.
  apply dict_get_elem in Hstock; [|apply Hwf].
  apply dict_get_elem in Hmeta; [|rewrite Hmkeys; apply Hwf].
  rewrite Hm. split; [|exact Hmeta].
  destruct (Hrep _ _ Hstock) as (s' & Hs' & _ & _ & _ & Hin' & Hout).
  rewrite Hget' in Hs'. injection Hs' as <-. simpl in Hin', Hout.
  assert (Hd : d <> []) by (intros ->; discriminate).
  destruct (decide (sym ∈ flagged_symbols (stocks p))) as [Hf|Hf].
  - apply Hin', nan_repair_length in Hf. intros Hnil. rewrite Hnil in Hf.
    destruct d; [contradiction|discriminate].
  - rewrite (Hout Hf). exact Hd.
Qed.

End WatchList.

(** X22: a portfolio in which no section has a [buy] or [sell] lot, that
    is a list of tickers that are only watched, cannot be shown: every
    quantity is zero, so is the total value, and [main] ends with
    [ZeroDivisionError] when it comes to the gains, whatever the (finite)
    prices are. *)
Theorem watch_list_ends_in_division_by_zero (E : Externals)
    (market_data : MarketData) (stocks_config : dict StockConfig)
    (independent_graphs : bool) (w h : Z) (mode : string) (p p' : Portfolio) :
  NoDup (map fst market_data) ->
  populate market_data stocks_config new_Portfolio = Ok p ->
  (forall sym cfg, dict_get sym stocks_config = Some cfg ->
     cfg_buy cfg = [] /\ cfg_sell cfg = []) ->
  gen_graphs independent_graphs w h p = Ok p' ->
  Forall (fun st => PrimFloat.is_finite (last_sample st) = true /\
                    (Z.of_nat (length (data st)) < 2 ^ 63)%Z) (holdings p') ->
  main market_data stocks_config independent_graphs w h mode =
    Raise ZeroDivisionError.
Proof.
  intros Hnd Hp Hlots Hg Hfin. unfold main. rewrite Hp. cbn [bind].
  rewrite Hg. cbn [bind].
  assert (Hall : forall st, st ∈ holdings p' ->
            has_line_inputs p' st /\
            sf_zero (Prim2SF (last_sample st * quantity_of p' st))).
  { intros st Hst.
    destruct (watch_list_holding _ _ _ _ _ _ _ _ Hnd Hp Hlots Hg Hst)
      as [Hd Hmeta].
    destruct (proj1 (Forall_forall _ _) Hfin st Hst) as [Hfinite Hlen].
    split.
    - split; [exact Hd|]. split; [exact Hlen|]. rewrite Hmeta. discriminate.
    - unfold quantity_of. rewrite Hmeta. apply mul_zero_r. exact Hfinite. }
  apply print_table_zero_total.
  - apply Forall_forall. intros st Hst. apply (Hall st Hst).
  - apply eqb_zero. unfold float_sum. apply fold_add_zero; [|exact I].
    apply Forall_forall. intros y Hy.
    apply list_elem_of_fmap in Hy as (st & -> & Hst). apply (Hall st Hst).
Qed.

Lemma watch_list_ends_in_division_by_zero_witness :
  main demo_market
    [("AAA", mkStockConfig (Some "True") [] [] None);
     ("BBB", mkStockConfig None [] [] (Some "red"))]
    true 80 20 "math" = Raise ZeroDivisionError.
Proof.
  set (cfg := [("AAA", mkStockConfig (Some "True") [] [] None);
               ("BBB", mkStockConfig None [] [] (Some "red"))]).
  set (p := result_get new_Portfolio (populate demo_market cfg new_Portfolio)).
  set (p' := result_get new_Portfolio (gen_graphs true 80 20 p)).
  apply (watch_list_ends_in_division_by_zero demo_externals demo_market cfg
           true 80 20 "math" p p').
  - apply (bool_decide_unpack _). vm_compute. exact I.
  - reflexivity.
  - intros sym c Hc. simpl in Hc.
    destruct (String.eqb sym "AAA"); [injection Hc as <-; auto|].
    destruct (String.eqb sym "BBB"); [injection Hc as <-; auto|discriminate].
  - reflexivity.
  - apply Forall_cons. split; [split; reflexivity|].
    apply Forall_cons. split; [split; reflexivity|]. apply Forall_nil. exact I.
Defined.

(** ** The check of the configuration and the command line *)

Lemma verify_config_keys_spec (config : Config)
    (stocks_config : dict StockConfig) :
  exists message, verify_config_keys config stocks_config = Ok message /\
    (message = None <-> config_shape config /\ stocks_config <> []).
Proof.
  unfold verify_config_keys, config_shape.
  case_bool_decide as Hk.
  - eexists. split; [reflexivity|]. split; [discriminate|].
    intros [(d & f & g & -> & _) _]. exfalso. apply Hk. reflexivity.
  - destruct config as [|[k1 d] [|[k2 f] [|[k3 g] [|? ?]]]]; try discriminate.
    injection Hk as <- <- <-.
    unfold config_keys, verify_sections, dict_lookup.
    cbn [dict_get]. 
    change (String.eqb "DEFAULT" "DEFAULT") with true.
    change (String.eqb "Frame" "DEFAULT") with false.
    change (String.eqb "Frame" "Frame") with true.
    change (String.eqb "General" "DEFAULT") with false.
    change (String.eqb "General" "Frame") with false.
    change (String.eqb "General" "General") with true.
    cbv iota. cbn [bind].
    destruct (bool_decide ([] <> dict_keys d)) eqn:Hd.
    { apply bool_decide_eq_true in Hd.
      eexists. split; [reflexivity|]. split; [discriminate|].
      intros [(d' & f' & g' & [= <- <- <-] & Hd' & _) _]. congruence. }
    cbn [bind].
    destruct (bool_decide (["width"; "height"] <> dict_keys f)) eqn:Hf.
    { apply bool_decide_eq_true in Hf.
      eexists. split; [reflexivity|]. split; [discriminate|].
      intros [(d' & f' & g' & [= <- <- <-] & _ & Hf' & _) _]. congruence. }
    cbn [bind].
    destruct (bool_decide (["independent_graphs"; "timezone"; "rounding_mode"]
                           <> dict_keys g)) eqn:Hg.
    { apply bool_decide_eq_true in Hg.
      eexists. split; [reflexivity|]. split; [discriminate|].
      intros [(d' & f' & g' & [= <- <- <-] & _ & _ & Hg') _]. congruence. }
    apply bool_decide_eq_false, dec_stable in Hd.
    apply bool_decide_eq_false, dec_stable in Hf.
    apply bool_decide_eq_false, dec_stable in Hg.
    cbn [bind].
    destruct (bool_decide ("DEFAULT" :: dict_keys stocks_config = ["DEFAULT"]))
      eqn:Hs.
    + apply bool_decide_eq_true in Hs.
      eexists. split; [reflexivity|]. split; [discriminate|].
      intros [_ Hne]. destruct stocks_config; [congruence|discriminate].
    + apply bool_decide_eq_false in Hs.
      eexists. split; [reflexivity|]. split; [|reflexivity].
      intros _. split; [exists d, f, g; auto|].
      intros ->. apply Hs. reflexivity.
Qed.

(** X23: [verify_config_keys] never raises, and it prints nothing exactly
    when [config.ini] has the sections [DEFAULT], [Frame] and [General] in
    this order and no other, [DEFAULT] without a key, [Frame] with the keys
    [width], [height] and [General] with the keys [independent_graphs],
    [timezone], [rounding_mode], in this order and no other, and
    [portfolio.ini] has at least one section.  A key in another place, or an
    additional key, is reported as a missing one. *)
Theorem verify_config_keys_silent_iff (config : Config)
    (stocks_config : dict StockConfig) :
  exists message, verify_config_keys config stocks_config = Ok message /\
    (message = None <-> config_shape config /\ stocks_config <> []).
Proof. apply verify_config_keys_spec. Qed.

Lemma config_shape_items (config : Config) :
  config_shape config ->
  exists flag ws hs tz rm,
    config_item config "General" "independent_graphs" = Ok flag /\
    config_item config "Frame" "width" = Ok ws /\
    config_item config "Frame" "height" = Ok hs /\
    config_item config "General" "timezone" = Ok tz /\
    config_item config "General" "rounding_mode" = Ok rm.
Proof.
  intros (d & f & g & -> & _ & Hf & Hg).
  destruct f as [|[k1 ws] [|[k2 hs] [|? ?]]]; try discriminate.
  injection Hf as -> ->.
  destruct g as [|[k1 flag] [|[k2 tz] [|[k3 rm] [|? ?]]]]; try discriminate.
  injection Hg as -> -> ->.
  exists flag, ws, hs, tz, rm. repeat split; reflexivity.
Qed.

(** X24: when [verify_config_keys] printed nothing, every key that [main]
    reads in [config.ini] is there: without [--width] and [--height], the
    arguments of [gen_graphs] are obtained, unless [int] rejects the text of
    the width or of the height with [ValueError], and the rounding mode is
    obtained. *)
Theorem verified_config_has_every_key (py_int : string -> option Z)
    (args : Args) (config : Config) (stocks_config : dict StockConfig) :
  verify_config_keys config stocks_config = Ok None ->
  truthy_int (arg_width args) = false ->
  truthy_int (arg_height args) = false ->
  ((exists r, graph_arguments py_int args config = Returned r) \/
   graph_arguments py_int args config = Failed (Builtin ValueError)) /\
  exists mode, rounding_argument args config = Returned mode.
Proof.
  intros Hv Hw Hh.
  destruct (verify_config_keys_spec config stocks_config) as (m & Hm & Hiff).
  rewrite Hv in Hm. injection Hm as <-.
  destruct (proj1 Hiff eq_refl) as [Hshape _].
  destruct (config_shape_items _ Hshape)
    as (flag & ws & hs & tz & rm & Hflag & Hws & Hhs & Htz & Hrm).
  split.
  - unfold graph_arguments. rewrite Hflag, Hw, Hh, Hws, Hhs, Htz.
    cbn [lift outcome_bind]. unfold int_of.
    destruct (py_int ws) as [nw|]; [|right; reflexivity]. cbn [outcome_bind].
    destruct (py_int hs) as [nh|]; [|right; reflexivity]. cbn [outcome_bind].
    left. destruct (truthy_str (arg_timezone args)); eexists; reflexivity.
  - unfold rounding_argument. rewrite Hrm.
    destruct (arg_rounding_mode args) as [s|];
      [destruct (truthy_str s)|]; eexists; reflexivity.
Qed.

Lemma verified_config_has_every_key_witness :
  graph_arguments demo_int demo_args demo_ini =
    Returned (false, 80%Z, 20%Z, "America/New_York") /\
  rounding_argument demo_args demo_ini = Returned "math".
Proof.
  destruct (verified_config_has_every_key demo_int demo_args demo_ini
              demo_config eq_refl eq_refl eq_refl) as [[[r Hr]|Hr] [mode Hmode]].
  - split; [rewrite Hr|rewrite Hmode]; [vm_compute in Hr|vm_compute in Hmode];
      congruence.
  - vm_compute in Hr. discriminate.
Defined.

Section CommandLineProperties.
Context `{Externals}.
Variable py_int : string -> option Z.

Lemma verify_config_keys_returns (config : Config)
    (stocks_config : dict StockConfig) :
  exists message, verify_config_keys config stocks_config = Ok message.
Proof.
  destruct (verify_config_keys_spec config stocks_config) as (m & Hm & _).
  exists m. exact Hm.
Qed.

Lemma main_cli_unfold (market_data : MarketData) (args : Args)
    (config : Config) (stocks_config : dict StockConfig) :
  main_cli py_int market_data args config stocks_config =
    (run portfolio <- lift (populate market_data stocks_config new_Portfolio);
     run ' (independent_graphs, width, height, timezone) <-
       graph_arguments py_int args config;
     run portfolio <- lift (gen_graphs independent_graphs width height portfolio);
     run mode <- rounding_argument args config;
     lift (print_table mode portfolio)).
Proof.
  unfold main_cli.
  destruct (verify_config_keys_returns config stocks_config) as [m ->].
  reflexivity.
Qed.

End CommandLineProperties.

Lemma graph_arguments_size_option (py_int : string -> option Z) (args : Args)
    (config : Config) :
  truthy_int (arg_width args) = true \/ truthy_int (arg_height args) = true ->
  exists e, graph_arguments py_int args config = Failed e.
Proof.
  intros Hsize. unfold graph_arguments.
  destruct (config_item config "General" "independent_graphs") as [flag|];
    cbn [lift outcome_bind]; [|eexists; reflexivity].
  destruct (truthy_int (arg_width args)) eqn:Hw;
    cbn [outcome_bind]; [eexists; reflexivity|].
  destruct Hsize as [Hsize|Hh]; [discriminate|]. rewrite Hh.
  destruct (config_item config "Frame" "width") as [ws|];
    cbn [lift outcome_bind]; [|eexists; reflexivity].
  unfold int_of. destruct (py_int ws) as [nw|];
    cbn [outcome_bind]; eexists; reflexivity.
Qed.

(** X25: the options [--width] and [--height] cannot be used.  [main]
    tests [args.width] and [args.height] but then reads [args.graph_width]
    and [args.graph_height], which the parsed arguments do not have: with a
    width or a height other than [0] on the command line, [main] never gets
    to the graphs or to the table, and when the fetched data were populated
    and [config.ini] has the key [independent_graphs], a width ends the run
    with [AttributeError]. *)
Theorem size_option_raises_attribute_error (E : Externals)
    (py_int : string -> option Z) (args : Args) :
  truthy_int (arg_width args) = true \/ truthy_int (arg_height args) = true ->
  (forall market_data config stocks_config,
     exists e, main_cli py_int market_data args config stocks_config = Failed e)
  /\ (truthy_int (arg_width args) = true ->
      forall market_data config stocks_config p flag,
        populate market_data stocks_config new_Portfolio = Ok p ->
        config_item config "General" "independent_graphs" = Ok flag ->
        main_cli py_int market_data args config stocks_config =
          Failed (AttributeError "graph_width")).
Proof.
  intros Hsize. split.
  - intros market_data config stocks_config. rewrite main_cli_unfold.
    destruct (populate market_data stocks_config new_Portfolio) as [p|];
      cbn [lift outcome_bind]; [|eexists; reflexivity].
    destruct (graph_arguments_size_option py_int args config Hsize) as [e ->].
    eexists; reflexivity.
  - intros Hw market_data config stocks_config p flag Hp Hflag.
    rewrite main_cli_unfold, Hp. cbn [lift outcome_bind].
    unfold graph_arguments. rewrite Hflag, Hw. reflexivity.
Qed.

Lemma size_option_raises_attribute_error_witness :
  main_cli demo_int demo_market (mkArgs (Some 100%Z) None false "UTC" None)
    demo_ini demo_config = Failed (AttributeError "graph_width") /\
  exists p rep,
    main_cli demo_int demo_market (mkArgs (Some 0%Z) None false "UTC" None)
      demo_ini demo_config = Returned (p, rep).
Proof.
  split.
  - destruct (size_option_raises_attribute_error demo_externals demo_int
                (mkArgs (Some 100%Z) None false "UTC" None)) as [_ Hw].
    + left. reflexivity.
    + apply (Hw eq_refl demo_market demo_ini demo_config
               (result_get new_Portfolio
                  (populate demo_market demo_config new_Portfolio)) "False");
        reflexivity.
  - eexists _, _. vm_compute. reflexivity.
Defined.

(** X26: once the arguments are obtained from the command line and
    [config.ini], [main] is the run from the fetched data on: what
    [verify_config_keys] found plays no part in it, and the time zone only
    places the x axis. *)
Theorem main_cli_runs_main (E : Externals) (py_int : string -> option Z)
    (market_data : MarketData) (args : Args) (config : Config)
    (stocks_config : dict StockConfig) (independent_graphs : bool) (w h : Z)
    (timezone mode : string) :
  graph_arguments py_int args config =
    Returned (independent_graphs, w, h, timezone) ->
  rounding_argument args config = Returned mode ->
  main_cli py_int market_data args config stocks_config =
    lift (main market_data stocks_config independent_graphs w h mode).
Proof.
  intros Hargs Hmode. rewrite main_cli_unfold. unfold main.
  destruct (populate market_data stocks_config new_Portfolio) as [p|];
    cbn [lift outcome_bind bind]; [|reflexivity].
  rewrite Hargs. cbn [outcome_bind].
  destruct (gen_graphs independent_graphs w h p) as [p'|];
    cbn [lift outcome_bind bind]; [|reflexivity].
  rewrite Hmode. reflexivity.
Qed.

Lemma main_cli_runs_main_witness :
  main_cli demo_int demo_market
    (mkArgs None None true "UTC" (Some "down"))
    [("General", [("independent_graphs", "False"); ("rounding_mode", "math")]);
     ("Frame", [("height", "20"); ("width", "80")])]
    demo_config =
  lift (main demo_market demo_config true 80 20 "down").
Proof.
  apply (main_cli_runs_main demo_externals demo_int demo_market _ _ demo_config
           true 80 20 "UTC" "down"); reflexivity.
Defined.

(** ** When the graphs can be generated *)




Section GraphReturns.
Context `{Externals}.






End GraphReturns.

Section ChartsReturn.
Context `{Externals}.



End ChartsReturn.




(** ** When the graphs cannot be generated *)



Section GraphRaises.
Context `{Externals}.



End GraphRaises.

Section ChartsRaise.
Context `{Externals}.


End ChartsRaise.


